(** * Matchmaking queue and room relay of [server.js]

    A shallow embedding of the WebSocket core of [server.js]: the three
    registries [clients], [waiting] and [rooms], the helpers [send],
    [broadcast], [cleanup], [createRoomFromQueue], [maybeStart], and the
    callbacks installed by [wss.on("connection")].

    Conventions.
    - A socket object is known by its identity only: [conn := nat].
    - JavaScript numbers are IEEE doubles; the code only converts them
      (truthiness, [Number], [String], template literals), so the number
      type is kept abstract behind the interface [JSNumber].
    - [uid()] and [Date.now()] are results of the environment: each
      callback receives them as arguments.
    - Callbacks run to completion; a callback either returns ([Done]) or
      throws ([Threw]), and the state mutated before a throw stays mutated.
      Nothing catches what a callback throws: the process ends, so a run
      goes on through callbacks that return ([exec]).
    - [String(v)] and [Number(v)] throw on some values of [JSON.parse]
      ([js_to_string], [js_to_number]).
    - What the [ws] library does (ready states, [close], which events can
      occur) is written out in [ws_close] and [enabled].
    - A character of a [string] stands for one UTF-16 code unit below 256;
      the ellipsis of the status text is kept as the bytes of the literal. *)

From Stdlib Require Import ZArith Lia Ascii.
From stdpp Require Import base option list gmap strings pretty fin_maps.

(** ** JavaScript values *)

(** The operations on numbers that [server.js] relies on. *)
Class JSNumber (num : Type) := {
  num_of_nat : nat → num;          (* the literals 0 and 1 *)
  num_truthy : num → bool;         (* ToBoolean: false for 0, -0 and NaN *)
  num_to_string : num → string;    (* Number::toString, radix 10 *)
  num_of_string : string → num     (* StringToNumber *)
}.

(** The integer fragment of the numbers, used to run the model on concrete
    inputs: integers and NaN. A string is read as a number when it is empty
    or a plain decimal integer, and as NaN otherwise (JavaScript also reads
    blanks, fractions, exponents and hexadecimal); the concrete runs below
    convert no other string. *)
Inductive znum := ZInt (z : Z) | ZNaN.

Fixpoint digits_value (s : string) (acc : N) : option N :=
  match s with
  | EmptyString => Some acc
  | String a s' =>
      let n := Ascii.N_of_ascii a in
      if ((48 <=? n) && (n <=? 57))%N
      then digits_value s' (acc * 10 + (n - 48))%N
      else None
  end.

Definition znum_of_string (s : string) : znum :=
  match s with
  | EmptyString => ZInt 0
  | String "-"%char (String _ _ as s') =>
      match digits_value s' 0 with Some n => ZInt (- Z.of_N n) | None => ZNaN end
  | _ => match digits_value s 0 with Some n => ZInt (Z.of_N n) | None => ZNaN end
  end.

Definition znum_ops : JSNumber znum := {|
  num_of_nat n := ZInt (Z.of_nat n);
  num_truthy x := match x with ZInt z => negb (z =? 0)%Z | ZNaN => false end;
  num_to_string x := match x with ZInt z => pretty z | ZNaN => "NaN" end;
  num_of_string := znum_of_string
|}.

Section Server.

Context {num : Type} {NUM : JSNumber num}.

(** A value produced by [JSON.parse]. [undefined] is [None] of [option json]. *)
#[warnings="-register-all"]
Inductive json :=
| JNull
| JBool (b : bool)
| JNum (n : num)
| JStr (s : string)
| JArr (xs : list json)
| JObj (fields : list (string * json)).

(** [v.name] for a non-null [v]: own properties exist on objects only (none of
    the six names read by the server is inherited by a primitive, an array or
    an object). The fields of [JObj] are the own properties of the object, a
    key once; [assoc] reads the first binding of a key. *)
Fixpoint assoc (name : string) (fields : list (string * json)) : option json :=
  match fields with
  | [] => None
  | (k, v) :: rest => if String.eqb k name then Some v else assoc name rest
  end.

Definition get_prop (name : string) (v : json) : option json :=
  match v with
  | JObj fields => assoc name fields
  | _ => None
  end.

(** ToBoolean *)
Definition str_truthy (s : string) : bool :=
  match s with EmptyString => false | _ => true end.

Definition js_truthy (v : json) : bool :=
  match v with
  | JNull => false
  | JBool b => b
  | JNum n => num_truthy n
  | JStr s => str_truthy s
  | JArr _ | JObj _ => true
  end.

(** [a || b] *)
Definition js_or (a : option json) (b : json) : json :=
  match a with
  | Some v => if js_truthy v then v else b
  | None => b
  end.

Definition join_with (sep : string) (parts : list string) : string :=
  match parts with
  | [] => ""
  | p :: ps => foldl (λ acc x, acc +:+ sep +:+ x) p ps
  end.

(** [String(v)]; [None] when the conversion throws a TypeError. An object
    made by [JSON.parse] converts through [Object.prototype.toString] unless
    it has an own property "toString", which no JSON value makes callable:
    then neither [toString] nor [valueOf] yields a primitive. An array
    converts through [join], which converts its elements ([null] to the
    empty string). *)
Fixpoint js_to_string (v : json) : option string :=
  match v with
  | JNull => Some "null"
  | JBool true => Some "true"
  | JBool false => Some "false"
  | JNum n => Some (num_to_string n)
  | JStr s => Some s
  | JArr xs =>
      join_with "," <$>
        mapM (λ x, match x with JNull => Some "" | _ => js_to_string x end) xs
  | JObj fields =>
      match assoc "toString" fields with
      | Some _ => None
      | None => Some "[object Object]"
      end
  end.

(** [Number(v)]; arrays and objects convert through their string. *)
Definition js_to_number (v : json) : option num :=
  match v with
  | JNull => Some (num_of_nat 0)
  | JBool true => Some (num_of_nat 1)
  | JBool false => Some (num_of_nat 0)
  | JNum n => Some n
  | JStr s => Some (num_of_string s)
  | JArr _ | JObj _ => num_of_string <$> js_to_string v
  end.

(** [s.trim()] and [s.slice(0, n)] *)
Definition is_white (a : Ascii.ascii) : bool :=
  let n := Ascii.nat_of_ascii a in
  ((9 <=? n) && (n <=? 13)) || (n =? 32) || (n =? 160).

Fixpoint trim_start (s : string) : string :=
  match s with
  | String a s' => if is_white a then trim_start s' else s
  | EmptyString => EmptyString
  end.

Definition trim (s : string) : string :=
  String.rev (trim_start (String.rev (trim_start s))).

Definition slice0 (n : nat) (s : string) : string := String.substring 0 n s.

(** ** The three registries *)

Definition conn := nat.

Record Session := {
  c_id : string;
  c_tier : option num;
  c_tankName : option string;
  c_mode : option string;
  c_roomId : option string;
  c_username : string
}.

Record Bucket := {
  queue : list conn;
  timer : option nat;
  startedAt : Z
}.

Record Player := {
  p_id : string;
  p_tankName : option string;
  p_username : string
}.

Record Room := {
  hostWs : option conn;
  sockets : list conn;
  players : list Player;
  r_mode : string;
  r_tier : num
}.

(** Messages handed to [ws.send]. *)
Inductive OutMsg :=
| Welcome (id : string)
| RoomInfo (roomId hostId : option string) (ps : list Player) (text : string)
| HostStart
| InputFrom (fromId : string) (payload : json)
| Relayed (type : string) (payload : json)
| Info (text : string).

Inductive ReadyState := Open | Closing | Closed.

(** The closure passed to [setTimeout] captures [mode] and [tier]. *)
Record Timer := {
  t_mode : string;
  t_tier : num;
  t_delay : Z
}.

Record World := {
  clients : gmap conn Session;
  waiting : gmap string Bucket;
  rooms : gmap string Room;
  socks : gmap conn ReadyState;
  timers : gmap nat Timer;
  next_timer : nat;
  outbox : list (conn * OutMsg)
}.

Definition set_clients (f : gmap conn Session → gmap conn Session) (w : World) : World :=
  {| clients := f (clients w); waiting := waiting w; rooms := rooms w;
     socks := socks w; timers := timers w; next_timer := next_timer w;
     outbox := outbox w |}.

Definition set_waiting (f : gmap string Bucket → gmap string Bucket) (w : World) : World :=
  {| clients := clients w; waiting := f (waiting w); rooms := rooms w;
     socks := socks w; timers := timers w; next_timer := next_timer w;
     outbox := outbox w |}.

Definition set_rooms (f : gmap string Room → gmap string Room) (w : World) : World :=
  {| clients := clients w; waiting := waiting w; rooms := f (rooms w);
     socks := socks w; timers := timers w; next_timer := next_timer w;
     outbox := outbox w |}.

Definition set_socks (f : gmap conn ReadyState → gmap conn ReadyState) (w : World) : World :=
  {| clients := clients w; waiting := waiting w; rooms := rooms w;
     socks := f (socks w); timers := timers w; next_timer := next_timer w;
     outbox := outbox w |}.

Definition set_timers (f : gmap nat Timer → gmap nat Timer) (w : World) : World :=
  {| clients := clients w; waiting := waiting w; rooms := rooms w;
     socks := socks w; timers := f (timers w); next_timer := next_timer w;
     outbox := outbox w |}.

Definition emit (out : list (conn * OutMsg)) (w : World) : World :=
  {| clients := clients w; waiting := waiting w; rooms := rooms w;
     socks := socks w; timers := timers w; next_timer := next_timer w;
     outbox := outbox w ++ out |}.

Definition world0 : World :=
  {| clients := ∅; waiting := ∅; rooms := ∅; socks := ∅; timers := ∅;
     next_timer := 0; outbox := [] |}.

Inductive Outcome := Done | Threw.

(** ** Mode tables *)

Definition needMin (mode : string) : nat :=
  if String.eqb mode "ONLINE2V2" then 4 else 2.

Definition needExact (mode : string) : nat :=
  if String.eqb mode "ONLINE1V1" then 2
  else if String.eqb mode "ONLINE2V2" then 4
  else 0.

Definition maxPlayers (mode : string) : nat :=
  if String.eqb mode "ONLINEPVP" then 6 else needExact mode.

Definition keyOf (mode : string) (tier : num) : string :=
  mode +:+ "|" +:+ num_to_string tier.

(** ** Sending *)

Definition is_open (w : World) (ws : conn) : bool :=
  match socks w !! ws with Some Open => true | _ => false end.

Definition send (ws : conn) (obj : OutMsg) (w : World) : World :=
  if is_open w ws then emit [(ws, obj)] w else w.

(** [send(hostWs, obj)] where [hostWs] may be [undefined]. *)
Definition send_opt (ws : option conn) (obj : OutMsg) (w : World) : World :=
  match ws with Some s => send s obj w | None => w end.

Definition broadcast (q : list conn) (obj : OutMsg) (w : World) : World :=
  foldl (λ acc s, send s obj acc) w q.

(** [s.close()]: an open socket starts its closing handshake. *)
Definition ws_close (s : conn) (w : World) : World :=
  if is_open w s then set_socks (<[s := Closing]>) w else w.

Definition clearTimeout (h : nat) (w : World) : World :=
  set_timers (delete h) w.

(** [if(bucket.timer) clearTimeout(bucket.timer); waiting.delete(k);] *)
Definition drop_bucket (k : string) (bucket : Bucket) (w : World) : World :=
  let w1 := match timer bucket with Some h => clearTimeout h w | None => w end in
  set_waiting (delete k) w1.

Definition with_queue (q : list conn) (b : Bucket) : Bucket :=
  {| queue := q; timer := timer b; startedAt := startedAt b |}.

(** ** [cleanup] *)

Definition disconnect_notice : OutMsg :=
  Info "A player disconnected. Match ended.".

(** Lines 59-69: leave the bucket of the session's current mode and tier. *)
Definition leave_queue (ws : conn) (c : Session) (w : World) : World :=
  match c_mode c, c_tier c with
  | Some m, Some t =>
      if str_truthy m then
        let k := keyOf m t in
        match waiting w !! k with
        | Some bucket =>
            let q := filter (λ x, x ≠ ws) (queue bucket) in
            match q with
            | [] => drop_bucket k bucket w
            | _ => set_waiting (<[k := with_queue q bucket]>) w
            end
        | None => w
        end
      else w
  | _, _ => w
  end.

(** Lines 74-77: one turn of the loop over [room.sockets]. *)
Definition close_member (ws : conn) (w : World) (s : conn) : World :=
  ws_close s (if bool_decide (s ≠ ws) then send s disconnect_notice w else w).

(** Lines 72-79. *)
Definition close_room (ws : conn) (c : Session) (w : World) : World :=
  match c_roomId c with
  | Some rid =>
      if str_truthy rid then
        match rooms w !! rid with
        | Some room =>
            set_rooms (delete rid) (foldl (close_member ws) w (sockets room))
        | None => w
        end
      else w
  | None => w
  end.

Definition cleanup (ws : conn) (w : World) : World :=
  match clients w !! ws with
  | None => w
  | Some c =>
      let w1 := leave_queue ws c w in
      let w2 := close_room ws c w1 in
      set_clients (delete ws) w2
  end.

(** ** [createRoomFromQueue] *)

Definition searching (text : string) : OutMsg :=
  RoomInfo None None [] ("Searching… " +:+ text +:+ " players").

(** [needExact(mode) || `${needMin(mode)}-${maxPlayers(mode)}`] *)
Definition need_text (mode : string) : string :=
  match needExact mode with
  | 0 => pretty (needMin mode) +:+ "-" +:+ pretty (maxPlayers mode)
  | n => pretty n
  end.

(** Line 108; [cc.username || ""] is [cc.username], a string. *)
Definition player_of (cc : Session) : Player :=
  {| p_id := c_id cc; p_tankName := c_tankName cc;
     p_username := if str_truthy (c_username cc) then c_username cc else "" |}.

(** Lines 106-109: [sockets.map(...)]; [None] when [clients.get(s)] is
    [undefined] for some [s], where [cc.id] throws. *)
Definition players_of (cl : gmap conn Session) (ss : list conn) : option (list Player) :=
  mapM (λ s, player_of <$> cl !! s) ss.

Definition with_room (rid : string) (c : Session) : Session :=
  {| c_id := c_id c; c_tier := c_tier c; c_tankName := c_tankName c;
     c_mode := c_mode c; c_roomId := Some rid; c_username := c_username c |}.

(** Line 111: [for(const s of sockets) clients.get(s).roomId = roomId]. *)
Fixpoint assign_room (rid : string) (ss : list conn) (cl : gmap conn Session)
  : option (gmap conn Session) :=
  match ss with
  | [] => Some cl
  | s :: rest =>
      match cl !! s with
      | Some c => assign_room rid rest (<[s := with_room rid c]> cl)
      | None => None
      end
  end.

(** Lines 115-117: the argument of each [send] reads [clients.get(hostWs).id]. *)
Fixpoint announce (rid : string) (host : option conn) (ps : list Player)
    (ss : list conn) (w : World) : Outcome * World :=
  match ss with
  | [] => (Done, w)
  | s :: rest =>
      match host ≫= (λ h, clients w !! h) with
      | Some hc =>
          announce rid host ps rest
            (send s (RoomInfo (Some rid) (Some (c_id hc)) ps "Match found!") w)
      | None => (Threw, w)
      end
  end.

Definition createRoomFromQueue (mode : string) (tier : num) (takeN : nat)
    (roomId : string) (w : World) : Outcome * World :=
  let k := keyOf mode tier in
  match waiting w !! k with
  | None => (Done, w)
  | Some bucket =>
      let q := queue bucket in
      if takeN <=? 0 then (Done, w) else
      let sockets := take takeN q in
      let q := drop takeN q in
      let w1 :=
        match q with
        | [] => drop_bucket k bucket w
        | _ =>
            broadcast q
              (searching (pretty (length q) +:+ "/" +:+ need_text mode))
              (set_waiting (<[k := with_queue q bucket]>) w)
        end in
      let hostWs := head sockets in
      match players_of (clients w1) sockets with
      | None => (Threw, w1)
      | Some players =>
          match assign_room roomId sockets (clients w1) with
          | None => (Threw, w1)
          | Some cl =>
              let w2 := set_clients (λ _, cl) w1 in
              let room := {| hostWs := hostWs; sockets := sockets;
                             players := players; r_mode := mode; r_tier := tier |} in
              let w3 := set_rooms (<[roomId := room]>) w2 in
              match announce roomId hostWs players sockets w3 with
              | (Done, w4) => (Done, send_opt hostWs HostStart w4)
              | thrown => thrown
              end
          end
      end
  end.

(** ** [maybeStart] and its timer callback *)

Definition with_timer (h : option nat) (started : Z) (b : Bucket) : Bucket :=
  {| queue := queue b; timer := h; startedAt := started |}.

(** [setTimeout(callback, 6500)]: a fresh handle, pending until it fires or is
    cleared. *)
Definition setTimeout (t : Timer) (w : World) : nat * World :=
  let h := next_timer w in
  (h, {| clients := clients w; waiting := waiting w; rooms := rooms w;
         socks := socks w; timers := <[h := t]> (timers w);
         next_timer := S h; outbox := outbox w |}).

Definition maybeStart (mode : string) (tier : num) (roomId : string) (now : Z)
    (w : World) : Outcome * World :=
  let k := keyOf mode tier in
  match waiting w !! k with
  | None => (Done, w)
  | Some bucket =>
      let q := queue bucket in
      let exact := needExact mode in
      let maxP := maxPlayers mode in
      let minP := needMin mode in
      if negb (exact =? 0) then
        if exact <=? length q
        then createRoomFromQueue mode tier exact roomId w
        else (Done, w)
      else if maxP <=? length q then
        createRoomFromQueue mode tier maxP roomId w
      else if (minP <=? length q) && negb (bool_decide (is_Some (timer bucket))) then
        let (h, w1) :=
          setTimeout {| t_mode := mode; t_tier := tier; t_delay := 6500 |} w in
        (Done, set_waiting (<[k := with_timer (Some h) now bucket]>) w1)
      else (Done, w)
  end.

(** Lines 148-157, the callback; the runtime has already retired the handle. *)
Definition on_timer (mode : string) (tier : num) (roomId : string) (w : World)
  : Outcome * World :=
  let k := keyOf mode tier in
  let minP := needMin mode in
  match waiting w !! k with
  | None => (Done, w)
  | Some b =>
      let w1 := set_waiting (<[k := with_timer None (startedAt b) b]>) w in
      let n := Nat.min (maxPlayers mode) (length (queue b)) in
      if minP <=? n
      then createRoomFromQueue mode tier n roomId w1
      else (Done, w1)
  end.

(** ** The callbacks of [wss.on("connection")] *)

Definition fresh_session (id : string) : Session :=
  {| c_id := id; c_tier := None; c_tankName := None; c_mode := None;
     c_roomId := None; c_username := "" |}.

Definition on_connection (ws : conn) (id : string) (w : World) : World :=
  send ws (Welcome id) (set_clients (<[ws := fresh_session id]>) w).

Definition is_type (name : string) (type : option json) : bool :=
  match type with
  | Some (JStr s) => String.eqb s name
  | _ => false
  end.

Definition empty_bucket : Bucket := {| queue := []; timer := None; startedAt := 0 |}.

(** [if(!bucket.queue.includes(ws)) bucket.queue.push(ws)] *)
Definition enqueue (ws : conn) (q : list conn) : list conn :=
  if bool_decide (ws ∈ q) then q else q ++ [ws].

(** Lines 193-196: the four values assigned to the session. *)
Record JoinFields := {
  join_tier : num;
  join_tankName : string;
  join_mode : string;
  join_username : string
}.

(** The fields of a join message when none of the conversions throws. *)
Definition join_fields (msg : json) : option JoinFields :=
  tier ← js_to_number (js_or (get_prop "tier" msg) (JNum (num_of_nat 1)));
  tankName ← js_to_string (js_or (get_prop "tankName" msg) (JStr "Tank"));
  mode ← js_to_string (js_or (get_prop "mode" msg) (JStr "ONLINEPVP"));
  username ← js_to_string (js_or (get_prop "username" msg) (JStr ""));
  Some {| join_tier := tier; join_tankName := tankName; join_mode := mode;
          join_username := slice0 16 (trim username) |}.

Definition joined (f : JoinFields) (c : Session) : Session :=
  {| c_id := c_id c; c_tier := Some (join_tier f);
     c_tankName := Some (join_tankName f); c_mode := Some (join_mode f);
     c_roomId := c_roomId c; c_username := join_username f |}.

(** Lines 198-208. *)
Definition enqueue_and_start (ws : conn) (c : Session) (f : JoinFields)
    (roomId : string) (now : Z) (w : World) : Outcome * World :=
  let c := joined f c in
  let w1 := set_clients (<[ws := c]>) w in
  let mode := join_mode f in
  let tier := join_tier f in
  let k := keyOf mode tier in
  let bucket := default empty_bucket (waiting w1 !! k) in
  let bucket := with_queue (enqueue ws (queue bucket)) bucket in
  let w2 := set_waiting (<[k := bucket]>) w1 in
  let exact := needExact mode in
  let needTxt :=
    match exact with
    | 0 => pretty (length (queue bucket)) +:+ "/" +:+ pretty (needMin mode)
             +:+ "-" +:+ pretty (maxPlayers mode)
    | _ => pretty (length (queue bucket)) +:+ "/" +:+ pretty exact
    end in
  let w3 := broadcast (queue bucket) (searching needTxt) w2 in
  maybeStart mode tier roomId now w3.

Definition with_tier (tier : num) (c : Session) : Session :=
  {| c_id := c_id c; c_tier := Some tier; c_tankName := c_tankName c;
     c_mode := c_mode c; c_roomId := c_roomId c; c_username := c_username c |}.
Definition with_tankName (tankName : string) (c : Session) : Session :=
  {| c_id := c_id c; c_tier := c_tier c; c_tankName := Some tankName;
     c_mode := c_mode c; c_roomId := c_roomId c; c_username := c_username c |}.
Definition with_mode (mode : string) (c : Session) : Session :=
  {| c_id := c_id c; c_tier := c_tier c; c_tankName := c_tankName c;
     c_mode := Some mode; c_roomId := c_roomId c; c_username := c_username c |}.

(** Lines 192-210. A conversion that throws leaves the session with the
    fields assigned before it. *)
Definition on_join (ws : conn) (c : Session) (msg : json) (roomId : string)
    (now : Z) (w : World) : Outcome * World :=
  match js_to_number (js_or (get_prop "tier" msg) (JNum (num_of_nat 1))) with
  | None => (Threw, w)
  | Some tier =>
      let c1 := with_tier tier c in
      match js_to_string (js_or (get_prop "tankName" msg) (JStr "Tank")) with
      | None => (Threw, set_clients (<[ws := c1]>) w)
      | Some tankName =>
          let c2 := with_tankName tankName c1 in
          match js_to_string (js_or (get_prop "mode" msg) (JStr "ONLINEPVP")) with
          | None => (Threw, set_clients (<[ws := c2]>) w)
          | Some mode =>
              let c3 := with_mode mode c2 in
              match js_to_string (js_or (get_prop "username" msg) (JStr "")) with
              | None => (Threw, set_clients (<[ws := c3]>) w)
              | Some username =>
                  enqueue_and_start ws c
                    {| join_tier := tier; join_tankName := tankName;
                       join_mode := mode;
                       join_username := slice0 16 (trim username) |}
                    roomId now w
              end
          end
      end
  end.

(** [msg.payload || {}] *)
Definition payload_of (msg : json) : json :=
  js_or (get_prop "payload" msg) (JObj []).

(** Lines 225-227: one turn of the loop over [room.sockets]. *)
Definition relay_member (ws : conn) (obj : OutMsg) (w : World) (s : conn) : World :=
  if bool_decide (s ≠ ws) then send s obj w else w.

(** Lines 212-230; [type] is the string [msg.type]. *)
Definition on_relay (ws : conn) (c : Session) (type : string) (msg : json)
    (w : World) : World :=
  match c_roomId c with
  | Some rid =>
      if str_truthy rid then
        match rooms w !! rid with
        | Some room =>
            if String.eqb type "input" then
              if bool_decide (hostWs room ≠ Some ws)
              then send_opt (hostWs room) (InputFrom (c_id c) (payload_of msg)) w
              else w
            else if bool_decide (hostWs room = Some ws) then
              foldl (relay_member ws (Relayed type (payload_of msg))) w (sockets room)
            else w
        | None => w
        end
      else w
  | None => w
  end.

(** Lines 186-231. [body] is [None] when [JSON.parse] throws, which the
    handler catches; reading [msg.type] of [null] throws a TypeError that
    nothing catches. *)
Definition on_message (ws : conn) (body : option json) (roomId : string)
    (now : Z) (w : World) : Outcome * World :=
  match body with
  | None => (Done, w)
  | Some msg =>
      match clients w !! ws with
      | None => (Done, w)
      | Some c =>
          match msg with
          | JNull => (Threw, w)
          | _ =>
              let type := get_prop "type" msg in
              if is_type "join" type then on_join ws c msg roomId now w
              else if is_type "input" type then (Done, on_relay ws c "input" msg w)
              else if is_type "init" type then (Done, on_relay ws c "init" msg w)
              else if is_type "snapshot" type then (Done, on_relay ws c "snapshot" msg w)
              else (Done, w)
          end
      end
  end.

(** ** The event loop *)

Inductive Event :=
| Connect (ws : conn) (id : string)
| Message (ws : conn) (body : option json) (roomId : string) (now : Z)
| Close (ws : conn)
| SockError (ws : conn)
| Fire (h : nat) (roomId : string).

Definition alive (w : World) (ws : conn) : bool :=
  match socks w !! ws with
  | Some Open | Some Closing => true
  | _ => false
  end.

(** Which events the runtime can deliver: a connection event comes with a new
    socket object, the events of a socket stop with its close event, and a
    timer fires while it is pending. *)
Definition enabled (e : Event) (w : World) : bool :=
  match e with
  | Connect ws _ => bool_decide (socks w !! ws = None)
  | Message ws _ _ _ => alive w ws
  | Close ws => alive w ws
  | SockError ws => alive w ws
  | Fire h _ => bool_decide (is_Some (timers w !! h))
  end.

Definition handle (e : Event) (w : World) : Outcome * World :=
  match e with
  | Connect ws id => (Done, on_connection ws id (set_socks (<[ws := Open]>) w))
  | Message ws body roomId now => on_message ws body roomId now w
  | Close ws => (Done, cleanup ws (set_socks (<[ws := Closed]>) w))
  | SockError ws => (Done, cleanup ws (set_socks (<[ws := Closing]>) w))
  | Fire h roomId =>
      match timers w !! h with
      | Some t => on_timer (t_mode t) (t_tier t) roomId (set_timers (delete h) w)
      | None => (Done, w)
      end
  end.

(** One turn of the loop; an uncaught exception ends the process. *)
Definition exec (e : Event) (w : World) : option World :=
  if enabled e w then
    match handle e w with
    | (Done, w') => Some w'
    | (Threw, _) => None
    end
  else None.

Fixpoint run (es : list Event) (w : World) : option World :=
  match es with
  | [] => Some w
  | e :: rest =>
      match exec e w with
      | Some w' => run rest w'
      | None => None
      end
  end.

Inductive reachable : World → Prop :=
| reach_init : reachable world0
| reach_step w e w' : reachable w → exec e w = Some w' → reachable w'.

(** ** Vocabulary of the statements *)

(** [broadcast] reaches the open sockets of the queue, in queue order. *)
Definition deliveries (w : World) (q : list conn) (obj : OutMsg) : list (conn * OutMsg) :=
  (λ s, (s, obj)) <$> filter (λ s, is_open w s) q.

Definition registered (cl : gmap conn Session) (s : conn) : Prop := is_Some (cl !! s).

Definition found_msg (rid : string) (hostId : option string) (ps : list Player) : OutMsg :=
  RoomInfo (Some rid) hostId ps "Match found!".

Definition status_text (mode : string) (q : list conn) : string :=
  pretty (length q) +:+ "/" +:+ need_text mode.

(** What a room materialization of the first [n] sockets of bucket [b] turns
    the state [w] into. *)
Record materialized (mode : string) (tier : num) (n : nat) (rid : string)
    (b : Bucket) (ps : list Player) (w w' : World) : Prop := {
  mat_players : players_of (clients w) (take n (queue b)) = Some ps;
  mat_clients : ∀ s, clients w' !! s =
      if bool_decide (s ∈ take n (queue b))
      then with_room rid <$> clients w !! s else clients w !! s;
  mat_waiting : waiting w' =
      match drop n (queue b) with
      | [] => delete (keyOf mode tier) (waiting w)
      | rest => <[keyOf mode tier := with_queue rest b]> (waiting w)
      end;
  mat_rooms : rooms w' =
      <[rid := {| hostWs := head (take n (queue b)); sockets := take n (queue b);
                  players := ps; r_mode := mode; r_tier := tier |}]> (rooms w);
  mat_socks : socks w' = socks w;
  mat_timers : timers w' =
      match drop n (queue b), timer b with
      | [], Some h => delete h (timers w)
      | _, _ => timers w
      end;
  mat_next : next_timer w' = next_timer w;
  mat_outbox : outbox w' = outbox w
      ++ match drop n (queue b) with
         | [] => []
         | rest => deliveries w rest (searching (status_text mode rest))
         end
      ++ deliveries w (take n (queue b))
           (found_msg rid (c_id <$> (head (take n (queue b)) ≫= λ h, clients w !! h)) ps)
      ++ match head (take n (queue b)) with
         | Some h => if is_open w h then [(h, HostStart)] else []
         | None => []
         end
}.

(** The state in which [maybeStart] is called by the join handler. *)
Definition after_enqueue (ws : conn) (c : Session) (f : JoinFields) (w : World) : World :=
  let k := keyOf (join_mode f) (join_tier f) in
  let b0 := default empty_bucket (waiting w !! k) in
  let q := enqueue ws (queue b0) in
  emit (deliveries w q (searching (status_text (join_mode f) q)))
    (set_waiting (<[k := with_queue q b0]>)
       (set_clients (<[ws := joined f c]>) w)).

(** The state left by lines 147-157: the window is armed. *)
Definition armed (mode : string) (tier : num) (now : Z) (b : Bucket) (w : World) : World :=
  set_waiting (<[keyOf mode tier := with_timer (Some (next_timer w)) now b]>)
    (setTimeout {| t_mode := mode; t_tier := tier; t_delay := 6500 |} w).2.

(** The number of sockets an immediate start takes, and whether one is due
    for a queue of [len] sockets. *)
Definition start_size (mode : string) : nat :=
  match needExact mode with 0 => maxPlayers mode | n => n end.

Definition start_due (mode : string) (len : nat) : bool :=
  negb (start_size mode =? 0) && (start_size mode <=? len).

(** A join message with its [mode] property set to [m]. *)
Definition with_mode_field (m : string) (msg : json) : json :=
  match msg with
  | JObj fields => JObj (("mode", JStr m) :: filter (λ kv, kv.1 ≠ "mode") fields)
  | _ => msg
  end.

(** The sentence of the specification on input messages, word for word: the
    payload reaches the host as it was sent. *)
Definition input_forwarded_verbatim : Prop :=
  ∀ ws c rid room msg p r now w,
    clients w !! ws = Some c → c_roomId c = Some rid → rid ≠ "" →
    rooms w !! rid = Some room → hostWs room ≠ Some ws →
    get_prop "type" msg = Some (JStr "input") →
    get_prop "payload" msg = Some p →
    on_message ws (Some msg) r now w =
      (Done, send_opt (hostWs room) (InputFrom (c_id c) p) w).

(** The sentence of the specification on unrecognized modes: such a join is
    handled as the same join with mode ONLINEPVP. *)
Definition unrecognized_mode_is_pvp : Prop :=
  ∀ ws c msg v rid now w,
    clients w !! ws = Some c →
    get_prop "type" msg = Some (JStr "join") →
    get_prop "mode" msg = Some v →
    v ≠ JStr "ONLINE1V1" → v ≠ JStr "ONLINE2V2" → v ≠ JStr "ONLINEPVP" →
    on_message ws (Some msg) rid now w =
      on_message ws (Some (with_mode_field "ONLINEPVP" msg)) rid now w.

(** The sentence of the specification on input messages, read by membership:
    the input of a member of a room that is not its host reaches that room's
    host. *)
Definition input_routed_by_membership : Prop :=
  ∀ ws c rid room h msg r now w,
    reachable w →
    clients w !! ws = Some c →
    rooms w !! rid = Some room → ws ∈ sockets room →
    hostWs room = Some h → h ≠ ws → is_open w h = true →
    get_prop "type" msg = Some (JStr "input") →
    ∃ p, (h, InputFrom (c_id c) p) ∈ outbox (on_message ws (Some msg) r now w).2.

(** The sentence of the specification on disconnects: when a member of a
    room closes, the room is removed, and every other member is sent the
    notice and is closed. *)
Definition member_close_ends_room : Prop :=
  ∀ ws rid room w,
    reachable w →
    rooms w !! rid = Some room → ws ∈ sockets room →
    enabled (Close ws) w = true →
    let w' := (handle (Close ws) w).2 in
    rooms w' !! rid = None ∧
    ∀ s, s ∈ sockets room → s ≠ ws → is_open w s = true →
      (s, disconnect_notice) ∈ outbox w' ∧ is_open w' s = false.

(** ** Invariants *)

Definition key_of_timer (t : Timer) : string := keyOf (t_mode t) (t_tier t).

(** Pending timers and the [timer] fields of the buckets correspond: a
    pending timer is the timer of the bucket it was armed for, and a bucket's
    timer is pending and was armed for that bucket. *)
Record timers_ok (w : World) : Prop := {
  pending_on_bucket : ∀ h t, timers w !! h = Some t →
    ∃ b, waiting w !! key_of_timer t = Some b ∧ timer b = Some h;
  bucket_timer_pending : ∀ k b h, waiting w !! k = Some b → timer b = Some h →
    ∃ t, timers w !! h = Some t ∧ key_of_timer t = k;
  pending_below_next : ∀ h, is_Some (timers w !! h) → h < next_timer w
}.

Definition queue_at (w : World) (k : string) : option (list conn) :=
  queue <$> waiting w !! k.

Definition queued (w : World) (s : conn) : Prop :=
  ∃ k q, queue_at w k = Some q ∧ s ∈ q.

Definition in_room (w : World) (s : conn) : Prop :=
  ∃ rid room, rooms w !! rid = Some room ∧ s ∈ sockets room.

Definition known (w : World) (s : conn) : Prop := is_Some (socks w !! s).

(** The invariant of the specification: a session has a room reference
    exactly when its socket is a member of a current room, and no socket is
    at once queued and a member of a room. *)
Definition session_invariant (w : World) : Prop :=
  (∀ s c, clients w !! s = Some c → (is_Some (c_roomId c) ↔ in_room w s)) ∧
  (∀ s, ¬ (queued w s ∧ in_room w s)).

(** What holds in every reachable state. *)
Record wf_general (w : World) : Prop := {
  sessions_known : ∀ s, is_Some (clients w !! s) → known w s;
  queued_known : ∀ s, queued w s → known w s;
  members_known : ∀ s, in_room w s → known w s;
  member_has_ref : ∀ s c, in_room w s → clients w !! s = Some c → is_Some (c_roomId c)
}.

(** Runs in which a socket joins only while it has no room reference and is
    queued in no other bucket, and in which [uid()] never returns the empty
    string. *)
Definition disciplined (e : Event) (w : World) : Prop :=
  match e with
  | Message ws (Some msg) rid _ =>
      rid ≠ "" ∧
      (is_type "join" (get_prop "type" msg) = true →
       ∀ c, clients w !! ws = Some c →
         c_roomId c = None ∧
         ∀ f k q, join_fields msg = Some f → queue_at w k = Some q → ws ∈ q →
           k = keyOf (join_mode f) (join_tier f))
  | Fire _ rid => rid ≠ ""
  | _ => True
  end.

Inductive well_behaved : World → Prop :=
| wb_init : well_behaved world0
| wb_step w e w' :
    well_behaved w → disciplined e w → exec e w = Some w' → well_behaved w'.

(** What holds in the states of such runs. *)
Record wf_disciplined (w : World) : Prop := {
  queued_unmatched : ∀ s c, queued w s → clients w !! s = Some c → c_roomId c = None;
  member_ref : ∀ rid room s, rooms w !! rid = Some room → s ∈ sockets room →
    ∃ c, clients w !! s = Some c ∧ c_roomId c = Some rid;
  queue_nodup : ∀ k q, queue_at w k = Some q → NoDup q;
  one_bucket : ∀ k1 k2 q1 q2 s, queue_at w k1 = Some q1 → queue_at w k2 = Some q2 →
    s ∈ q1 → s ∈ q2 → k1 = k2;
  room_ids : ∀ rid, is_Some (rooms w !! rid) → rid ≠ ""
}.

(** Runs without close and error events. *)
Definition no_disconnect (e : Event) : Prop :=
  match e with
  | Close _ | SockError _ => False
  | _ => True
  end.

Inductive connected_run : World → Prop :=
| cr_init : connected_run world0
| cr_step w e w' :
    connected_run w → no_disconnect e → exec e w = Some w' → connected_run w'.

Definition all_registered (w : World) : Prop :=
  ∀ s, queued w s → registered (clients w) s.

(** ** Shape of the registries *)

(** The modes of the comment at lines 22-25. *)
Definition supported (mode : string) : Prop :=
  mode = "ONLINE1V1" ∨ mode = "ONLINE2V2" ∨ mode = "ONLINEPVP".

(** A room as [createRoomFromQueue] makes it when called by [maybeStart] or
    by the timer callback. *)
Record room_ok (room : Room) : Prop := {
  host_first : hostWs room = head (sockets room);
  members_distinct : NoDup (sockets room);
  roster_length : length (players room) = length (sockets room);
  size_in_bounds :
    needMin (r_mode room) ≤ length (sockets room) ≤ maxPlayers (r_mode room)
}.

Record wf_shape (w : World) : Prop := {
  queue_nonempty : ∀ k q, queue_at w k = Some q → q ≠ [];
  queue_distinct : ∀ k q, queue_at w k = Some q → NoDup q;
  timer_pvp : ∀ h t, timers w !! h = Some t →
    t_mode t = "ONLINEPVP" ∧ t_delay t = 6500%Z;
  rooms_ok : ∀ rid room, rooms w !! rid = Some room → room_ok room
}.

(** A session is held for sockets whose close or error event is still to
    come. *)
Definition sessions_alive (w : World) : Prop :=
  ∀ s, is_Some (clients w !! s) → alive w s = true.

(** What the step [e] can have made of the session of [s]: a new session on
    the connection event of [s]; otherwise the session [s] had, possibly with
    the fields of a join sent by [s], possibly with the reference of a new
    room. *)
Definition session_after (e : Event) (s : conn) (old : option Session)
    (c' : Session) : Prop :=
  (∃ id, e = Connect s id ∧ c' = fresh_session id) ∨
  (∃ c, old = Some c ∧
     (c' = c ∨ (∃ rid, c' = with_room rid c) ∨
      ∃ msg f rid now, e = Message s (Some msg) rid now ∧
        join_fields msg = Some f ∧
        (c' = joined f c ∨ c' = with_room rid (joined f c)))).

(** The messages sent to [s] so far, oldest first. *)
Definition received (w : World) (s : conn) : list OutMsg :=
  snd <$> filter (λ x, x.1 = s) (outbox w).

Definition is_welcome (m : OutMsg) : bool :=
  match m with Welcome _ => true | _ => false end.

(** Messages for sockets that are open in [w], none of them a welcome. *)
Definition sends_to_open (w : World) (out : list (conn * OutMsg)) : Prop :=
  Forall (λ x, is_open w x.1 = true ∧ is_welcome x.2 = false) out.

(** A socket that has not connected has received nothing; the stream of a
    socket that has connected starts with its welcome, which carries the id
    of its session, and holds no other welcome. *)
Definition welcomed (w : World) (s : conn) : Prop :=
  match socks w !! s with
  | None => received w s = []
  | Some _ =>
      ∃ id rest, received w s = Welcome id :: rest ∧
        Forall (λ m, is_welcome m = false) rest ∧
        ∀ c, clients w !! s = Some c → c_id c = id
  end.

(** User names as line 196 stores them, in the sessions and in the rosters
    of the rooms. *)
Definition usernames_short (w : World) : Prop :=
  (∀ s c, clients w !! s = Some c → String.length (c_username c) ≤ 16) ∧
  (∀ rid room p, rooms w !! rid = Some room → p ∈ players room →
     String.length (p_username p) ≤ 16).

(** Whether the separator of [keyOf] occurs in a string. *)
Fixpoint has_bar (s : string) : bool :=
  match s with
  | EmptyString => false
  | String a s' => Ascii.eqb a "|" || has_bar s'
  end.

(** A bucket that holds fewer sockets than an immediate start takes and, in
    the mode ONLINEPVP, has its window running when it holds two or more. *)
Definition below_start (mode : string) (b : Bucket) : Prop :=
  length (queue b) < start_size mode ∧
  (mode = "ONLINEPVP" → 2 ≤ length (queue b) → is_Some (timer b)).

(** No bucket of a supported mode is left waiting with a start due. *)
Definition eager (w : World) : Prop :=
  ∀ mode tier b, supported mode → waiting w !! keyOf mode tier = Some b →
    below_start mode b.

(** The values of [JSON.parse] that are not objects: [null], booleans,
    numbers and strings. *)
Definition primitive (v : json) : Prop :=
  match v with
  | JArr _ | JObj _ => False
  | _ => True
  end.

(** Events whose message, if any, is not [null] and, when it is a join, has
    fields that [Number] and [String] convert. *)
Definition convertible (e : Event) : Prop :=
  match e with
  | Message _ (Some msg) _ _ =>
      msg ≠ JNull ∧
      (is_type "join" (get_prop "type" msg) = true → is_Some (join_fields msg))
  | _ => True
  end.

(** The result of [uid()] that a callback has at hand for a new room. *)
Definition room_id_of (e : Event) : option string :=
  match e with
  | Message _ _ roomId _ | Fire _ roomId => Some roomId
  | _ => None
  end.

(** Joins that leave no queue entry behind: the sender is queued in no
    bucket other than the one it joins, and the mode it joins is not the
    empty string, for which [cleanup] skips the queues. *)
Definition tidy (e : Event) (w : World) : Prop :=
  match e with
  | Message ws (Some msg) _ _ =>
      is_type "join" (get_prop "type" msg) = true →
      ∀ f, join_fields msg = Some f →
        join_mode f ≠ "" ∧
        ∀ k q, queue_at w k = Some q → ws ∈ q →
          k = keyOf (join_mode f) (join_tier f)
  | _ => True
  end.

Inductive tidy_run : World → Prop :=
| tr_init : tidy_run world0
| tr_step w e w' : tidy_run w → tidy e w → exec e w = Some w' → tidy_run w'.

(** Every queue entry is the entry of a session, in the bucket of the mode
    and tier of that session. *)
Definition queued_by_session (w : World) : Prop :=
  ∀ s k q, queue_at w k = Some q → s ∈ q →
    ∃ c m tier, clients w !! s = Some c ∧ c_mode c = Some m ∧ m ≠ "" ∧
                c_tier c = Some tier ∧ k = keyOf m tier.

End Server.

(** ** The HTTP request handler *)

(** [INDEX_A] is [public/index.html], [INDEX_B] is [index.html], both under
    the directory of the script. *)
Inductive IndexPath := INDEX_A | INDEX_B.

(** What the handler asks of the file system: for each of the two paths the
    answer of [fs.existsSync] and the result of [fs.readFileSync], [None]
    when it throws (a directory, a file that cannot be read or that is gone
    since the test). A buffer is the string of its bytes. *)
Record FileSystem := {
  existsSync : IndexPath → bool;
  readFileSync : IndexPath → option string
}.

Inductive Completion (A : Type) :=
| Returned (a : A)
| Thrown.
Arguments Returned {A} a.
Arguments Thrown {A}.

(** Lines 11-15: a buffer, or [null]. *)
Definition readIndex (fs : FileSystem) : Completion (option string) :=
  if existsSync fs INDEX_A then
    match readFileSync fs INDEX_A with
    | Some buf => Returned (Some buf)
    | None => Thrown
    end
  else if existsSync fs INDEX_B then
    match readFileSync fs INDEX_B with
    | Some buf => Returned (Some buf)
    | None => Thrown
    end
  else Returned None.

(** [res.writeHead(status, {"Content-Type": type}); res.end(body)] *)
Record Response := {
  statusCode : nat;
  contentType : string;
  body : string
}.

Definition missing_index : string :=
  "Missing index.html (need public/index.html or index.html at root)".

(** Lines 161-177, the callback of [http.createServer]; [url] is [req.url].
    A buffer is an object: [!html] holds of [null] only. *)
Definition on_request (fs : FileSystem) (url : string) : Completion Response :=
  if String.eqb url "/healthz" then
    Returned {| statusCode := 200; contentType := "text/plain"; body := "ok" |}
  else if String.eqb url "/" || String.eqb url "/index.html" then
    match readIndex fs with
    | Thrown => Thrown
    | Returned None =>
        Returned {| statusCode := 500; contentType := "text/plain";
                    body := missing_index |}
    | Returned (Some html) =>
        Returned {| statusCode := 200; contentType := "text/html; charset=utf-8";
                    body := html |}
    end
  else
    Returned {| statusCode := 404; contentType := "text/plain"; body := "Not found" |}.

(** ** Concrete runs, over the integer fragment of the numbers *)

Section Examples.

#[local] Existing Instance znum_ops.

Definition join_msg (m : string) : @json znum :=
  JObj [("type", JStr "join"); ("mode", JStr m)].

Definition ex_fields (m : string) : @JoinFields znum :=
  {| join_tier := ZInt 1; join_tankName := "Tank"; join_mode := m;
     join_username := "" |}.

Definition ex_run (es : list (@Event znum)) : @World znum :=
  default world0 (run es world0).

Definition ex_connected : @World znum :=
  ex_run [Connect 0 "a"; Connect 1 "b"].

(** One socket waits in the ONLINE1V1 bucket of tier 1. *)
Definition ex_one_waiting : @World znum :=
  ex_run [Connect 0 "a"; Connect 1 "b";
          Message 0 (Some (join_msg "ONLINE1V1")) "r0" 0].

(** Sockets 0 and 1 are in room "r1", hosted by 0. *)
Definition ex_room : @World znum :=
  ex_run [Connect 0 "a"; Connect 1 "b";
          Message 0 (Some (join_msg "ONLINE1V1")) "r0" 0;
          Message 1 (Some (join_msg "ONLINE1V1")) "r1" 0].

(** Two sockets wait in the ONLINEPVP bucket of tier 1, the window is armed. *)
Definition ex_window : @World znum :=
  ex_run [Connect 0 "a"; Connect 1 "b";
          Message 0 (Some (join_msg "ONLINEPVP")) "r0" 0;
          Message 1 (Some (join_msg "ONLINEPVP")) "r1" 5].

Definition ex_session (id : string) (m : string) (rid : option string) : @Session znum :=
  {| c_id := id; c_tier := Some (ZInt 1); c_tankName := Some "Tank";
     c_mode := Some m; c_roomId := rid; c_username := "" |}.

Definition ex_player (id : string) : Player :=
  {| p_id := id; p_tankName := Some "Tank"; p_username := "" |}.

Definition ex_room_r1 : @Room znum :=
  {| hostWs := Some 0; sockets := [0; 1];
     players := [ex_player "a"; ex_player "b"];
     r_mode := "ONLINE1V1"; r_tier := ZInt 1 |}.

Definition ex_input (payload : @json znum) : @json znum :=
  JObj [("type", JStr "input"); ("payload", payload)].

(** Socket 0 is in room "r1" and has joined again. *)
Definition ex_rejoined : @World znum :=
  ex_run [Connect 0 "a"; Connect 1 "b";
          Message 0 (Some (join_msg "ONLINE1V1")) "r0" 0;
          Message 1 (Some (join_msg "ONLINE1V1")) "r1" 0;
          Message 0 (Some (join_msg "ONLINE1V1")) "r2" 0].

(** Socket 0 joined ONLINE1V1, then ONLINE2V2, then closed: its session is
    gone, the ONLINE1V1 bucket still holds it. *)
Definition ex_stale : @World znum :=
  ex_run [Connect 0 "a"; Connect 1 "b";
          Message 0 (Some (join_msg "ONLINE1V1")) "r0" 0;
          Message 0 (Some (join_msg "ONLINE2V2")) "r1" 0;
          Close 0].

(** Socket 0 joined ONLINEPVP, then ONLINE1V1, then closed; socket 1 joined
    ONLINEPVP: the ONLINEPVP bucket holds both and its window is armed. *)
Definition ex_stale_window : @World znum :=
  ex_run [Connect 0 "a"; Connect 1 "b";
          Message 0 (Some (join_msg "ONLINEPVP")) "r0" 0;
          Message 0 (Some (join_msg "ONLINE1V1")) "r1" 0;
          Close 0;
          Message 1 (Some (join_msg "ONLINEPVP")) "r2" 0].

(** Sockets 0 and 1 are in room "r1", hosted by 0; socket 0 joined again and
    was matched with socket 2 in room "r3". *)
Definition ex_matched_twice : @World znum :=
  ex_run [Connect 0 "a"; Connect 1 "b"; Connect 2 "c";
          Message 0 (Some (join_msg "ONLINE1V1")) "r0" 0;
          Message 1 (Some (join_msg "ONLINE1V1")) "r1" 0;
          Message 0 (Some (join_msg "ONLINE1V1")) "r2" 0;
          Message 2 (Some (join_msg "ONLINE1V1")) "r3" 0].

(** Sockets 0 and 1 are in room "r1", hosted by 0; socket 1 joined again and
    was matched with socket 2 in room "r3", which it hosts. *)
Definition ex_rehosted : @World znum :=
  ex_run [Connect 0 "a"; Connect 1 "b"; Connect 2 "c";
          Message 0 (Some (join_msg "ONLINE1V1")) "r0" 0;
          Message 1 (Some (join_msg "ONLINE1V1")) "r1" 0;
          Message 1 (Some (join_msg "ONLINE1V1")) "r2" 0;
          Message 2 (Some (join_msg "ONLINE1V1")) "r3" 0].

(** Both index files are there. *)
Definition ex_fs : FileSystem :=
  {| existsSync := λ _, true;
     readFileSync := λ p, match p with
                          | INDEX_A => Some "<p>public</p>"
                          | INDEX_B => Some "<p>root</p>"
                          end |}.

(** Two sockets wait in a bucket of the mode "FOO". *)
Definition ex_foo : @World znum :=
  ex_run [Connect 0 "a"; Connect 1 "b";
          Message 0 (Some (join_msg "FOO")) "r0" 0;
          Message 1 (Some (join_msg "FOO")) "r1" 0].

(** A join with a user name of blanks and more than 16 characters. *)
Definition ex_named : @World znum :=
  ex_run [Connect 0 "a";
          Message 0 (Some (JObj [("type", JStr "join");
                                 ("username", JStr "  a very long user name  ")]))
                  "r0" 0].

Definition ex_pvp_bucket : Bucket :=
  {| queue := [0; 1]; timer := Some 0; startedAt := 5 |}.

(** Socket 0 has joined ONLINE1V1 and left; socket 1 is connected. *)
Definition ex_left : @World znum :=
  ex_run [Connect 0 "a"; Connect 1 "b";
          Message 0 (Some (join_msg "ONLINE1V1")) "r0" 0;
          Close 0].

End Examples.

(** * Properties *)

Section Properties.

Context {num : Type} {NUM : JSNumber num}.

Implicit Types (w : @World num) (c : @Session num)
  (cl : gmap conn (@Session num)) (msg : @json num) (b : Bucket)
  (obj : @OutMsg num) (out : list (conn * @OutMsg num)) (room : @Room num)
  (e : @Event num) (t : @Timer num) (tier : num) (f : @JoinFields num).


(** ** Sending changes the outbox only *)

Lemma emit_nil w : emit [] w = w.
Proof. destruct w; unfold emit; simpl. by rewrite app_nil_r. Qed.

Lemma emit_emit out1 out2 w : emit out2 (emit out1 w) = emit (out1 ++ out2) w.
Proof. unfold emit; simpl. by rewrite app_assoc. Qed.

Lemma is_open_emit out w s : is_open (emit out w) s = is_open w s.
Proof. done. Qed.

Lemma send_emit s obj w :
  send s obj w = emit (if is_open w s then [(s, obj)] else []) w.
Proof. unfold send. destruct (is_open w s); [done | by rewrite emit_nil]. Qed.

Lemma broadcast_emit q obj w : broadcast q obj w = emit (deliveries w q obj) w.
Proof.
  unfold broadcast, deliveries.
  assert (G : ∀ out, foldl (λ acc s, send s obj acc) (emit out w) q
      = emit (out ++ ((λ s, (s, obj)) <$> filter (λ s, is_open w s) q)) w).
  { induction q as [|s q IH]; intros out; simpl.
    - by rewrite app_nil_r.
    - rewrite send_emit, is_open_emit, emit_emit, IH.
      rewrite filter_cons. destruct (is_open w s) eqn:E; simpl.
      + by rewrite <- app_assoc.
      + by rewrite app_nil_r. }
  specialize (G []). by rewrite emit_nil in G.
Qed.

(** ** Room materialization *)

Lemma with_room_idem rid c : with_room rid (with_room rid c) = with_room rid c.
Proof. by destruct c. Qed.

Lemma players_of_registered cl S :
  is_Some (players_of cl S) ↔ Forall (registered cl) S.
Proof.
  unfold players_of. rewrite mapM_is_Some. apply Forall_iff. intros s.
  unfold registered. simpl. by rewrite fmap_is_Some.
Qed.

Lemma assign_room_spec rid S cl :
  Forall (registered cl) S →
  ∃ cl', assign_room rid S cl = Some cl' ∧
    ∀ s, cl' !! s =
      if bool_decide (s ∈ S) then with_room rid <$> cl !! s else cl !! s.
Proof.
  revert cl. induction S as [|a S IH]; intros cl HS; simpl.
  - by exists cl.
  - inversion HS as [|? ? [c Hc] HS']; subst. rewrite Hc.
    destruct (IH (<[a := with_room rid c]> cl)) as (cl' & -> & Hl).
    { eapply Forall_impl; [exact HS'|]. intros s [x Hx]. unfold registered.
      destruct (decide (a = s)) as [->|]; [rewrite lookup_insert_eq | rewrite lookup_insert_ne]; eauto. }
    exists cl'. split; [done|]. intros s. rewrite Hl.
    destruct (decide (s = a)) as [->|Hne].
    + rewrite lookup_insert_eq, Hc. rewrite (bool_decide_eq_true_2 (a ∈ a :: S)) by (apply elem_of_cons; auto).
      case_bool_decide; simpl; by rewrite ?with_room_idem.
    + rewrite lookup_insert_ne by done.
      destruct (decide (s ∈ S)).
      * by rewrite !bool_decide_eq_true_2 by (rewrite ?elem_of_cons; auto).
      * by rewrite !bool_decide_eq_false_2 by (rewrite ?elem_of_cons; tauto).
Qed.

Lemma clients_broadcast q obj w : clients (broadcast q obj w) = clients w.
Proof. by rewrite broadcast_emit. Qed.

Lemma announce_spec rid host ps S w :
  (S = [] ∨ is_Some (host ≫= λ h, clients w !! h)) →
  announce rid host ps S w =
    (Done, broadcast S (found_msg rid (c_id <$> (host ≫= λ h, clients w !! h)) ps) w).
Proof.
  generalize (eq_refl (clients w)).
  generalize (clients w) at 1 3 4 as cl. intros cl Hcl. revert w Hcl.
  induction S as [|s S IH]; intros w Hcl H; [done|].
  destruct H as [?|[hc Hhc]]; [done|]. simpl. rewrite <- Hcl, Hhc. simpl.
  rewrite (IH (send s _ w)).
  - by rewrite Hhc.
  - by rewrite send_emit.
  - right. by rewrite Hhc.
Qed.

Lemma createRoom_absent mode tier n rid w :
  waiting w !! keyOf mode tier = None ∨ n = 0 →
  createRoomFromQueue mode tier n rid w = (Done, w).
Proof.
  unfold createRoomFromQueue. intros [-> | ->]; [done|]. by destruct (waiting w !! _).
Qed.

(** The state in which the registry is read: the bucket is updated, the
    status is broadcast, nothing else has moved. *)
Lemma createRoom_unfold mode tier n rid w b :
  waiting w !! keyOf mode tier = Some b → n ≠ 0 →
  ∃ w1,
    clients w1 = clients w ∧ rooms w1 = rooms w ∧ socks w1 = socks w ∧
    next_timer w1 = next_timer w ∧
    waiting w1 = match drop n (queue b) with
                 | [] => delete (keyOf mode tier) (waiting w)
                 | rest => <[keyOf mode tier := with_queue rest b]> (waiting w)
                 end ∧
    timers w1 = match drop n (queue b), timer b with
                | [], Some h => delete h (timers w)
                | _, _ => timers w
                end ∧
    outbox w1 = outbox w ++ match drop n (queue b) with
                            | [] => []
                            | rest => deliveries w rest (searching (status_text mode rest))
                            end ∧
    createRoomFromQueue mode tier n rid w =
      match players_of (clients w) (take n (queue b)) with
      | None => (Threw, w1)
      | Some ps =>
          match assign_room rid (take n (queue b)) (clients w) with
          | None => (Threw, w1)
          | Some cl =>
              match announce rid (head (take n (queue b))) ps (take n (queue b))
                      (set_rooms (<[rid := {| hostWs := head (take n (queue b));
                                              sockets := take n (queue b);
                                              players := ps; r_mode := mode;
                                              r_tier := tier |}]>)
                         (set_clients (λ _, cl) w1)) with
              | (Done, w4) => (Done, send_opt (head (take n (queue b))) HostStart w4)
              | thrown => thrown
              end
          end
      end.
Proof.
  intros Hb Hn. unfold createRoomFromQueue. rewrite Hb.
  destruct n as [|n]; [done|]. change (S n <=? 0) with false. cbv iota.
  destruct (drop (S n) (queue b)) as [|r rest] eqn:ER.
  - exists (drop_bucket (keyOf mode tier) b w).
    assert (Hc : clients (drop_bucket (keyOf mode tier) b w) = clients w)
      by (unfold drop_bucket; by destruct (timer b)).
    rewrite Hc. unfold drop_bucket.
    repeat split; destruct (timer b); simpl; by rewrite ?app_nil_r.
  - rewrite broadcast_emit.
    exists (emit (deliveries (set_waiting (<[keyOf mode tier := with_queue (r :: rest) b]>) w)
                    (r :: rest) (searching (status_text mode (r :: rest))))
              (set_waiting (<[keyOf mode tier := with_queue (r :: rest) b]>) w)).
    repeat split; reflexivity.
Qed.

Lemma is_open_same w1 w s : socks w1 = socks w → is_open w1 s = is_open w s.
Proof. unfold is_open. by intros ->. Qed.

Lemma deliveries_same w1 w q obj : socks w1 = socks w → deliveries w1 q obj = deliveries w q obj.
Proof.
  intros H. unfold deliveries. f_equal. apply list_filter_iff. intros s.
  by rewrite (is_open_same w1 w).
Qed.

(** A materialization that returns has produced the room. *)
Lemma createRoom_done mode tier n rid w w' b :
  waiting w !! keyOf mode tier = Some b → n ≠ 0 →
  createRoomFromQueue mode tier n rid w = (Done, w') →
  ∃ ps, materialized mode tier n rid b ps w w'.
Proof.
  intros Hb Hn.
  destruct (createRoom_unfold mode tier n rid w b Hb Hn)
    as (w1 & Hc & Hr & Hs & Hnt & Hw & Ht & Ho & ->).
  destruct (players_of (clients w) (take n (queue b))) as [ps|] eqn:Hps; [|done].
  assert (HS : Forall (registered (clients w)) (take n (queue b)))
    by (apply players_of_registered; eauto).
  destruct (assign_room_spec rid _ _ HS) as (cl & -> & Hcl).
  rewrite announce_spec; cycle 1.
  { destruct (take n (queue b)) as [|h S] eqn:ES; [by left|right]. simpl.
    rewrite Hcl. rewrite bool_decide_eq_true_2 by (apply elem_of_cons; auto).
    inversion HS as [|? ? [c Hhc] _]; subst. rewrite Hhc. eauto. }
  intros [= <-]. exists ps. rewrite broadcast_emit.
  assert (Hid : c_id <$> (head (take n (queue b)) ≫= λ h, cl !! h)
              = c_id <$> (head (take n (queue b)) ≫= λ h, clients w !! h)).
  { destruct (head (take n (queue b))) as [h|]; [simpl|done]. rewrite Hcl.
    case_bool_decide; [|done]. by destruct (clients w !! h). }
  split.
  - done.
  - intros s. destruct (head (take n (queue b))); simpl; rewrite ?send_emit; simpl; apply Hcl.
  - destruct (head (take n (queue b))); simpl; rewrite ?send_emit; simpl; exact Hw.
  - destruct (head (take n (queue b))); simpl; rewrite ?send_emit; simpl; by rewrite Hr.
  - destruct (head (take n (queue b))); simpl; rewrite ?send_emit; simpl; exact Hs.
  - destruct (head (take n (queue b))); simpl; rewrite ?send_emit; simpl; exact Ht.
  - destruct (head (take n (queue b))); simpl; rewrite ?send_emit; simpl; exact Hnt.
  - simpl in Hid. rewrite Hid.
    destruct (head (take n (queue b))) as [h|]; simpl; rewrite ?send_emit; simpl;
      rewrite Ho, <- !app_assoc.
    + rewrite (is_open_same _ w) by exact Hs.
      rewrite (deliveries_same _ w) by exact Hs. by destruct (drop n (queue b)).
    + rewrite (deliveries_same _ w) by exact Hs. rewrite app_nil_r.
      by destruct (drop n (queue b)).
Qed.

(** It returns when the sockets it takes are registered. *)
Lemma createRoom_total mode tier n rid w b :
  waiting w !! keyOf mode tier = Some b →
  Forall (registered (clients w)) (take n (queue b)) →
  ∃ w', createRoomFromQueue mode tier n rid w = (Done, w').
Proof.
  intros Hb HS. destruct (decide (n = 0)) as [->|Hn].
  { exists w. apply createRoom_absent. by right. }
  destruct (createRoom_unfold mode tier n rid w b Hb Hn) as (w1 & _ & _ & _ & _ & _ & _ & _ & ->).
  destruct (proj2 (players_of_registered _ _) HS) as [ps ->].
  destruct (assign_room_spec rid _ _ HS) as (cl & -> & Hcl).
  rewrite announce_spec; [eauto|].
  destruct (take n (queue b)) as [|h S] eqn:ES; [by left|right]. simpl.
  rewrite Hcl. rewrite bool_decide_eq_true_2 by (apply elem_of_cons; auto).
  inversion HS as [|? ? [c Hhc] _]; subst. rewrite Hhc. eauto.
Qed.

(** ** The join handler up to [maybeStart] *)

Lemma enqueue_and_start_unfold ws c f rid now w :
  enqueue_and_start ws c f rid now w =
    maybeStart (join_mode f) (join_tier f) rid now (after_enqueue ws c f w).
Proof.
  unfold enqueue_and_start, after_enqueue. rewrite broadcast_emit. cbn zeta.
  unfold status_text, need_text. cbn [queue with_queue].
  by destruct (needExact (join_mode f)).
Qed.

Lemma join_fields_Some msg f :
  join_fields msg = Some f ↔
  ∃ username,
    js_to_number (js_or (get_prop "tier" msg) (JNum (num_of_nat 1))) = Some (join_tier f) ∧
    js_to_string (js_or (get_prop "tankName" msg) (JStr "Tank")) = Some (join_tankName f) ∧
    js_to_string (js_or (get_prop "mode" msg) (JStr "ONLINEPVP")) = Some (join_mode f) ∧
    js_to_string (js_or (get_prop "username" msg) (JStr "")) = Some username ∧
    join_username f = slice0 16 (trim username).
Proof.
  unfold join_fields. split.
  - intros H.
    destruct (js_to_number _) as [tier|]; [|done]. simpl in H.
    destruct (js_to_string (js_or (get_prop "tankName" msg) _)) as [tn|]; [|done]. simpl in H.
    destruct (js_to_string (js_or (get_prop "mode" msg) _)) as [m|]; [|done]. simpl in H.
    destruct (js_to_string (js_or (get_prop "username" msg) _)) as [u|]; [|done]. simpl in H.
    injection H as <-. by exists u.
  - intros (u & -> & -> & -> & -> & Hu). simpl. destruct f. simpl in *. by rewrite Hu.
Qed.

Lemma on_join_unfold ws c msg f rid now w :
  join_fields msg = Some f →
  on_join ws c msg rid now w =
    maybeStart (join_mode f) (join_tier f) rid now (after_enqueue ws c f w).
Proof.
  intros (u & H1 & H2 & H3 & H4 & Hu)%join_fields_Some.
  unfold on_join. rewrite H1, H2, H3, H4, enqueue_and_start_unfold, <- Hu.
  by destruct f.
Qed.

(** A conversion that throws makes the handler throw. *)
Lemma on_join_throws ws c msg rid now w :
  join_fields msg = None → (on_join ws c msg rid now w).1 = Threw.
Proof.
  unfold join_fields, on_join.
  destruct (js_to_number _) as [tier|]; [|done]. simpl.
  destruct (js_to_string (js_or (get_prop "tankName" msg) _)) as [tn|]; [|done]. simpl.
  destruct (js_to_string (js_or (get_prop "mode" msg) _)) as [m|]; [|done]. simpl.
  destruct (js_to_string (js_or (get_prop "username" msg) _)) as [u|]; done.
Qed.

Lemma on_message_join ws c msg rid now w :
  clients w !! ws = Some c →
  get_prop "type" msg = Some (JStr "join") →
  on_message ws (Some msg) rid now w = on_join ws c msg rid now w.
Proof.
  intros Hc Ht. unfold on_message. rewrite Hc, Ht. by destruct msg.
Qed.

Lemma maybeStart_exact mode tier rid now w b :
  waiting w !! keyOf mode tier = Some b → needExact mode ≠ 0 →
  maybeStart mode tier rid now w =
    if decide (needExact mode ≤ length (queue b))
    then createRoomFromQueue mode tier (needExact mode) rid w
    else (Done, w).
Proof.
  intros Hb Hn. unfold maybeStart. rewrite Hb. cbn zeta.
  destruct (needExact mode =? 0) eqn:E; [by apply Nat.eqb_eq in E|]. simpl.
  destruct (decide _) as [Hle|Hle].
  - by rewrite (proj2 (Nat.leb_le _ _) Hle).
  - by rewrite (proj2 (Nat.leb_nle _ _) Hle).
Qed.

Lemma after_enqueue_bucket ws c f w :
  waiting (after_enqueue ws c f w) !! keyOf (join_mode f) (join_tier f) =
    Some (with_queue
            (enqueue ws (queue (default empty_bucket
               (waiting w !! keyOf (join_mode f) (join_tier f)))))
            (default empty_bucket (waiting w !! keyOf (join_mode f) (join_tier f)))).
Proof. unfold after_enqueue. simpl. by rewrite lookup_insert_eq. Qed.

Lemma registered_insert cl ws c' s :
  registered cl s → registered (<[ws := c']> cl) s.
Proof.
  unfold registered. intros H. destruct (decide (ws = s)) as [->|];
    [rewrite lookup_insert_eq | rewrite lookup_insert_ne]; eauto.
Qed.

Lemma head_take {A} n (l : list A) : n ≠ 0 → head (take n l) = head l.
Proof. destruct n, l; done. Qed.

Lemma needExact_cases mode :
  (mode = "ONLINE1V1" ∧ needExact mode = 2) ∨
  (mode = "ONLINE2V2" ∧ needExact mode = 4) ∨
  (mode ≠ "ONLINE1V1" ∧ mode ≠ "ONLINE2V2" ∧ needExact mode = 0).
Proof.
  unfold needExact.
  destruct (String.eqb_spec mode "ONLINE1V1") as [->|H1]; [by left|].
  destruct (String.eqb_spec mode "ONLINE2V2") as [->|H2]; [right; by left|].
  right; right; done.
Qed.

(** ** Variable-size buckets *)

Lemma maybeStart_variable mode tier rid now w b :
  waiting w !! keyOf mode tier = Some b → needExact mode = 0 →
  maybeStart mode tier rid now w =
    if decide (maxPlayers mode ≤ length (queue b))
    then createRoomFromQueue mode tier (maxPlayers mode) rid w
    else if decide (needMin mode ≤ length (queue b) ∧ timer b = None)
    then (Done, armed mode tier now b w)
    else (Done, w).
Proof.
  intros Hb Hn. unfold maybeStart. rewrite Hb, Hn. cbn zeta. simpl negb. cbv iota.
  destruct (decide (maxPlayers mode ≤ _)) as [Hle|Hle].
  { by rewrite (proj2 (Nat.leb_le _ _) Hle). }
  rewrite (proj2 (Nat.leb_nle _ _) Hle).
  destruct (decide _) as [[Hmin Ht]|Hno].
  - rewrite (proj2 (Nat.leb_le _ _) Hmin), Ht. done.
  - destruct (needMin mode <=? length (queue b)) eqn:E; [|done].
    apply Nat.leb_le in E. destruct (timer b) as [h|] eqn:Et; [done|].
    destruct Hno. done.
Qed.

Lemma maybeStart_absent mode tier rid now w :
  waiting w !! keyOf mode tier = None → maybeStart mode tier rid now w = (Done, w).
Proof. unfold maybeStart. by intros ->. Qed.

Lemma on_timer_unfold mode tier rid w b :
  waiting w !! keyOf mode tier = Some b →
  on_timer mode tier rid w =
    let w1 := set_waiting (<[keyOf mode tier := with_timer None (startedAt b) b]>) w in
    if decide (needMin mode ≤ Nat.min (maxPlayers mode) (length (queue b)))
    then createRoomFromQueue mode tier (Nat.min (maxPlayers mode) (length (queue b))) rid w1
    else (Done, w1).
Proof.
  intros Hb. unfold on_timer. rewrite Hb. cbn zeta.
  destruct (decide _) as [Hle|Hle].
  - by rewrite (proj2 (Nat.leb_le _ _) Hle).
  - by rewrite (proj2 (Nat.leb_nle _ _) Hle).
Qed.

(** X27. The ONLINEPVP bucket [b] of a tier. At 6 queued or more, when the
    first 6 sockets have their session, [maybeStart] creates at once a room
    of the first 6 sockets, whose sessions then refer to it. With 2 to 5
    queued and no timer on the bucket it arms a timer of 6500 ms and records
    it on the bucket; with a timer on the bucket, or fewer than 2 queued, it
    does nothing. When the timer fires and the bucket exists, the bucket's
    timer is reset and n = min(6, queue length) sockets are taken from the
    head into a room if n >= 2 and they have their session, else, if n < 2,
    the bucket stays as it is; when the bucket is gone the callback does
    nothing. *)
Theorem free_for_all_start tier rid now w :
  let mode := "ONLINEPVP" in
  let k := keyOf mode tier in
  (∀ b, waiting w !! k = Some b →
     let q := queue b in
     (6 ≤ length q → Forall (registered (clients w)) (take 6 q) →
        ∃ w' ps, maybeStart mode tier rid now w = (Done, w') ∧
          rooms w' = <[rid := {| hostWs := head q; sockets := take 6 q; players := ps;
                                 r_mode := mode; r_tier := tier |}]> (rooms w) ∧
          length (take 6 q) = 6 ∧
          queue <$> waiting w' !! k = match drop 6 q with [] => None | rest => Some rest end ∧
          (∀ s, s ∈ take 6 q → c_roomId <$> clients w' !! s = Some (Some rid))) ∧
     (2 ≤ length q < 6 → timer b = None →
        maybeStart mode tier rid now w = (Done, armed mode tier now b w) ∧
        timers (armed mode tier now b w) =
          <[next_timer w := {| t_mode := mode; t_tier := tier; t_delay := 6500 |}]> (timers w) ∧
        waiting (armed mode tier now b w) !! k =
          Some {| queue := q; timer := Some (next_timer w); startedAt := now |} ∧
        rooms (armed mode tier now b w) = rooms w) ∧
     (length q < 6 → length q < 2 ∨ is_Some (timer b) →
        maybeStart mode tier rid now w = (Done, w)) ∧
     (2 ≤ length q → Forall (registered (clients w)) (take 6 q) →
        ∃ w' ps, on_timer mode tier rid w = (Done, w') ∧
          rooms w' = <[rid := {| hostWs := head q; sockets := take (Nat.min 6 (length q)) q;
                                 players := ps; r_mode := mode; r_tier := tier |}]> (rooms w) ∧
          length (take (Nat.min 6 (length q)) q) = Nat.min 6 (length q) ∧
          queue <$> waiting w' !! k =
            match drop (Nat.min 6 (length q)) q with [] => None | rest => Some rest end ∧
          (∀ s, s ∈ take (Nat.min 6 (length q)) q →
             c_roomId <$> clients w' !! s = Some (Some rid))) ∧
     (length q < 2 →
        on_timer mode tier rid w =
          (Done, set_waiting (<[k := {| queue := q; timer := None; startedAt := startedAt b |}]>) w))) ∧
  (waiting w !! k = None → on_timer mode tier rid w = (Done, w)).
Proof.
  intros mode k. split; [|intros Hb; unfold on_timer; fold k; by rewrite Hb].
  intros b Hb q.
  assert (Hvar := maybeStart_variable mode tier rid now w b Hb eq_refl).
  assert (Hfire := on_timer_unfold mode tier rid w b Hb).
  change (maxPlayers mode) with 6 in *. change (needMin mode) with 2 in *.
  fold q k in Hvar, Hfire. split; [|split; [|split; [|split]]].
  - intros Hle Hreg. rewrite Hvar, decide_True by done.
    destruct (createRoom_total mode tier 6 rid _ _ Hb Hreg) as [w' Hw'].
    destruct (createRoom_done mode tier 6 rid _ _ _ Hb ltac:(done) Hw') as [ps M].
    destruct M as [_ Mc Mw Mr _ _ _ _]. exists w', ps. fold q k in Mw, Mr, Mc.
    split; [done|]. split; [by rewrite Mr, head_take|].
    split; [rewrite length_take; lia|]. split.
    + rewrite Mw. destruct (drop 6 q); by rewrite ?lookup_delete_eq, ?lookup_insert_eq.
    + intros s Hs. rewrite Mc, bool_decide_eq_true_2 by done.
      destruct (proj1 (Forall_forall _ _) Hreg s Hs) as [x ->]. done.
  - intros Hlen Ht. rewrite Hvar, decide_False, decide_True by (try split; lia || done).
    split; [done|]. split; [done|]. split; [|done].
    unfold armed. simpl. by rewrite lookup_insert_eq.
  - intros Hlt Hor. rewrite Hvar, decide_False by lia.
    rewrite decide_False; [done|]. intros [? Ht]. destruct Hor as [?|[h Hh]]; [lia|congruence].
  - intros Hle Hreg. rewrite Hfire. cbn zeta. rewrite decide_True by lia.
    set (w1 := set_waiting _ w). set (b1 := with_timer None (startedAt b) b).
    assert (Hb1 : waiting w1 !! keyOf mode tier = Some b1) by apply lookup_insert_eq.
    assert (Hn : Nat.min 6 (length q) ≠ 0) by lia.
    assert (Hreg1 : Forall (registered (clients w1)) (take (Nat.min 6 (length q)) (queue b1))).
    { eapply Forall_impl; [|by intros s Hs; exact Hs].
      change (queue b1) with q. change (clients w1) with (clients w).
      replace (take (Nat.min 6 (length q)) q) with (take 6 q); [done|].
      destruct (decide (6 ≤ length q)); [by rewrite Nat.min_l|].
      rewrite Nat.min_r by lia. rewrite !take_ge by lia. done. }
    destruct (createRoom_total mode tier _ rid _ _ Hb1 Hreg1) as [w' Hw'].
    destruct (createRoom_done mode tier _ rid _ _ _ Hb1 Hn Hw') as [ps M].
    destruct M as [_ Mc Mw Mr _ _ _ _]. exists w', ps.
    change (queue b1) with q in *. fold k in Mw.
    split; [done|]. split; [by rewrite Mr, head_take|].
    split; [rewrite length_take; lia|]. split.
    + rewrite Mw. destruct (drop _ q); by rewrite ?lookup_delete_eq, ?lookup_insert_eq.
    + intros s Hs. rewrite Mc, bool_decide_eq_true_2 by done.
      destruct (proj1 (Forall_forall _ _) Hreg1 s Hs) as [x ->]. done.
  - intros Hlt. rewrite Hfire. cbn zeta. by rewrite decide_False by lia.
Qed.

(** C10. A materialization sends, in this order: the status to the sockets
    left in the bucket, the match notice to every open member of the room in
    member order (the host, who is the first member, included), and last the
    start signal to the host. *)
Theorem hostStart_after_roomInfo mode tier n rid w w' b :
  let members := take n (queue b) in
  waiting w !! keyOf mode tier = Some b → n ≠ 0 →
  createRoomFromQueue mode tier n rid w = (Done, w') →
  ∃ status ps hostId,
    rooms w' !! rid = Some {| hostWs := head members; sockets := members;
                              players := ps; r_mode := mode; r_tier := tier |} ∧
    Forall (λ m, ∃ text, m.2 = searching text) status ∧
    outbox w' = outbox w ++ status
      ++ deliveries w members (found_msg rid hostId ps)
      ++ match head members with
         | Some h => if is_open w h then [(h, HostStart)] else []
         | None => []
         end.
Proof.
  intros members Hb Hn Hrun.
  destruct (createRoom_done _ _ _ _ _ _ _ Hb Hn Hrun) as [ps M].
  destruct M as [_ _ _ Mr _ _ _ Mo]. fold members in Mr, Mo.
  eexists _, ps, _. split; [by rewrite Mr, lookup_insert_eq|]. split; [|exact Mo].
  destruct (drop n (queue b)) as [|x rest]; [constructor|].
  unfold deliveries. apply Forall_fmap, Forall_forall. intros s _. simpl. eauto.
Qed.

(** ** Relay *)

Lemma relay_loop ws obj S w :
  foldl (relay_member ws obj) w S = emit (deliveries w (filter (λ s, s ≠ ws) S) obj) w.
Proof.
  rewrite <- broadcast_emit. unfold broadcast. revert w.
  induction S as [|s S IH]; intros w; [done|]. simpl. rewrite IH.
  unfold relay_member. rewrite filter_cons. case_decide.
  - rewrite bool_decide_eq_true_2; [reflexivity | exact H].
  - rewrite bool_decide_eq_false_2; [reflexivity | by intros Hn].
Qed.

Lemma on_message_relay ws c msg type rid now w :
  clients w !! ws = Some c →
  type = "input" ∨ type = "init" ∨ type = "snapshot" →
  get_prop "type" msg = Some (JStr type) →
  on_message ws (Some msg) rid now w = (Done, on_relay ws c type msg w).
Proof.
  intros Hc Ht Hm. unfold on_message. rewrite Hc, Hm.
  destruct msg; try done. by destruct Ht as [->|[->| ->]].
Qed.

(** C3, as the code has it. The room of a relayed message is the one the
    sender's session refers to (line 213 takes an empty id for no room).
    For a sender whose session refers, by an id that is not empty, to an
    existing room: an input message of a socket other than the host becomes one
    [input] message for the host alone, with the sender's id and the payload
    [msg.payload || {}]; from the host it is ignored. An init or snapshot
    message of the host becomes one message of the same type and payload
    [msg.payload || {}] for every other open member, in member order; from
    another socket it is ignored. When the room is gone the message is
    dropped. The payload forwarded is the one received when that is truthy,
    and an empty object when it is absent or falsy. *)
Theorem relay_routing ws c rid msg type r now w :
  clients w !! ws = Some c →
  c_roomId c = Some rid → rid ≠ "" →
  get_prop "type" msg = Some (JStr type) →
  type = "input" ∨ type = "init" ∨ type = "snapshot" →
  payload_of msg =
    match get_prop "payload" msg with
    | Some p => if js_truthy p then p else JObj []
    | None => JObj []
    end ∧
  on_message ws (Some msg) r now w =
    (Done,
     match rooms w !! rid with
     | None => w
     | Some room =>
         if decide (type = "input") then
           if decide (hostWs room = Some ws) then w
           else emit match hostWs room with
                     | Some h =>
                         if is_open w h
                         then [(h, InputFrom (c_id c) (payload_of msg))] else []
                     | None => []
                     end w
         else
           if decide (hostWs room = Some ws)
           then emit (deliveries w (filter (λ s, s ≠ ws) (sockets room))
                        (Relayed type (payload_of msg))) w
           else w
     end).
Proof.
  intros Hc Hr Hrid Hm Ht. split; [done|].
  rewrite (on_message_relay ws c msg type) by done. f_equal.
  unfold on_relay. rewrite Hr.
  destruct rid as [|a rid]; [done|]. cbn [str_truthy].
  destruct (rooms w !! String a rid) as [room|]; [|done].
  destruct (decide (type = "input")) as [->|Hne].
  - rewrite String.eqb_refl. destruct (decide (hostWs room = Some ws)) as [Hh|Hh].
    + by rewrite bool_decide_eq_false_2 by (intros ?; done).
    + rewrite bool_decide_eq_true_2 by done.
      destruct (hostWs room) as [h|]; simpl; [|by rewrite emit_nil].
      by rewrite send_emit.
  - rewrite (proj2 (String.eqb_neq _ _) Hne).
    destruct (decide (hostWs room = Some ws)) as [Hh|Hh].
    + rewrite bool_decide_eq_true_2 by done. apply relay_loop.
    + by rewrite bool_decide_eq_false_2.
Qed.

(** ** Cleanup *)

Lemma leave_queue_frame ws c w :
  clients (leave_queue ws c w) = clients w ∧ rooms (leave_queue ws c w) = rooms w ∧
  socks (leave_queue ws c w) = socks w ∧ outbox (leave_queue ws c w) = outbox w ∧
  next_timer (leave_queue ws c w) = next_timer w.
Proof.
  unfold leave_queue. destruct (c_mode c) as [m|]; [|done].
  destruct (c_tier c) as [t|]; [|done]. destruct (str_truthy m); [|done].
  destruct (waiting w !! keyOf m t) as [b|]; [|done].
  destruct (filter _ _); [|done]. unfold drop_bucket. by destruct (timer b).
Qed.

Lemma close_member_spec ws w a :
  let w' := close_member ws w a in
  clients w' = clients w ∧ waiting w' = waiting w ∧ rooms w' = rooms w ∧
  timers w' = timers w ∧ next_timer w' = next_timer w ∧
  socks w' = (if is_open w a then <[a := Closing]> (socks w) else socks w) ∧
  outbox w' = outbox w ++
    (if bool_decide (a ≠ ws) && is_open w a then [(a, disconnect_notice)] else []).
Proof.
  unfold close_member, ws_close. rewrite send_emit.
  destruct (bool_decide (a ≠ ws)); simpl.
  - rewrite is_open_emit. destruct (is_open w a); simpl; by rewrite ?app_nil_r.
  - destruct (is_open w a); simpl; by rewrite ?app_nil_r.
Qed.

Lemma is_open_insert_closing w w' a s :
  socks w' = <[a := Closing]> (socks w) →
  is_open w' s = is_open w s && bool_decide (s ≠ a).
Proof.
  intros H. unfold is_open. rewrite H. destruct (decide (s = a)) as [->|Hne].
  - rewrite lookup_insert_eq, bool_decide_eq_false_2 by (by intros ?).
    by rewrite andb_false_r.
  - rewrite lookup_insert_ne, bool_decide_eq_true_2 by done. by rewrite andb_true_r.
Qed.

(** The loop of lines 74-77: every open socket of the room other than [ws]
    gets the notice, every open socket of the room is closed. *)
Lemma close_loop ws S w :
  let w' := foldl (close_member ws) w S in
  clients w' = clients w ∧ waiting w' = waiting w ∧ rooms w' = rooms w ∧
  timers w' = timers w ∧ next_timer w' = next_timer w ∧
  (∀ s, socks w' !! s =
     if decide (s ∈ S ∧ is_open w s = true) then Some Closing else socks w !! s) ∧
  ∃ out, outbox w' = outbox w ++ out ∧
    ∀ x, x ∈ out ↔ ∃ s, x = (s, disconnect_notice) ∧ s ∈ S ∧ s ≠ ws ∧ is_open w s = true.
Proof.
  revert w. induction S as [|a S IH]; intros w; cbn [foldl].
  { do 5 (split; [done|]). split.
    - intros s. rewrite decide_False; [done|]. intros [H _]. by apply not_elem_of_nil in H.
    - exists []. split; [by rewrite app_nil_r|]. intros x. split; [by intros H%not_elem_of_nil|].
      intros (s & _ & H%not_elem_of_nil & _). done. }
  destruct (close_member_spec ws w a) as (Hc & Hw & Hr & Ht & Hn & Hs & Ho).
  destruct (IH (close_member ws w a)) as (Hc' & Hw' & Hr' & Ht' & Hn' & Hs' & out & Ho' & Hout).
  assert (Hopen : ∀ s, is_open (close_member ws w a) s = is_open w s && bool_decide (s ≠ a)).
  { intros s. destruct (is_open w a) eqn:Ea.
    - by apply is_open_insert_closing.
    - rewrite (is_open_same _ w) by done.
      destruct (decide (s = a)) as [->|]; [by rewrite Ea|].
      by rewrite bool_decide_eq_true_2, andb_true_r. }
  split; [congruence|]. split; [congruence|]. split; [congruence|].
  split; [congruence|]. split; [congruence|]. split.
  - intros s. rewrite Hs', Hopen.
    destruct (decide (s = a)) as [->|Hne].
    + rewrite bool_decide_eq_false_2 by (by intros ?). rewrite andb_false_r.
      rewrite decide_False by (by intros [_ ?]). rewrite Hs.
      destruct (is_open w a) eqn:Ea.
      * rewrite lookup_insert_eq, decide_True; [done|]. split; [apply elem_of_cons; auto|done].
      * rewrite decide_False by (by intros [_ ?]). done.
    + rewrite bool_decide_eq_true_2, andb_true_r by done.
      assert (Hsock : socks (close_member ws w a) !! s = socks w !! s).
      { rewrite Hs. destruct (is_open w a); [by rewrite lookup_insert_ne|done]. }
      rewrite Hsock. destruct (decide (s ∈ S ∧ is_open w s = true)) as [[? ?]|Hno].
      * rewrite decide_True; [done|]. split; [apply elem_of_cons; auto|done].
      * rewrite decide_False; [done|]. intros [[?|?]%elem_of_cons ?]; [done|]. by apply Hno.
  - eexists. split; [rewrite Ho', Ho, <- app_assoc; reflexivity|].
    intros x. rewrite elem_of_app, Hout. split.
    + intros [Hx|(s & -> & Hs1 & Hs2 & Hs3)].
      * destruct (bool_decide (a ≠ ws)) eqn:E1; [|by apply not_elem_of_nil in Hx].
        destruct (is_open w a) eqn:E2; [|by apply not_elem_of_nil in Hx].
        apply list_elem_of_singleton in Hx as ->. exists a.
        apply bool_decide_eq_true in E1. repeat split; [apply elem_of_cons; auto|done..].
      * rewrite Hopen in Hs3. apply andb_true_iff in Hs3 as [? _].
        exists s. repeat split; [apply elem_of_cons; auto|done..].
    + intros (s & -> & [->|Hs1]%elem_of_cons & Hs2 & Hs3).
      * left. rewrite bool_decide_eq_true_2, Hs3 by done. apply list_elem_of_singleton. done.
      * destruct (decide (s = a)) as [->|Hne].
        -- left. rewrite bool_decide_eq_true_2, Hs3 by done. by apply list_elem_of_singleton.
        -- right. exists s. repeat split; [done..|].
           rewrite Hopen, Hs3. by rewrite bool_decide_eq_true_2.
Qed.

(** C4, as the code has it. [cleanup ws], run on the close or error event of
    [ws], dissolves the room the session of [ws] refers to (line 72 takes an
    empty id for no room). When the session of [ws] refers, by an id that is
    not empty, to an existing room: the room leaves [rooms], the
    session leaves [clients], the messages sent are the disconnect notice to
    the open sockets of the room other than [ws] and nothing else, and every
    socket of the room that was open is closing afterwards. When [ws] has no
    session, [cleanup ws] changes nothing and sends nothing; this is so after
    [cleanup ws] has run once. *)
Theorem cleanup_dissolves_room ws w :
  (∀ c rid room,
     clients w !! ws = Some c → c_roomId c = Some rid → rid ≠ "" →
     rooms w !! rid = Some room →
     let w' := cleanup ws w in
     rooms w' = delete rid (rooms w) ∧
     clients w' = delete ws (clients w) ∧
     (∀ s, s ∈ sockets room → is_open w s = true → socks w' !! s = Some Closing) ∧
     (∀ s, s ∈ sockets room → s ≠ ws → is_open w s = true →
        (s, disconnect_notice) ∈ outbox w') ∧
     ∃ out, outbox w' = outbox w ++ out ∧
       ∀ x, x ∈ out ↔
         ∃ s, x = (s, disconnect_notice) ∧ s ∈ sockets room ∧ s ≠ ws ∧ is_open w s = true) ∧
  (clients w !! ws = None → cleanup ws w = w) ∧
  cleanup ws (cleanup ws w) = cleanup ws w.
Proof.
  assert (Hnone : ∀ w0, clients w0 !! ws = None → cleanup ws w0 = w0)
    by (intros w0 H; unfold cleanup; by rewrite H).
  split; [|split; [apply Hnone|]]; cycle 1.
  { apply Hnone. unfold cleanup. destruct (clients w !! ws) eqn:E; [|done].
    simpl. apply lookup_delete_eq. }
  intros c rid room Hc Hr Hrid Hroom. unfold cleanup. rewrite Hc. cbn zeta.
  destruct (leave_queue_frame ws c w) as (Lc & Lr & Ls & Lo & Ln).
  set (w1 := leave_queue ws c w) in *.
  unfold close_room. rewrite Hr. destruct rid as [|a rid]; [done|]. cbn [str_truthy].
  rewrite Lr, Hroom.
  destruct (close_loop ws (sockets room) w1) as (Kc & Kw & Kr & Kt & Kn & Ks & out & Ko & Kout).
  set (w2 := foldl (close_member ws) w1 (sockets room)) in *.
  assert (Hopen : ∀ s, is_open w1 s = is_open w s) by (intros s; by apply is_open_same).
  simpl. split; [by rewrite Kr, Lr|]. split; [by rewrite Kc, Lc|].
  split; [|split].
  - intros s Hs Ho. rewrite Ks, decide_True; [done|]. by rewrite Hopen.
  - intros s Hs Hne Ho. rewrite Ko. apply elem_of_app. right. apply Kout.
    exists s. by rewrite Hopen.
  - exists out. split; [by rewrite Ko, Lo|]. intros x. rewrite Kout.
    split; intros (s & ? & ? & ? & ?); exists s; by rewrite ?Hopen in *.
Qed.

(** ** Joining twice *)

Lemma enqueue_present ws q : ws ∈ q → enqueue ws q = q.
Proof. intros H. unfold enqueue. by rewrite bool_decide_eq_true_2. Qed.

Lemma start_due_false mode len :
  start_due mode len = false → start_size mode = 0 ∨ len < start_size mode.
Proof.
  unfold start_due. destruct (start_size mode =? 0) eqn:E.
  - apply Nat.eqb_eq in E. by left.
  - simpl. intros H%Nat.leb_nle. right. lia.
Qed.

(** C8. A join for a bucket in whose queue the sender already is, while no
    start is due for that queue: the queue of the bucket is the same list
    after the handler (the sender keeps its position and is not added again),
    and no room is created. *)
Theorem rejoin_same_bucket ws c msg f rid now w b :
  let mode := join_mode f in
  let k := keyOf mode (join_tier f) in
  clients w !! ws = Some c →
  get_prop "type" msg = Some (JStr "join") →
  join_fields msg = Some f →
  waiting w !! k = Some b →
  ws ∈ queue b →
  start_due mode (length (queue b)) = false →
  enqueue ws (queue b) = queue b ∧
  ∃ w', on_message ws (Some msg) rid now w = (Done, w') ∧
    queue <$> waiting w' !! k = Some (queue b) ∧
    rooms w' = rooms w.
Proof.
  intros mode k Hc Ht Hf Hb Hin Hdue. split; [by apply enqueue_present|].
  rewrite (on_message_join ws c) by done. rewrite (on_join_unfold _ _ _ f) by done.
  pose proof (after_enqueue_bucket ws c f w) as Hb'. fold mode k in Hb'.
  rewrite Hb in Hb'. cbn [default from_option id] in Hb'. rewrite enqueue_present in Hb' by done.
  set (w3 := after_enqueue ws c f w) in *.
  assert (Hrooms : rooms w3 = rooms w) by done.
  apply start_due_false in Hdue. unfold start_size in Hdue.
  destruct (needExact_cases mode) as [[_ HN]|[[_ HN]|(_ & _ & HN)]].
  - rewrite (maybeStart_exact _ _ _ _ _ _ Hb') by (rewrite HN; done).
    rewrite HN in *. cbn [queue with_queue]. cbv iota beta in Hdue.
    rewrite decide_False by lia. exists w3. by rewrite Hb'.
  - rewrite (maybeStart_exact _ _ _ _ _ _ Hb') by (rewrite HN; done).
    rewrite HN in *. cbn [queue with_queue]. cbv iota beta in Hdue.
    rewrite decide_False by lia. exists w3. by rewrite Hb'.
  - rewrite (maybeStart_variable _ _ _ _ _ _ Hb' HN). rewrite HN in Hdue.
    cbv iota beta in Hdue. cbn [queue with_queue timer].
    destruct (decide (maxPlayers mode ≤ length (queue b))) as [Hle|Hgt].
    + assert (maxPlayers mode = 0) as -> by lia.
      rewrite createRoom_absent by (by right). exists w3. by rewrite Hb'.
    + destruct (decide _).
      * eexists. split; [done|]. split; [|done]. unfold armed. simpl.
        by rewrite lookup_insert_eq.
      * exists w3. by rewrite Hb'.
Qed.

(** ** The mode of a join *)

Lemma assoc_filter name (fields : list (string * @json num)) :
  name ≠ "mode" →
  assoc name (filter (λ kv, kv.1 ≠ "mode") fields) = assoc name fields.
Proof.
  intros Hne. induction fields as [|[k v] fields IH]; [done|].
  rewrite filter_cons. simpl. destruct (decide (k ≠ "mode")) as [Hk|Hk]; simpl.
  - by rewrite IH.
  - apply dec_stable in Hk. subst k. rewrite IH.
    by rewrite (proj2 (String.eqb_neq _ _)) by done.
Qed.

Lemma on_join_ext ws c msg msg' rid now w :
  js_or (get_prop "tier" msg) (JNum (num_of_nat 1))
    = js_or (get_prop "tier" msg') (JNum (num_of_nat 1)) →
  js_or (get_prop "tankName" msg) (JStr "Tank")
    = js_or (get_prop "tankName" msg') (JStr "Tank") →
  js_or (get_prop "mode" msg) (JStr "ONLINEPVP")
    = js_or (get_prop "mode" msg') (JStr "ONLINEPVP") →
  js_or (get_prop "username" msg) (JStr "") = js_or (get_prop "username" msg') (JStr "") →
  on_join ws c msg rid now w = on_join ws c msg' rid now w.
Proof. intros H1 H2 H3 H4. unfold on_join. by rewrite H1, H2, H3, H4. Qed.

(** C7, as the code has it. A join whose mode property is absent or falsy is
    handled exactly as the same join with mode "ONLINEPVP". A truthy mode is
    kept as its string. In both cases the mode so obtained is the one stored
    in the session, the one that keys the bucket the sender is queued in, and
    the one [maybeStart] is run with. *)
Theorem join_mode_coercion ws c msg f rid now w :
  clients w !! ws = Some c →
  get_prop "type" msg = Some (JStr "join") →
  join_fields msg = Some f →
  ((∀ v, get_prop "mode" msg = Some v → js_truthy v = false) →
     join_mode f = "ONLINEPVP" ∧
     on_message ws (Some msg) rid now w =
       on_message ws (Some (with_mode_field "ONLINEPVP" msg)) rid now w) ∧
  (∀ v, get_prop "mode" msg = Some v → js_truthy v = true →
     js_to_string v = Some (join_mode f)) ∧
  on_message ws (Some msg) rid now w =
    maybeStart (join_mode f) (join_tier f) rid now (after_enqueue ws c f w) ∧
  c_mode <$> clients (after_enqueue ws c f w) !! ws = Some (Some (join_mode f)) ∧
  ∃ b, waiting (after_enqueue ws c f w) !! keyOf (join_mode f) (join_tier f) = Some b ∧
       ws ∈ queue b.
Proof.
  intros Hc Ht Hf. pose proof Hf as (u & _ & _ & Hm & _)%join_fields_Some.
  split; [|split; [|split; [|split]]].
  - intros Hfalsy.
    assert (Hor : js_or (get_prop "mode" msg) (JStr "ONLINEPVP") = JStr "ONLINEPVP").
    { unfold js_or. destruct (get_prop "mode" msg) as [v|] eqn:E; [|done].
      by rewrite (Hfalsy v eq_refl). }
    rewrite Hor in Hm. injection Hm as Hm. split; [done|].
    destruct msg as [| | | | |fields]; try done. simpl in Ht, Hor.
    rewrite (on_message_join ws c) by done.
    rewrite (on_message_join ws c); [| done | simpl; by rewrite assoc_filter].
    apply on_join_ext; simpl; rewrite ?assoc_filter by done; done.
  - intros v Hv Htr. unfold js_or in Hm. by rewrite Hv, Htr in Hm.
  - rewrite (on_message_join ws c) by done. by apply on_join_unfold.
  - unfold after_enqueue. simpl. by rewrite lookup_insert_eq.
  - eexists. split; [apply after_enqueue_bucket|]. cbn [queue with_queue].
    unfold enqueue. case_bool_decide; [done|]. apply elem_of_app. right.
    by apply list_elem_of_singleton.
Qed.

(** ** One timer per bucket *)

Lemma timers_ok_same w w' :
  waiting w' = waiting w → timers w' = timers w → next_timer w' = next_timer w →
  timers_ok w → timers_ok w'.
Proof. intros Hw Ht Hn [T1 T2 T3]. split; rewrite ?Hw, ?Ht, ?Hn; done. Qed.

(** A bucket is written back, or created, with the timer it had. *)
Lemma timers_ok_requeue w w' k b' :
  timers_ok w →
  waiting w' = <[k := b']> (waiting w) → timers w' = timers w →
  next_timer w' = next_timer w →
  timer b' = (waiting w !! k) ≫= timer →
  timers_ok w'.
Proof.
  intros [T1 T2 T3] Hw Ht Hn Hb. split; rewrite ?Hw, ?Ht, ?Hn; [| |done].
  - intros h t Hh. destruct (T1 h t Hh) as (b & Hk & Hbt).
    destruct (decide (k = key_of_timer t)) as [->|Hne].
    + exists b'. rewrite lookup_insert_eq. split; [done|]. by rewrite Hb, Hk.
    + exists b. by rewrite lookup_insert_ne.
  - intros k0 b0 h. destruct (decide (k = k0)) as [->|Hne].
    + rewrite lookup_insert_eq. intros [= <-] Hh. rewrite Hb in Hh.
      destruct (waiting w !! k0) as [b|] eqn:E; [|done]. by apply (T2 k0 b).
    + rewrite lookup_insert_ne by done. apply T2.
Qed.

(** [drop_bucket]: the bucket goes together with its timer. *)
Lemma timers_ok_drop w w' k b :
  timers_ok w → waiting w !! k = Some b →
  waiting w' = delete k (waiting w) →
  timers w' = match timer b with Some h => delete h (timers w) | None => timers w end →
  next_timer w' = next_timer w →
  timers_ok w'.
Proof.
  intros [T1 T2 T3] Hk Hw Ht Hn. split; rewrite ?Hw, ?Ht, ?Hn.
  - intros h t Hh.
    assert (Hh' : timers w !! h = Some t ∧ timer b ≠ Some h).
    { destruct (timer b) as [h0|]; [|done].
      destruct (decide (h0 = h)) as [->|Hne]; [by rewrite lookup_delete_eq in Hh|].
      rewrite lookup_delete_ne in Hh by done. split; [done|congruence]. }
    destruct Hh' as [Hh' Hnb]. destruct (T1 h t Hh') as (b0 & Hk0 & Hb0).
    exists b0. split; [|done]. rewrite lookup_delete_ne; [done|].
    intros E. rewrite <- E in Hk0. congruence.
  - intros k0 b0 h. destruct (decide (k = k0)) as [->|Hne];
      [by rewrite lookup_delete_eq|]. rewrite lookup_delete_ne by done.
    intros Hk0 Hh. destruct (T2 k0 b0 h Hk0 Hh) as (t & Hth & Hkey).
    exists t. split; [|done]. destruct (timer b) as [h0|] eqn:Eb; [|done].
    rewrite lookup_delete_ne; [done|]. intros ->.
    destruct (T2 k b h Hk Eb) as (t' & Hth' & Hkey'). congruence.
  - intros h Hh. apply T3. destruct (timer b) as [h0|]; [|done].
    destruct (decide (h0 = h)) as [->|?]; [by rewrite lookup_delete_eq in Hh; destruct Hh|].
    by rewrite lookup_delete_ne in Hh.
Qed.

(** Lines 147-157: a bucket without timer gets a timer with a new handle. *)
Lemma timers_ok_arm mode tier now b w :
  timers_ok w → waiting w !! keyOf mode tier = Some b → timer b = None →
  timers_ok (armed mode tier now b w).
Proof.
  intros [T1 T2 T3] Hk Hb. unfold armed. split; simpl.
  - intros h t. destruct (decide (next_timer w = h)) as [<-|Hne].
    + rewrite lookup_insert_eq. intros [= <-]. unfold key_of_timer. simpl.
      rewrite lookup_insert_eq. eauto.
    + rewrite lookup_insert_ne by done. intros Hh.
      destruct (T1 h t Hh) as (b0 & Hk0 & Hb0). exists b0. split; [|done].
      rewrite lookup_insert_ne; [done|]. intros E. rewrite <- E in Hk0. congruence.
  - intros k0 b0 h. destruct (decide (keyOf mode tier = k0)) as [<-|Hne].
    + rewrite lookup_insert_eq. intros [= <-]. simpl. intros [= <-].
      eexists. by rewrite lookup_insert_eq.
    + rewrite lookup_insert_ne by done. intros Hk0 Hh.
      destruct (T2 k0 b0 h Hk0 Hh) as (t & Hth & Hkey). exists t. split; [|done].
      rewrite lookup_insert_ne; [done|]. intros <-.
      assert (next_timer w < next_timer w) by (apply T3; eauto). lia.
  - intros h. destruct (decide (next_timer w = h)) as [<-|Hne]; [lia|].
    rewrite lookup_insert_ne by done. intros H%T3. lia.
Qed.

(** A timer fires: the runtime retires the handle, the callback finds the
    bucket and resets its [timer]. *)
Lemma timers_ok_fire h t w :
  timers_ok w → timers w !! h = Some t →
  ∃ b, waiting w !! key_of_timer t = Some b ∧ timer b = Some h ∧
    timers_ok (set_waiting (<[key_of_timer t := with_timer None (startedAt b) b]>)
                 (set_timers (delete h) w)).
Proof.
  intros [T1 T2 T3] Hh. destruct (T1 h t Hh) as (b & Hk & Hb).
  exists b. split; [done|]. split; [done|]. split; simpl.
  - intros h' t' Hh'. destruct (decide (h = h')) as [->|Hne];
      [by rewrite lookup_delete_eq in Hh'|]. rewrite lookup_delete_ne in Hh' by done.
    destruct (T1 h' t' Hh') as (b' & Hk' & Hb'). exists b'. split; [|done].
    rewrite lookup_insert_ne; [done|]. intros E. rewrite E in Hk. congruence.
  - intros k0 b0 h0. destruct (decide (key_of_timer t = k0)) as [<-|Hne].
    + rewrite lookup_insert_eq. by intros [= <-].
    + rewrite lookup_insert_ne by done. intros Hk0 Hh0.
      destruct (T2 k0 b0 h0 Hk0 Hh0) as (t0 & Hth & Hkey). exists t0. split; [|done].
      rewrite lookup_delete_ne; [done|]. intros ->. congruence.
  - intros h0 Hh0. apply T3. destruct (decide (h = h0)) as [->|?];
      [by rewrite lookup_delete_eq in Hh0; destruct Hh0|].
    by rewrite lookup_delete_ne in Hh0.
Qed.

Lemma createRoom_timers_ok mode tier n rid w w' :
  timers_ok w → createRoomFromQueue mode tier n rid w = (Done, w') → timers_ok w'.
Proof.
  intros T Hrun. destruct (waiting w !! keyOf mode tier) as [b|] eqn:Hb; cycle 1.
  { rewrite createRoom_absent in Hrun by (by left). by injection Hrun as <-. }
  destruct (decide (n = 0)) as [->|Hn].
  { rewrite createRoom_absent in Hrun by (by right). by injection Hrun as <-. }
  destruct (createRoom_done _ _ _ _ _ _ _ Hb Hn Hrun) as [ps M].
  destruct M as [_ _ Mw _ _ Mt Mn _].
  destruct (drop n (queue b)) as [|x rest].
  - by apply (timers_ok_drop w w' (keyOf mode tier) b).
  - apply (timers_ok_requeue w w' _ _ T Mw Mt Mn). by rewrite Hb.
Qed.

Lemma maybeStart_cases mode tier rid now w w' :
  maybeStart mode tier rid now w = (Done, w') →
  w' = w ∨
  (∃ n, createRoomFromQueue mode tier n rid w = (Done, w')) ∨
  (∃ b, waiting w !! keyOf mode tier = Some b ∧ timer b = None ∧
        w' = armed mode tier now b w).
Proof.
  intros Hrun. destruct (waiting w !! keyOf mode tier) as [b|] eqn:Hb; cycle 1.
  { rewrite maybeStart_absent in Hrun by done. left. by injection Hrun. }
  destruct (decide (needExact mode = 0)) as [HN|HN].
  - rewrite (maybeStart_variable _ _ _ _ _ _ Hb HN) in Hrun.
    destruct (decide _); [right; left; eauto|].
    destruct (decide _) as [[_ Ht]|_]; injection Hrun as <-; [|by left].
    right; right. eauto.
  - rewrite (maybeStart_exact _ _ _ _ _ _ Hb HN) in Hrun.
    destruct (decide _); [right; left; eauto|]. left. by injection Hrun.
Qed.

Lemma maybeStart_timers_ok mode tier rid now w w' :
  timers_ok w → maybeStart mode tier rid now w = (Done, w') → timers_ok w'.
Proof.
  intros T Hrun.
  destruct (maybeStart_cases _ _ _ _ _ _ Hrun) as [->|[[n Hn]|(b & Hb & Ht & ->)]].
  - done.
  - by eapply createRoom_timers_ok.
  - by apply timers_ok_arm.
Qed.

Lemma after_enqueue_timers_ok ws c f w :
  timers_ok w → timers_ok (after_enqueue ws c f w).
Proof.
  intros T. eapply (timers_ok_requeue w _ _ _ T); [reflexivity..|].
  cbn [timer with_queue]. by destruct (waiting w !! _).
Qed.

Lemma leave_queue_timers_ok ws c w : timers_ok w → timers_ok (leave_queue ws c w).
Proof.
  intros T. unfold leave_queue. destruct (c_mode c) as [m|]; [|done].
  destruct (c_tier c) as [t|]; [|done]. destruct (str_truthy m); [|done].
  destruct (waiting w !! keyOf m t) as [b|] eqn:Hb; [|done].
  destruct (filter _ _) as [|x q].
  - apply (timers_ok_drop w _ _ b T Hb); unfold drop_bucket; by destruct (timer b).
  - eapply (timers_ok_requeue w _ _ _ T); [reflexivity..|]. by rewrite Hb.
Qed.

Lemma close_room_frame ws c w :
  clients (close_room ws c w) = clients w ∧ waiting (close_room ws c w) = waiting w ∧
  timers (close_room ws c w) = timers w ∧ next_timer (close_room ws c w) = next_timer w.
Proof.
  unfold close_room. destruct (c_roomId c) as [rid|]; [|done].
  destruct (str_truthy rid); [|done]. destruct (rooms w !! rid) as [room|]; [|done].
  destruct (close_loop ws (sockets room) w) as (? & ? & ? & ? & ? & _). done.
Qed.

Lemma cleanup_timers_ok ws w : timers_ok w → timers_ok (cleanup ws w).
Proof.
  intros T. unfold cleanup. destruct (clients w !! ws) as [c|]; [|done].
  destruct (close_room_frame ws c (leave_queue ws c w)) as (_ & Hw & Ht & Hn).
  by apply (timers_ok_same (leave_queue ws c w)), leave_queue_timers_ok.
Qed.

Lemma on_relay_emit ws c type msg w : ∃ out, on_relay ws c type msg w = emit out w.
Proof.
  unfold on_relay.
  destruct (c_roomId c) as [rid|]; [|by exists []; rewrite emit_nil].
  destruct (str_truthy rid); [|by exists []; rewrite emit_nil].
  destruct (rooms w !! rid) as [room|]; [|by exists []; rewrite emit_nil].
  destruct (String.eqb type "input").
  - case_bool_decide; [|by exists []; rewrite emit_nil].
    destruct (hostWs room); simpl; [rewrite send_emit; eauto|by exists []; rewrite emit_nil].
  - case_bool_decide; [|by exists []; rewrite emit_nil]. rewrite relay_loop. eauto.
Qed.

(** What a message can do: send, or join and run [maybeStart]. *)
Lemma on_message_cases ws body rid now w w' :
  on_message ws body rid now w = (Done, w') →
  (∃ out, w' = emit out w) ∨
  (∃ c msg f, body = Some msg ∧ clients w !! ws = Some c ∧
     is_type "join" (get_prop "type" msg) = true ∧ join_fields msg = Some f ∧
     maybeStart (join_mode f) (join_tier f) rid now (after_enqueue ws c f w)
       = (Done, w')).
Proof.
  unfold on_message. destruct body as [msg|]; [|intros [= <-]; left; exists []; by rewrite emit_nil].
  destruct (clients w !! ws) as [c|] eqn:Hc; [|intros [= <-]; left; exists []; by rewrite emit_nil].
  assert (G : (if is_type "join" (get_prop "type" msg) then on_join ws c msg rid now w
               else if is_type "input" (get_prop "type" msg) then (Done, on_relay ws c "input" msg w)
               else if is_type "init" (get_prop "type" msg) then (Done, on_relay ws c "init" msg w)
               else if is_type "snapshot" (get_prop "type" msg)
                    then (Done, on_relay ws c "snapshot" msg w)
               else (Done, w)) = (Done, w') →
    (∃ out, w' = emit out w) ∨
    (∃ c0 msg0 f, Some msg = Some msg0 ∧ Some c = Some c0 ∧
       is_type "join" (get_prop "type" msg0) = true ∧ join_fields msg0 = Some f ∧
       maybeStart (join_mode f) (join_tier f) rid now (after_enqueue ws c0 f w)
         = (Done, w'))).
  { destruct (is_type "join" _) eqn:Ej.
    - destruct (join_fields msg) as [f|] eqn:Ef.
      + rewrite (on_join_unfold _ _ _ f) by done. intros H. right. exists c, msg, f. eauto.
      + intros H. pose proof (on_join_throws ws c msg rid now w Ef) as Hth.
        by rewrite H in Hth.
    - intros H. left.
      destruct (is_type "input" _);
        [injection H as <-; apply on_relay_emit|].
      destruct (is_type "init" _);
        [injection H as <-; apply on_relay_emit|].
      destruct (is_type "snapshot" _);
        [injection H as <-; apply on_relay_emit|].
      injection H as <-. exists []. by rewrite emit_nil. }
  destruct msg; try exact G. done.
Qed.

Lemma on_message_timers_ok ws body rid now w w' :
  timers_ok w → on_message ws body rid now w = (Done, w') → timers_ok w'.
Proof.
  intros T Hrun. destruct (on_message_cases _ _ _ _ _ _ Hrun) as [[out ->]|(c & msg & f & _ & _ & _ & _ & H)].
  - by apply (timers_ok_same w).
  - eapply maybeStart_timers_ok; [|exact H]. by apply after_enqueue_timers_ok.
Qed.

Lemma exec_inv e w w' :
  exec e w = Some w' → enabled e w = true ∧ handle e w = (Done, w').
Proof.
  unfold exec. destruct (enabled e w); [|done].
  destruct (handle e w) as [[] w1]; [|done]. by intros [= ->].
Qed.

Lemma exec_timers_ok e w w' : timers_ok w → exec e w = Some w' → timers_ok w'.
Proof.
  intros T [_ Hrun]%exec_inv. destruct e as [ws id|ws body rid now|ws|ws|h rid]; simpl in Hrun.
  - injection Hrun as <-. unfold on_connection. rewrite send_emit.
    by apply (timers_ok_same w).
  - by eapply on_message_timers_ok.
  - injection Hrun as <-. apply cleanup_timers_ok. by apply (timers_ok_same w).
  - injection Hrun as <-. apply cleanup_timers_ok. by apply (timers_ok_same w).
  - destruct (timers w !! h) as [t|] eqn:Hh; [|by injection Hrun as <-].
    destruct (timers_ok_fire h t w T Hh) as (b & Hb & _ & T').
    rewrite (on_timer_unfold _ _ _ _ b) in Hrun by exact Hb. cbn zeta in Hrun.
    destruct (decide _); [by eapply createRoom_timers_ok|]. by injection Hrun as <-.
Qed.

Lemma timers_ok_init : timers_ok (world0 (num := num)).
Proof.
  split; simpl.
  - intros h t H. by rewrite lookup_empty in H.
  - intros k b h H. by rewrite lookup_empty in H.
  - intros h [t H]. by rewrite lookup_empty in H.
Qed.

Lemma reachable_timers_ok w : reachable w → timers_ok w.
Proof.
  induction 1 as [|w e w' _ IH Hstep]; [apply timers_ok_init|].
  by eapply exec_timers_ok.
Qed.

(** A callback either retires timers or arms one, never both. *)
Lemma createRoom_timers_shrink mode tier n rid w w' :
  createRoomFromQueue mode tier n rid w = (Done, w') → timers w' ⊆ timers w.
Proof.
  intros Hrun. destruct (waiting w !! keyOf mode tier) as [b|] eqn:Hb; cycle 1.
  { rewrite createRoom_absent in Hrun by (by left). by injection Hrun as <-. }
  destruct (decide (n = 0)) as [->|Hn].
  { rewrite createRoom_absent in Hrun by (by right). by injection Hrun as <-. }
  destruct (createRoom_done _ _ _ _ _ _ _ Hb Hn Hrun) as [ps M].
  destruct M as [_ _ _ _ _ Mt _ _]. rewrite Mt.
  destruct (drop n (queue b)); [|done]. destruct (timer b); [|done].
  apply delete_subseteq.
Qed.

Lemma cleanup_timers_shrink ws w : timers (cleanup ws w) ⊆ timers w.
Proof.
  unfold cleanup. destruct (clients w !! ws) as [c|]; [|done].
  destruct (close_room_frame ws c (leave_queue ws c w)) as (_ & _ & Ht & _).
  simpl. rewrite Ht. unfold leave_queue. destruct (c_mode c) as [m|]; [|done].
  destruct (c_tier c) as [t|]; [|done]. destruct (str_truthy m); [|done].
  destruct (waiting w !! keyOf m t) as [b|]; [|done].
  destruct (filter _ _); [|done]. unfold drop_bucket.
  destruct (timer b); [|done]. apply delete_subseteq.
Qed.

Lemma exec_timers_mono e w w' :
  timers_ok w → exec e w = Some w' →
  timers w' ⊆ timers w ∨ timers w ⊆ timers w'.
Proof.
  intros T [_ Hrun]%exec_inv. destruct e as [ws id|ws body rid now|ws|ws|h rid]; simpl in Hrun.
  - injection Hrun as <-. left. unfold on_connection. by rewrite send_emit.
  - destruct (on_message_cases _ _ _ _ _ _ Hrun) as [[out ->]|(c & msg & f & _ & _ & _ & _ & H)];
      [by left|].
    destruct (maybeStart_cases _ _ _ _ _ _ H) as [->|[[n Hn]|(b & Hb & Ht & ->)]].
    + by left.
    + left. by apply createRoom_timers_shrink in Hn.
    + right. unfold armed. simpl. apply insert_subseteq.
      destruct (timers w !! next_timer w) eqn:E; [|done].
      assert (next_timer w < next_timer w) by (apply T; eauto). lia.
  - injection Hrun as <-. left. apply (cleanup_timers_shrink ws (set_socks _ w)).
  - injection Hrun as <-. left. apply (cleanup_timers_shrink ws (set_socks _ w)).
  - left. destruct (timers w !! h) as [t|] eqn:Hh; [|by injection Hrun as <-].
    transitivity (delete h (timers w)); [|apply delete_subseteq].
    unfold on_timer in Hrun. destruct (waiting _ !! _) as [b|]; [|by injection Hrun as <-].
    cbn zeta in Hrun. destruct (_ <=? _).
    + by apply createRoom_timers_shrink in Hrun.
    + by injection Hrun as <-.
Qed.

(** C9. In every reachable state the pending timers and the buckets' timer
    fields correspond, so two pending timers are never for the same bucket;
    a timer that becomes pending in a step is armed for a bucket that had no
    pending timer before the step; and [maybeStart] arms nothing for a bucket
    whose timer field is set. *)
Theorem one_timer_per_bucket :
  (∀ w, reachable w →
     timers_ok w ∧
     ∀ h1 h2 t1 t2, timers w !! h1 = Some t1 → timers w !! h2 = Some t2 →
       key_of_timer t1 = key_of_timer t2 → h1 = h2) ∧
  (∀ w e w', reachable w → exec e w = Some w' →
     ∀ h t, timers w' !! h = Some t → timers w !! h = None →
       ∀ h0 t0, timers w !! h0 = Some t0 → key_of_timer t0 ≠ key_of_timer t) ∧
  (∀ mode tier rid now w w' b h,
     waiting w !! keyOf mode tier = Some b → timer b = Some h →
     maybeStart mode tier rid now w = (Done, w') →
     timers w' ⊆ timers w).
Proof.
  assert (One : ∀ w, timers_ok w →
    ∀ h1 h2 t1 t2, timers w !! h1 = Some t1 → timers w !! h2 = Some t2 →
      key_of_timer t1 = key_of_timer t2 → h1 = h2).
  { intros w [T1 _ _] h1 h2 t1 t2 H1 H2 Hk.
    destruct (T1 h1 t1 H1) as (b1 & Hb1 & Ht1). destruct (T1 h2 t2 H2) as (b2 & Hb2 & Ht2).
    rewrite Hk in Hb1. congruence. }
  split; [|split].
  - intros w Hw. pose proof (reachable_timers_ok w Hw). eauto.
  - intros w e w' Hw Hstep h t Hh Hnew h0 t0 Hh0 Hk.
    pose proof (reachable_timers_ok w Hw) as T.
    pose proof (exec_timers_ok e w w' T Hstep) as T'.
    destruct (exec_timers_mono e w w' T Hstep) as [Hsub|Hsub].
    + pose proof (lookup_weaken _ _ _ _ Hh Hsub). congruence.
    + pose proof (lookup_weaken _ _ _ _ Hh0 Hsub) as Hh0'.
      assert (h0 = h) by (by eapply (One w' T')). congruence.
  - intros mode tier rid now w w' b h Hb Ht Hrun.
    destruct (maybeStart_cases _ _ _ _ _ _ Hrun) as [->|[[n Hn]|(b' & Hb' & Ht' & ->)]].
    + done.
    + by apply createRoom_timers_shrink in Hn.
    + congruence.
Qed.

(** ** Sessions, queues and rooms *)

Lemma run_reachable es w w' : reachable w → run es w = Some w' → reachable w'.
Proof.
  revert w. induction es as [|e es IH]; intros w Hw; simpl.
  - by intros [= <-].
  - destruct (exec e w) as [w1|] eqn:E; [|done]. apply IH. by eapply reach_step.
Qed.

Lemma wf_general_same w w' :
  clients w' = clients w → (∀ k, queue_at w' k = queue_at w k) → rooms w' = rooms w →
  (∀ s, known w s → known w' s) →
  wf_general w → wf_general w'.
Proof.
  intros Hc Hq Hr Hs [G1 G2 G3 G4].
  assert (Hqd : ∀ s, queued w' s → queued w s).
  { intros s (k & q & Hk & Hin). exists k, q. by rewrite <- Hq. }
  assert (Hin : ∀ s, in_room w' s → in_room w s).
  { intros s (rid & room & Hk & Hin). exists rid, room. by rewrite <- Hr. }
  split.
  - intros s. rewrite Hc. eauto.
  - eauto.
  - eauto.
  - intros s c. rewrite Hc. eauto.
Qed.

Lemma wf_general_connect ws id w :
  wf_general w → socks w !! ws = None →
  wf_general (on_connection ws id (set_socks (<[ws := Open]>) w)).
Proof.
  intros [G1 G2 G3 G4] Hfresh. unfold on_connection. rewrite send_emit.
  assert (Hk : ∀ s, known w s → known (set_socks (<[ws := Open]>) w) s).
  { intros s [x Hx]. unfold known. simpl. rewrite lookup_insert_is_Some. 
    destruct (decide (ws = s)); eauto. }
  split; simpl.
  - intros s. rewrite lookup_insert_is_Some. intros [<-|[_ H]].
    + unfold known. simpl. by rewrite lookup_insert_eq.
    + apply (Hk s). eauto.
  - intros s Hs. apply (Hk s). by apply G2.
  - intros s Hs. apply (Hk s). by apply G3.
  - intros s c Hs. destruct (decide (ws = s)) as [<-|Hne].
    + destruct (G3 ws Hs) as [x Hx]. congruence.
    + rewrite lookup_insert_ne by done. by apply G4.
Qed.

Lemma str_truthy_ne s : s ≠ "" → str_truthy s = true.
Proof. by destruct s. Qed.

Lemma leave_queue_queues ws c w k q' :
  queue_at (leave_queue ws c w) k = Some q' →
  ∃ q, queue_at w k = Some q ∧ (q' = q ∨ q' = filter (λ x, x ≠ ws) q).
Proof.
  unfold leave_queue. destruct (c_mode c) as [m|]; [|by eauto].
  destruct (c_tier c) as [t|]; [|by eauto]. destruct (str_truthy m); [|by eauto].
  destruct (waiting w !! keyOf m t) as [b|] eqn:Hb; [|by eauto].
  unfold queue_at. destruct (filter _ _) as [|x q0] eqn:Hf.
  - assert (Hw : waiting (drop_bucket (keyOf m t) b w) = delete (keyOf m t) (waiting w))
      by (unfold drop_bucket; by destruct (timer b)).
    rewrite Hw. destruct (decide (keyOf m t = k)) as [<-|Hne];
      [by rewrite lookup_delete_eq|]. rewrite lookup_delete_ne by done. eauto.
  - simpl. destruct (decide (keyOf m t = k)) as [<-|Hne].
    + rewrite lookup_insert_eq, Hb. simpl. intros [= <-]. exists (queue b).
      split; [done|]. right. by rewrite Hf.
    + rewrite lookup_insert_ne by done. eauto.
Qed.

Lemma close_room_effect ws c w :
  rooms (close_room ws c w) ⊆ rooms w ∧
  (∀ rid, c_roomId c = Some rid → rid ≠ "" → rooms (close_room ws c w) !! rid = None) ∧
  (∀ s, known (close_room ws c w) s ↔ known w s).
Proof.
  unfold close_room. destruct (c_roomId c) as [rid|]; [|done].
  destruct (str_truthy rid) eqn:Etr; cycle 1.
  { split; [done|]. split; [|done]. intros ? [= <-] Hne.
    by rewrite str_truthy_ne in Etr. }
  destruct (rooms w !! rid) as [room|] eqn:Hroom; cycle 1.
  { split; [done|]. split; [|done]. by intros ? [= <-]. }
  destruct (close_loop ws (sockets room) w) as (_ & _ & Kr & _ & _ & Ks & _).
  simpl. rewrite Kr. split; [apply delete_subseteq|]. split.
  - intros ? [= <-] _. apply lookup_delete_eq.
  - intros s. unfold known. simpl. rewrite Ks. destruct (decide _) as [[_ Ho]|_]; [|done].
    split; [|by eauto]. intros _. unfold is_open in Ho.
    destruct (socks w !! s); [eauto|done].
Qed.

Lemma cleanup_effect ws c w :
  clients w !! ws = Some c →
  clients (cleanup ws w) = delete ws (clients w) ∧
  (∀ k q', queue_at (cleanup ws w) k = Some q' →
     ∃ q, queue_at w k = Some q ∧ (q' = q ∨ q' = filter (λ x, x ≠ ws) q)) ∧
  rooms (cleanup ws w) ⊆ rooms w ∧
  (∀ rid, c_roomId c = Some rid → rid ≠ "" → rooms (cleanup ws w) !! rid = None) ∧
  (∀ s, known (cleanup ws w) s ↔ known w s).
Proof.
  intros Hc. unfold cleanup. rewrite Hc. cbn zeta.
  destruct (leave_queue_frame ws c w) as (Lc & Lr & Ls & _ & _).
  destruct (close_room_frame ws c (leave_queue ws c w)) as (Cc & Cw & _ & _).
  destruct (close_room_effect ws c (leave_queue ws c w)) as (Er & Eid & Ek).
  split; [simpl; by rewrite Cc, Lc|]. split; [|split; [|split]].
  - intros k q'. unfold queue_at. simpl. rewrite Cw. apply leave_queue_queues.
  - simpl. by rewrite <- Lr.
  - exact Eid.
  - intros s. unfold known in *. simpl. rewrite Ek. by rewrite Ls.
Qed.

Lemma filter_or_same_sub (ws : conn) (q q' : list conn) :
  q' = q ∨ q' = filter (λ x, x ≠ ws) q → (∀ s, s ∈ q' → s ∈ q) ∧ (NoDup q → NoDup q').
Proof.
  intros [-> | ->]; [done|]. split.
  - intros s. rewrite list_elem_of_filter. tauto.
  - apply NoDup_filter.
Qed.

Lemma wf_general_cleanup ws w : wf_general w → wf_general (cleanup ws w).
Proof.
  intros G. destruct (clients w !! ws) as [c|] eqn:Hc; cycle 1.
  { unfold cleanup. by rewrite Hc. }
  destruct (cleanup_effect ws c w Hc) as (Ec & Eq & Er & _ & Ek).
  destruct G as [G1 G2 G3 G4].
  assert (Hqd : ∀ s, queued (cleanup ws w) s → queued w s).
  { intros s (k & q' & Hk & Hin). destruct (Eq k q' Hk) as (q & Hq & Hsub).
    exists k, q. split; [done|]. by apply (filter_or_same_sub ws q q'). }
  assert (Hin : ∀ s, in_room (cleanup ws w) s → in_room w s).
  { intros s (rid & room & Hk & Hin). exists rid, room. split; [|done].
    by eapply lookup_weaken. }
  split.
  - intros s. rewrite Ec, Ek. intros [x [_ Hx]%lookup_delete_Some]. eauto.
  - intros s Hs. apply Ek. eauto.
  - intros s Hs. apply Ek. eauto.
  - intros s c0 Hs. rewrite Ec. intros [_ Hx]%lookup_delete_Some. eauto.
Qed.

Lemma queue_at_insert w w' k b :
  waiting w' = <[k := b]> (waiting w) →
  ∀ k', queue_at w' k' = if decide (k = k') then Some (queue b) else queue_at w k'.
Proof.
  intros Hw k'. unfold queue_at. rewrite Hw. case_decide as E.
  - subst k'. by rewrite lookup_insert_eq.
  - by rewrite lookup_insert_ne.
Qed.

(** Writing a bucket back with its queue unchanged leaves the queues alone. *)
Lemma queue_at_retimed w w' k b b' :
  waiting w !! k = Some b → queue b' = queue b →
  waiting w' = <[k := b']> (waiting w) →
  ∀ k', queue_at w' k' = queue_at w k'.
Proof.
  intros Hb Hq Hw k'. rewrite (queue_at_insert w w' k b' Hw). case_decide as E; [|done].
  subst k'. unfold queue_at. by rewrite Hb, Hq.
Qed.

Lemma after_enqueue_effect ws c f w :
  let k := keyOf (join_mode f) (join_tier f) in
  clients (after_enqueue ws c f w) = <[ws := joined f c]> (clients w) ∧
  rooms (after_enqueue ws c f w) = rooms w ∧
  socks (after_enqueue ws c f w) = socks w ∧
  ∀ k', queue_at (after_enqueue ws c f w) k' =
    if decide (k = k') then Some (enqueue ws (default [] (queue_at w k)))
    else queue_at w k'.
Proof.
  intros k. do 3 (split; [done|]). intros k'.
  rewrite (queue_at_insert w (after_enqueue ws c f w) k
             (with_queue (enqueue ws (queue (default empty_bucket (waiting w !! k))))
                (default empty_bucket (waiting w !! k)))) by done.
  case_decide; [|done].
  cbn [queue with_queue]. unfold queue_at. by destruct (waiting w !! k).
Qed.

Lemma materialized_queues mode tier n rid b ps w w' :
  materialized mode tier n rid b ps w w' →
  ∀ k', queue_at w' k' =
    if decide (keyOf mode tier = k')
    then match drop n (queue b) with [] => None | rest => Some rest end
    else queue_at w k'.
Proof.
  intros [_ _ Mw _ _ _ _ _] k'. destruct (drop n (queue b)) as [|x rest].
  - unfold queue_at. rewrite Mw. case_decide as E.
    + subst k'. by rewrite lookup_delete_eq.
    + by rewrite lookup_delete_ne.
  - by rewrite (queue_at_insert w w' _ _ Mw).
Qed.

Lemma materialized_registered mode tier n rid b ps w w' :
  materialized mode tier n rid b ps w w' →
  Forall (registered (clients w)) (take n (queue b)).
Proof. intros [Mp _ _ _ _ _ _ _]. apply players_of_registered. eauto. Qed.

Lemma wf_general_enqueue ws c f w :
  wf_general w → clients w !! ws = Some c → wf_general (after_enqueue ws c f w).
Proof.
  intros [G1 G2 G3 G4] Hc.
  destruct (after_enqueue_effect ws c f w) as (Ec & Er & Es & Eq).
  set (w' := after_enqueue ws c f w) in *.
  assert (Hk : ∀ s, known w' s ↔ known w s) by (intros s; unfold known; by rewrite Es).
  assert (Hin : ∀ s, in_room w' s ↔ in_room w s) by (intros s; unfold in_room; by rewrite Er).
  assert (Hqd : ∀ s, queued w' s → queued w s ∨ s = ws).
  { intros s (k & q & Hq & Hs). rewrite Eq in Hq. case_decide as E.
    - injection Hq as <-. unfold enqueue in Hs.
      destruct (queue_at w _) as [q0|] eqn:E0; simpl in Hs.
      + case_bool_decide; [left; by exists k, q0; subst|].
        apply elem_of_app in Hs as [?|?%list_elem_of_singleton]; [left|by right].
        exists k, q0. by subst.
      + apply list_elem_of_singleton in Hs. by right.
    - left. by exists k, q. }
  split.
  - intros s. rewrite Ec, Hk. rewrite lookup_insert_is_Some.
    intros [<-|[_ ?]]; eauto.
  - intros s [?| ->]%Hqd; apply Hk; eauto.
  - intros s ?%Hin. apply Hk. eauto.
  - intros s c' Hs%Hin. rewrite Ec. destruct (decide (ws = s)) as [<-|Hne].
    + rewrite lookup_insert_eq. intros [= <-]. simpl. by apply (G4 ws c).
    + rewrite lookup_insert_ne by done. by apply G4.
Qed.

Lemma wf_general_materialized mode tier n rid b ps w w' :
  wf_general w → waiting w !! keyOf mode tier = Some b →
  materialized mode tier n rid b ps w w' → wf_general w'.
Proof.
  intros [G1 G2 G3 G4] Hb M.
  pose proof (materialized_queues _ _ _ _ _ _ _ _ M) as Eq.
  destruct M as [_ Mc _ Mr Ms _ _ _].
  assert (Hk : ∀ s, known w' s ↔ known w s) by (intros s; unfold known; by rewrite Ms).
  assert (Htake : ∀ s, s ∈ take n (queue b) → queued w s).
  { intros s Hs. exists (keyOf mode tier), (queue b). unfold queue_at. rewrite Hb.
    split; [done|]. by apply (subseteq_take n). }
  assert (Hqd : ∀ s, queued w' s → queued w s).
  { intros s (k & q & Hq & Hs). rewrite Eq in Hq. case_decide as E; [|by exists k, q].
    exists k, (queue b). unfold queue_at. rewrite <- E, Hb. split; [done|].
    destruct (drop n (queue b)) eqn:Ed; [done|]. injection Hq as <-.
    rewrite <- Ed in Hs. by apply (subseteq_drop n). }
  assert (Hin : ∀ s, in_room w' s →
            (s ∈ take n (queue b)) ∨ ((s ∉ take n (queue b)) ∧ in_room w s)).
  { intros s (rid' & room & Hr & Hs). rewrite Mr in Hr.
    destruct (decide (s ∈ take n (queue b))); [by left|right]. split; [done|].
    destruct (decide (rid = rid')) as [<-|Hne].
    - rewrite lookup_insert_eq in Hr. injection Hr as <-. done.
    - rewrite lookup_insert_ne in Hr by done. by exists rid', room. }
  split.
  - intros s. rewrite Mc, Hk. intros H. apply G1. case_bool_decide; [|done].
    by apply fmap_is_Some in H.
  - intros s ?%Hqd. apply Hk. eauto.
  - intros s [?|[_ ?]]%Hin; apply Hk; eauto.
  - intros s c Hs. rewrite Mc. destruct (Hin s Hs) as [?|[? ?]].
    + rewrite bool_decide_eq_true_2 by done. intros (c0 & _ & ->)%fmap_Some. simpl. eauto.
    + rewrite bool_decide_eq_false_2 by done. by apply G4.
Qed.

Lemma createRoom_wf_general mode tier n rid w w' :
  wf_general w → createRoomFromQueue mode tier n rid w = (Done, w') → wf_general w'.
Proof.
  intros G Hrun. destruct (waiting w !! keyOf mode tier) as [b|] eqn:Hb; cycle 1.
  { rewrite createRoom_absent in Hrun by (by left). by injection Hrun as <-. }
  destruct (decide (n = 0)) as [->|Hn].
  { rewrite createRoom_absent in Hrun by (by right). by injection Hrun as <-. }
  destruct (createRoom_done _ _ _ _ _ _ _ Hb Hn Hrun) as [ps M].
  by eapply wf_general_materialized.
Qed.

Lemma armed_queues mode tier now b w :
  waiting w !! keyOf mode tier = Some b →
  ∀ k, queue_at (armed mode tier now b w) k = queue_at w k.
Proof.
  intros Hb.
  by apply (queue_at_retimed w _ (keyOf mode tier) b
              (with_timer (Some (next_timer w)) now b) Hb).
Qed.

Lemma maybeStart_wf_general mode tier rid now w w' :
  wf_general w → maybeStart mode tier rid now w = (Done, w') → wf_general w'.
Proof.
  intros G Hrun.
  destruct (maybeStart_cases _ _ _ _ _ _ Hrun) as [->|[[n Hn]|(b & Hb & Ht & ->)]].
  - done.
  - by eapply createRoom_wf_general.
  - apply (wf_general_same w); try done. by apply armed_queues.
Qed.

Lemma known_insert (ws : conn) st w s :
  known w s → known (set_socks (<[ws := st]>) w) s.
Proof.
  unfold known. simpl. rewrite lookup_insert_is_Some.
  destruct (decide (ws = s)); eauto.
Qed.

Lemma exec_wf_general e w w' : wf_general w → exec e w = Some w' → wf_general w'.
Proof.
  intros G [Hen Hrun]%exec_inv.
  destruct e as [ws id|ws body rid now|ws|ws|h rid]; simpl in Hrun, Hen.
  - injection Hrun as <-. apply wf_general_connect; [done|].
    by apply bool_decide_eq_true in Hen.
  - destruct (on_message_cases _ _ _ _ _ _ Hrun) as [[out ->]|(c & msg & f & _ & Hc & _ & _ & H)].
    + by apply (wf_general_same w).
    + eapply maybeStart_wf_general; [|exact H]. by apply wf_general_enqueue.
  - injection Hrun as <-. apply wf_general_cleanup.
    apply (wf_general_same w); try done. intros s. apply known_insert.
  - injection Hrun as <-. apply wf_general_cleanup.
    apply (wf_general_same w); try done. intros s. apply known_insert.
  - destruct (timers w !! h) as [t|] eqn:Hh; [|by injection Hrun as <-].
    destruct (waiting w !! keyOf (t_mode t) (t_tier t)) as [b|] eqn:Hb; cycle 1.
    { unfold on_timer in Hrun. simpl in Hrun. rewrite Hb in Hrun. injection Hrun as <-.
      by apply (wf_general_same w). }
    rewrite (on_timer_unfold _ _ _ _ b) in Hrun by exact Hb. cbn zeta in Hrun.
    assert (G1 : wf_general (set_waiting
        (<[keyOf (t_mode t) (t_tier t) := with_timer None (startedAt b) b]>)
        (set_timers (delete h) w))).
    { apply (wf_general_same w); try done.
      by apply (queue_at_retimed w _ (keyOf (t_mode t) (t_tier t)) b
                  (with_timer None (startedAt b) b) Hb). }
    destruct (decide _); [by eapply createRoom_wf_general|]. by injection Hrun as <-.
Qed.

Lemma wf_general_init : wf_general (world0 (num := num)).
Proof.
  split; unfold queued, in_room, queue_at; cbn [clients waiting rooms world0].
  - intros s [c H]. by rewrite lookup_empty in H.
  - intros s (k & q & H & _). by rewrite lookup_empty in H.
  - intros s (k & q & H & _). by rewrite lookup_empty in H.
  - intros s c (k & q & H & _). by rewrite lookup_empty in H.
Qed.

Lemma reachable_wf_general w : reachable w → wf_general w.
Proof.
  induction 1 as [|w e w' _ IH Hstep]; [apply wf_general_init|].
  by eapply exec_wf_general.
Qed.

(** ** Runs without joins while matched or queued elsewhere *)

Lemma wf_disciplined_same w w' :
  clients w' = clients w → (∀ k, queue_at w' k = queue_at w k) → rooms w' = rooms w →
  wf_disciplined w → wf_disciplined w'.
Proof.
  intros Hc Hq Hr [D1 D2 D3 D4 D5].
  assert (Hqd : ∀ s, queued w' s → queued w s).
  { intros s (k & q & Hk & Hin). exists k, q. by rewrite <- Hq. }
  split.
  - intros s c ?%Hqd. rewrite Hc. eauto.
  - intros rid room s. rewrite Hr, Hc. apply D2.
  - intros k q. rewrite Hq. apply D3.
  - intros k1 k2 q1 q2 s. rewrite !Hq. apply D4.
  - intros rid. rewrite Hr. apply D5.
Qed.

Lemma wf_disciplined_connect ws id w :
  wf_general w → wf_disciplined w → socks w !! ws = None →
  wf_disciplined (on_connection ws id (set_socks (<[ws := Open]>) w)).
Proof.
  intros [G1 G2 G3 G4] [D1 D2 D3 D4 D5] Hfresh. unfold on_connection. rewrite send_emit.
  split; simpl; try done.
  - intros s c Hs. destruct (decide (ws = s)) as [<-|Hne].
    + rewrite lookup_insert_eq. by intros [= <-].
    + rewrite lookup_insert_ne by done. by apply D1.
  - intros rid room s Hr Hs. destruct (D2 rid room s Hr Hs) as (c & Hc & Hrid).
    exists c. split; [|done]. rewrite lookup_insert_ne; [done|]. intros <-.
    destruct (G1 ws) as [x Hx]; [eauto|congruence].
Qed.

Lemma wf_disciplined_cleanup ws w : wf_disciplined w → wf_disciplined (cleanup ws w).
Proof.
  intros D. destruct (clients w !! ws) as [c|] eqn:Hc; cycle 1.
  { unfold cleanup. by rewrite Hc. }
  destruct (cleanup_effect ws c w Hc) as (Ec & Eq & Er & Eid & _).
  destruct D as [D1 D2 D3 D4 D5].
  assert (Hqd : ∀ s, queued (cleanup ws w) s → queued w s).
  { intros s (k & q' & Hk & Hin). destruct (Eq k q' Hk) as (q & Hq & Hsub).
    exists k, q. split; [done|]. by apply (filter_or_same_sub ws q q'). }
  split.
  - intros s c0 ?%Hqd. rewrite Ec. intros [_ ?]%lookup_delete_Some. eauto.
  - intros rid room s Hr Hs. pose proof (lookup_weaken _ _ _ _ Hr Er) as Hr0.
    destruct (D2 rid room s Hr0 Hs) as (c0 & Hc0 & Hrid). exists c0. split; [|done].
    rewrite Ec. apply lookup_delete_Some. split; [|done]. intros <-.
    assert (c0 = c) as -> by congruence.
    rewrite (Eid rid) in Hr; [done|done|]. apply D5. eauto.
  - intros k q' Hk. destruct (Eq k q' Hk) as (q & Hq & Hsub).
    apply (filter_or_same_sub ws q q' Hsub). eauto.
  - intros k1 k2 q1 q2 s Hk1 Hk2 Hs1 Hs2.
    destruct (Eq k1 q1 Hk1) as (q1' & Hq1 & Hsub1). destruct (Eq k2 q2 Hk2) as (q2' & Hq2 & Hsub2).
    apply (D4 k1 k2 q1' q2' s); try done.
    + by apply (filter_or_same_sub ws q1' q1).
    + by apply (filter_or_same_sub ws q2' q2).
  - intros rid [room Hr]. apply D5. exists room. by eapply lookup_weaken.
Qed.

Lemma NoDup_enqueue (ws : conn) (q : list conn) : NoDup q → NoDup (enqueue ws q).
Proof.
  intros H. unfold enqueue. case_bool_decide; [done|]. apply NoDup_app.
  split; [done|]. split; [|apply NoDup_singleton].
  intros x Hx ->%list_elem_of_singleton. done.
Qed.

Lemma elem_of_enqueue (ws s : conn) (q : list conn) : s ∈ enqueue ws q ↔ s ∈ q ∨ s = ws.
Proof.
  unfold enqueue. case_bool_decide.
  - split; [by left|]. by intros [?| ->].
  - rewrite elem_of_app, list_elem_of_singleton. done.
Qed.

Lemma wf_disciplined_enqueue ws c f w :
  wf_disciplined w → clients w !! ws = Some c → c_roomId c = None →
  (∀ k q, queue_at w k = Some q → ws ∈ q → k = keyOf (join_mode f) (join_tier f)) →
  wf_disciplined (after_enqueue ws c f w).
Proof.
  intros [D1 D2 D3 D4 D5] Hc Hrid Honly.
  destruct (after_enqueue_effect ws c f w) as (Ec & Er & _ & Eq).
  set (w' := after_enqueue ws c f w) in *.
  set (k := keyOf (join_mode f) (join_tier f)) in *.
  assert (Hq0 : ∀ s, s ∈ default [] (queue_at w k) → queued w s).
  { intros s Hs. destruct (queue_at w k) as [q0|] eqn:E; simpl in Hs.
    - by exists k, q0.
    - by apply not_elem_of_nil in Hs. }
  assert (Hqd : ∀ s, queued w' s → queued w s ∨ s = ws).
  { intros s (k' & q & Hq & Hs). rewrite Eq in Hq. case_decide as E.
    - injection Hq as <-. apply elem_of_enqueue in Hs as [?|?]; eauto.
    - left. by exists k', q. }
  split.
  - intros s c' Hs. rewrite Ec. destruct (decide (ws = s)) as [<-|Hne].
    + rewrite lookup_insert_eq. by intros [= <-].
    + rewrite lookup_insert_ne by done. destruct (Hqd s Hs) as [?| ->]; [|done]. eauto.
  - intros rid room s. rewrite Er, Ec. intros Hr Hs.
    destruct (D2 rid room s Hr Hs) as (c0 & Hc0 & Hrid0). exists c0. split; [|done].
    rewrite lookup_insert_ne; [done|]. intros <-. congruence.
  - intros k' q. rewrite Eq. case_decide; [|apply D3]. intros [= <-].
    apply NoDup_enqueue. destruct (queue_at w k) eqn:E; simpl; [eauto|constructor].
  - intros k1 k2 q1 q2 s. rewrite !Eq.
    destruct (decide (k = k1)) as [<-|N1], (decide (k = k2)) as [<-|N2]; [done| | |by apply D4].
    + intros [= <-] H2 [Hin| ->]%elem_of_enqueue Hs2.
      * destruct (queue_at w k) as [q0|] eqn:E; simpl in Hin;
          [|by apply not_elem_of_nil in Hin].
        by apply (D4 k k2 q0 q2 s).
      * symmetry. eauto.
    + intros H1 [= <-] Hs1 [Hin| ->]%elem_of_enqueue.
      * destruct (queue_at w k) as [q0|] eqn:E; simpl in Hin;
          [|by apply not_elem_of_nil in Hin].
        by apply (D4 k1 k q1 q0 s).
      * eauto.
  - intros rid. rewrite Er. apply D5.
Qed.

Lemma NoDup_take_drop (n : nat) (q : list conn) (s : conn) :
  NoDup q → s ∈ take n q → s ∈ drop n q → False.
Proof.
  intros H. rewrite <- (take_drop n q) in H. apply NoDup_app in H as (_ & H & _).
  intros H1 H2. by apply (H s).
Qed.

Lemma wf_disciplined_materialized mode tier n rid b ps w w' :
  wf_disciplined w → waiting w !! keyOf mode tier = Some b → rid ≠ "" →
  materialized mode tier n rid b ps w w' → wf_disciplined w'.
Proof.
  intros [D1 D2 D3 D4 D5] Hb Hrid M.
  pose proof (materialized_queues _ _ _ _ _ _ _ _ M) as Eq.
  pose proof (materialized_registered _ _ _ _ _ _ _ _ M) as Hreg.
  destruct M as [_ Mc _ Mr _ _ _ _].
  set (k := keyOf mode tier) in *.
  assert (Hk : queue_at w k = Some (queue b)) by (unfold queue_at; by rewrite Hb).
  assert (Htake : ∀ s, s ∈ take n (queue b) → queued w s).
  { intros s Hs. exists k, (queue b). split; [done|]. by apply (subseteq_take n). }
  (* what is queued afterwards was queued, and was not taken *)
  assert (Hqd : ∀ k' q s, queue_at w' k' = Some q → s ∈ q →
            (s ∉ take n (queue b)) ∧ ∃ q0, queue_at w k' = Some q0 ∧ s ∈ q0 ∧ (NoDup q0 → NoDup q)).
  { intros k' q s Hq Hs. rewrite Eq in Hq. case_decide as E.
    - subst k'. destruct (drop n (queue b)) as [|x rest] eqn:Ed; [done|].
      injection Hq as <-. rewrite <- Ed in *. split.
      + intros Ht. by apply (NoDup_take_drop n (queue b) s); eauto.
      + exists (queue b). split; [done|]. split; [by apply (subseteq_drop n)|].
        intros Hnd. rewrite <- (take_drop n (queue b)) in Hnd.
        by apply NoDup_app in Hnd as (_ & _ & ?).
    - split; [|by eauto]. intros Ht.
      apply E. by apply (D4 k k' (queue b) q s); [| |apply (subseteq_take n)|]. }
  split.
  - intros s c (k' & q & Hq & Hs). destruct (Hqd k' q s Hq Hs) as (Hnt & q0 & Hq0 & Hs0 & _).
    rewrite Mc, bool_decide_eq_false_2 by done. apply D1. by exists k', q0.
  - intros rid' room s. rewrite Mr, Mc. destruct (decide (rid = rid')) as [<-|Hne].
    + rewrite lookup_insert_eq. intros [= <-]. simpl. intros Hs.
      rewrite bool_decide_eq_true_2 by done.
      destruct (proj1 (Forall_forall _ _) Hreg s Hs) as [c Hc]. rewrite Hc.
      exists (with_room rid c). done.
    + rewrite lookup_insert_ne by done. intros Hr Hs.
      destruct (D2 rid' room s Hr Hs) as (c & Hc & Hrid').
      rewrite bool_decide_eq_false_2; [eauto|]. intros Ht.
      pose proof (D1 s c (Htake s Ht) Hc). congruence.
  - intros k' q Hq. destruct q as [|s q]; [constructor|].
    destruct (Hqd k' (s :: q) s Hq) as (_ & q0 & Hq0 & _ & Hnd); [apply elem_of_cons; auto|].
    apply Hnd. eauto.
  - intros k1 k2 q1 q2 s H1 H2 Hs1 Hs2.
    destruct (Hqd k1 q1 s H1 Hs1) as (_ & q1' & Hq1 & Hs1' & _).
    destruct (Hqd k2 q2 s H2 Hs2) as (_ & q2' & Hq2 & Hs2' & _).
    by apply (D4 k1 k2 q1' q2' s).
  - intros rid'. rewrite Mr. destruct (decide (rid = rid')) as [<-|Hne]; [done|].
    rewrite lookup_insert_ne by done. apply D5.
Qed.

Lemma createRoom_wf_disciplined mode tier n rid w w' :
  wf_disciplined w → rid ≠ "" →
  createRoomFromQueue mode tier n rid w = (Done, w') → wf_disciplined w'.
Proof.
  intros D Hrid Hrun. destruct (waiting w !! keyOf mode tier) as [b|] eqn:Hb; cycle 1.
  { rewrite createRoom_absent in Hrun by (by left). by injection Hrun as <-. }
  destruct (decide (n = 0)) as [->|Hn].
  { rewrite createRoom_absent in Hrun by (by right). by injection Hrun as <-. }
  destruct (createRoom_done _ _ _ _ _ _ _ Hb Hn Hrun) as [ps M].
  by eapply wf_disciplined_materialized.
Qed.

Lemma maybeStart_wf_disciplined mode tier rid now w w' :
  wf_disciplined w → rid ≠ "" →
  maybeStart mode tier rid now w = (Done, w') → wf_disciplined w'.
Proof.
  intros D Hrid Hrun.
  destruct (maybeStart_cases _ _ _ _ _ _ Hrun) as [->|[[n Hn]|(b & Hb & Ht & ->)]].
  - done.
  - by eapply createRoom_wf_disciplined.
  - apply (wf_disciplined_same w); try done. by apply armed_queues.
Qed.

Lemma exec_wf_disciplined e w w' :
  wf_general w → wf_disciplined w → disciplined e w → exec e w = Some w' →
  wf_disciplined w'.
Proof.
  intros G D Hd [Hen Hrun]%exec_inv.
  destruct e as [ws id|ws body rid now|ws|ws|h rid]; simpl in Hrun, Hen, Hd.
  - injection Hrun as <-. apply wf_disciplined_connect; [done..|].
    by apply bool_decide_eq_true in Hen.
  - destruct (on_message_cases _ _ _ _ _ _ Hrun)
      as [[out ->]|(c & msg & f & -> & Hc & Hj & Hf & H)].
    + by apply (wf_disciplined_same w).
    + destruct Hd as [Hrid Hd]. destruct (Hd Hj c Hc) as [Hnone Honly].
      eapply maybeStart_wf_disciplined; [|exact Hrid|exact H].
      apply wf_disciplined_enqueue; eauto.
  - injection Hrun as <-. apply wf_disciplined_cleanup.
    by apply (wf_disciplined_same w).
  - injection Hrun as <-. apply wf_disciplined_cleanup.
    by apply (wf_disciplined_same w).
  - destruct (timers w !! h) as [t|] eqn:Hh; [|by injection Hrun as <-].
    destruct (waiting w !! keyOf (t_mode t) (t_tier t)) as [b|] eqn:Hb; cycle 1.
    { unfold on_timer in Hrun. simpl in Hrun. rewrite Hb in Hrun. injection Hrun as <-.
      by apply (wf_disciplined_same w). }
    rewrite (on_timer_unfold _ _ _ _ b) in Hrun by exact Hb. cbn zeta in Hrun.
    assert (D1 : wf_disciplined (set_waiting
        (<[keyOf (t_mode t) (t_tier t) := with_timer None (startedAt b) b]>)
        (set_timers (delete h) w))).
    { apply (wf_disciplined_same w); try done.
      by apply (queue_at_retimed w _ (keyOf (t_mode t) (t_tier t)) b
                  (with_timer None (startedAt b) b) Hb). }
    destruct (decide _); [by eapply createRoom_wf_disciplined|]. by injection Hrun as <-.
Qed.

Lemma wf_disciplined_init : wf_disciplined (world0 (num := num)).
Proof.
  split; unfold queued, in_room, queue_at; cbn [clients waiting rooms world0].
  - intros s c (k & q & H & _). by rewrite lookup_empty in H.
  - intros rid room s H. by rewrite lookup_empty in H.
  - intros k q H. by rewrite lookup_empty in H.
  - intros k1 k2 q1 q2 s H. by rewrite lookup_empty in H.
  - intros rid [room H]. by rewrite lookup_empty in H.
Qed.

Lemma well_behaved_reachable w : well_behaved w → reachable w.
Proof. induction 1; [constructor|by eapply reach_step]. Qed.

Lemma well_behaved_wf w : well_behaved w → wf_disciplined w.
Proof.
  induction 1 as [|w e w' Hw IH Hd Hstep]; [apply wf_disciplined_init|].
  eapply exec_wf_disciplined; eauto.
  by apply reachable_wf_general, well_behaved_reachable.
Qed.

(** C5, as the code has it. In every reachable state a registered socket
    that is a member of a current room has a room reference. In the states
    of runs in which sockets join only while they have no room reference and
    are queued in no other bucket (and [uid()] returns non-empty ids), every
    member of a current room is registered with that room as its reference,
    and no socket is at once in a waiting queue and in a current room. *)
Theorem sessions_and_rooms :
  (∀ w, reachable w →
     ∀ s c, in_room w s → clients w !! s = Some c → is_Some (c_roomId c)) ∧
  (∀ w, well_behaved w →
     (∀ rid room s, rooms w !! rid = Some room → s ∈ sockets room →
        ∃ c, clients w !! s = Some c ∧ c_roomId c = Some rid) ∧
     (∀ s, ¬ (queued w s ∧ in_room w s))).
Proof.
  split.
  - intros w Hw. apply reachable_wf_general in Hw. apply Hw.
  - intros w Hw. apply well_behaved_wf in Hw as [D1 D2 _ _ _]. split; [exact D2|].
    intros s [Hq (rid & room & Hr & Hs)].
    destruct (D2 rid room s Hr Hs) as (c & Hc & Hrid).
    pose proof (D1 s c Hq Hc). congruence.
Qed.

(** ** Runs without disconnects *)

Lemma all_registered_same w w' :
  (∀ s, registered (clients w) s → registered (clients w') s) →
  (∀ k, queue_at w' k = queue_at w k) →
  all_registered w → all_registered w'.
Proof.
  intros Hc Hq H s (k & q & Hk & Hs). apply Hc, H. exists k, q. by rewrite <- Hq.
Qed.

Lemma createRoom_all_registered mode tier n rid w w' :
  all_registered w → createRoomFromQueue mode tier n rid w = (Done, w') →
  all_registered w'.
Proof.
  intros H Hrun. destruct (waiting w !! keyOf mode tier) as [b|] eqn:Hb; cycle 1.
  { rewrite createRoom_absent in Hrun by (by left). by injection Hrun as <-. }
  destruct (decide (n = 0)) as [->|Hn].
  { rewrite createRoom_absent in Hrun by (by right). by injection Hrun as <-. }
  destruct (createRoom_done _ _ _ _ _ _ _ Hb Hn Hrun) as [ps M].
  pose proof (materialized_queues _ _ _ _ _ _ _ _ M) as Eq.
  destruct M as [_ Mc _ _ _ _ _ _].
  intros s (k & q & Hq & Hs). unfold registered. rewrite Mc.
  assert (Hreg : registered (clients w) s).
  { apply H. rewrite Eq in Hq. case_decide as E; [|by exists k, q].
    exists k, (queue b). unfold queue_at. rewrite <- E, Hb. split; [done|].
    destruct (drop n (queue b)) eqn:Ed; [done|]. injection Hq as <-.
    rewrite <- Ed in Hs. by apply (subseteq_drop n). }
  case_bool_decide; [|done]. by apply fmap_is_Some.
Qed.

Lemma exec_all_registered e w w' :
  all_registered w → no_disconnect e → exec e w = Some w' → all_registered w'.
Proof.
  intros H Hno [_ Hrun]%exec_inv.
  destruct e as [ws id|ws body rid now|ws|ws|h rid]; simpl in Hrun, Hno; try done.
  - injection Hrun as <-. unfold on_connection. rewrite send_emit.
    apply (all_registered_same w); [|done|done]. intros s. apply registered_insert.
  - destruct (on_message_cases _ _ _ _ _ _ Hrun)
      as [[out ->]|(c & msg & f & _ & Hc & _ & _ & Hstart)].
    { by apply (all_registered_same w). }
    assert (H3 : all_registered (after_enqueue ws c f w)).
    { destruct (after_enqueue_effect ws c f w) as (Ec & _ & _ & Eq).
      intros s (k & q & Hq & Hs). unfold registered. rewrite Ec.
      rewrite Eq in Hq. case_decide as E.
      - injection Hq as <-. apply elem_of_enqueue in Hs as [Hs| ->];
          [|by rewrite lookup_insert_eq].
        apply registered_insert, H.
        destruct (queue_at w _) as [q0|] eqn:E0; simpl in Hs;
          [by eexists _, q0|by apply not_elem_of_nil in Hs].
      - apply registered_insert, H. by exists k, q. }
    destruct (maybeStart_cases _ _ _ _ _ _ Hstart) as [->|[[n Hn]|(b & Hb & Ht & ->)]].
    + done.
    + by eapply createRoom_all_registered.
    + apply (all_registered_same (after_enqueue ws c f w)); [done| |done].
      by apply armed_queues.
  - destruct (timers w !! h) as [t|] eqn:Hh; [|by injection Hrun as <-].
    destruct (waiting w !! keyOf (t_mode t) (t_tier t)) as [b|] eqn:Hb; cycle 1.
    { unfold on_timer in Hrun. simpl in Hrun. rewrite Hb in Hrun. injection Hrun as <-.
      by apply (all_registered_same w). }
    rewrite (on_timer_unfold _ _ _ _ b) in Hrun by exact Hb. cbn zeta in Hrun.
    assert (H1 : all_registered (set_waiting
        (<[keyOf (t_mode t) (t_tier t) := with_timer None (startedAt b) b]>)
        (set_timers (delete h) w))).
    { apply (all_registered_same w); [done| |done].
      by apply (queue_at_retimed w _ (keyOf (t_mode t) (t_tier t)) b
                  (with_timer None (startedAt b) b) Hb). }
    destruct (decide _); [by eapply createRoom_all_registered|]. by injection Hrun as <-.
Qed.

Lemma run_connected es w w' :
  connected_run w → Forall no_disconnect es → run es w = Some w' → connected_run w'.
Proof.
  revert w. induction es as [|e es IH]; intros w Hw Hes; simpl.
  - by intros [= <-].
  - inversion Hes; subst. destruct (exec e w) as [w1|] eqn:E; [|done].
    apply IH; [|done]. by eapply cr_step.
Qed.

(** Without disconnects every queued socket has its session. *)
Lemma connected_run_registered w : connected_run w → all_registered w.
Proof.
  induction 1 as [|w e w' _ IH Hno Hstep].
  - intros s (k & q & Hq & _). unfold queue_at in Hq. cbn [waiting world0] in Hq.
    by rewrite lookup_empty in Hq.
  - by eapply exec_all_registered.
Qed.

(** X26. A join into an exact-size bucket (ONLINE1V1: 2, ONLINE2V2: 4), with
    fields [f] (the conversions of lines 193-196 return), in a state reached
    without disconnects or, more generally, in any state in which the
    sockets to be taken have their session: when the queue, after the sender
    is enqueued, holds at least N sockets, the handler creates a room of the
    first N sockets of the queue, in queue order, hosted by the head of the
    queue, the sessions of these sockets refer to the room, and the rest of
    the queue stays in the bucket (the bucket goes when nothing is left);
    below N no room is created and the queue stays as it is. *)
Theorem exact_mode_fifo_match ws c msg f rid now w :
  let mode := join_mode f in
  let tier := join_tier f in
  let N := needExact mode in
  let q := enqueue ws (queue (default empty_bucket (waiting w !! keyOf mode tier))) in
  clients w !! ws = Some c →
  get_prop "type" msg = Some (JStr "join") →
  join_fields msg = Some f →
  mode = "ONLINE1V1" ∨ mode = "ONLINE2V2" →
  connected_run w ∨ (N ≤ length q → Forall (registered (clients w)) (take N q)) →
  (mode = "ONLINE1V1" → N = 2) ∧ (mode = "ONLINE2V2" → N = 4) ∧
  ∃ w', on_message ws (Some msg) rid now w = (Done, w') ∧
    if decide (N ≤ length q) then
      (∃ ps, rooms w' =
         <[rid := {| hostWs := head q; sockets := take N q; players := ps;
                     r_mode := mode; r_tier := tier |}]> (rooms w)) ∧
      (∀ s, s ∈ take N q → c_roomId <$> clients w' !! s = Some (Some rid)) ∧
      queue <$> waiting w' !! keyOf mode tier =
        match drop N q with [] => None | rest => Some rest end
    else
      rooms w' = rooms w ∧ queue <$> waiting w' !! keyOf mode tier = Some q.
Proof.
  intros mode tier N q Hc Ht Hf Hmode Hrun.
  assert (Hreg : N ≤ length q → Forall (registered (clients w)) (take N q)).
  { destruct Hrun as [Hrun|Hreg]; [|done]. intros _.
    apply connected_run_registered in Hrun. apply Forall_forall. intros s Hs.
    apply (subseteq_take N) in Hs. apply elem_of_enqueue in Hs as [Hs| ->]; [|by eexists].
    apply Hrun. unfold queued, queue_at.
    destruct (waiting w !! keyOf mode tier) as [b0|] eqn:Eb; simpl in Hs.
    - exists (keyOf mode tier), (queue b0). by rewrite Eb.
    - by apply not_elem_of_nil in Hs. }
  assert (HN : N ≠ 0 ∧ (mode = "ONLINE1V1" → N = 2) ∧ (mode = "ONLINE2V2" → N = 4)).
  { subst N. destruct Hmode as [-> | ->]; by vm_compute. }
  destruct HN as (HN & H2 & H4). split; [done|]. split; [done|].
  rewrite (on_message_join ws c) by done. rewrite (on_join_unfold _ _ _ f) by done.
  pose proof (after_enqueue_bucket ws c f w) as Hb. fold mode tier q in Hb.
  rewrite (maybeStart_exact _ _ _ _ _ _ Hb HN). fold N. cbn [queue with_queue].
  destruct (decide (N ≤ length q)) as [Hle|Hlt].
  - assert (Hreg' : Forall (registered (clients (after_enqueue ws c f w)))
                      (take N (queue (with_queue q (default empty_bucket
                                        (waiting w !! keyOf mode tier)))))).
    { eapply Forall_impl; [exact (Hreg Hle)|]. intros s. apply registered_insert. }
    destruct (createRoom_total mode tier N rid _ _ Hb Hreg') as [w' Hw'].
    exists w'. split; [done|].
    destruct (createRoom_done _ _ _ _ _ _ _ Hb HN Hw') as [ps M].
    destruct M as [Mp Mc Mw Mr _ _ _ _]. cbn [queue with_queue] in *.
    split; [|split].
    + exists ps. rewrite Mr. by rewrite head_take.
    + intros s Hs. rewrite Mc, bool_decide_eq_true_2 by done.
      destruct (proj1 (Forall_forall _ _) Hreg' s Hs) as [x ->]. done.
    + rewrite Mw. destruct (drop N q).
      * by rewrite lookup_delete_eq.
      * by rewrite lookup_insert_eq.
  - eexists. split; [done|]. split; [done|]. by rewrite Hb.
Qed.

End Properties.

(** * The request handler *)

Section Http.

Lemma readIndex_null fs :
  readIndex fs = Returned None ↔
  existsSync fs INDEX_A = false ∧ existsSync fs INDEX_B = false.
Proof.
  unfold readIndex.
  destruct (existsSync fs INDEX_A).
  { destruct (readFileSync fs INDEX_A); split; try done; by intros [? _]. }
  destruct (existsSync fs INDEX_B); [|done].
  destruct (readFileSync fs INDEX_B); split; try done; by intros [_ ?].
Qed.

(** The answer to a request for the index page. *)
Lemma on_request_index fs url :
  url = "/" ∨ url = "/index.html" →
  on_request fs url =
    match readIndex fs with
    | Thrown => Thrown
    | Returned None =>
        Returned {| statusCode := 500; contentType := "text/plain";
                    body := missing_index |}
    | Returned (Some html) =>
        Returned {| statusCode := 200; contentType := "text/html; charset=utf-8";
                    body := html |}
    end.
Proof. by intros [-> | ->]. Qed.

Lemma on_request_other fs url :
  url ≠ "/healthz" → url ≠ "/" → url ≠ "/index.html" →
  on_request fs url =
    Returned {| statusCode := 404; contentType := "text/plain"; body := "Not found" |}.
Proof.
  intros H1 H2 H3. unfold on_request.
  by rewrite !(proj2 (String.eqb_neq _ _)) by done.
Qed.

(** X1. The request handler answers /healthz with 200, text/plain and the
    body "ok", whatever the file system holds. An answer has status 200, 404
    or 500: 404 exactly for the urls other than /healthz, / and /index.html,
    500 exactly for / and /index.html when neither index file exists; the
    content type is text/html exactly for a 200 that is not the health
    check. *)
Theorem request_routing fs url :
  (url = "/healthz" →
     on_request fs url =
       Returned {| statusCode := 200; contentType := "text/plain"; body := "ok" |}) ∧
  (∀ r, on_request fs url = Returned r →
     (statusCode r = 200 ∨ statusCode r = 404 ∨ statusCode r = 500) ∧
     (statusCode r = 404 ↔ url ≠ "/healthz" ∧ url ≠ "/" ∧ url ≠ "/index.html") ∧
     (statusCode r = 500 ↔
        (url = "/" ∨ url = "/index.html") ∧
        existsSync fs INDEX_A = false ∧ existsSync fs INDEX_B = false) ∧
     (contentType r = "text/html; charset=utf-8" ↔
        statusCode r = 200 ∧ url ≠ "/healthz")).
Proof.
  split; [by intros ->|]. intros r.
  destruct (decide (url = "/healthz")) as [->|H1].
  { intros [= <-]. cbn. split; [by left|]. split; [|split]; split; try discriminate.
    - by intros [? _].
    - intros [[?|?] _]; discriminate.
    - by intros [_ ?]. }
  destruct (decide (url = "/" ∨ url = "/index.html")) as [Hi|Hn].
  - rewrite (on_request_index fs url Hi).
    pose proof (readIndex_null fs) as Hnull.
    destruct (readIndex fs) as [[html|]|]; [| |done]; intros [= <-]; cbn.
    + split; [by left|]. split; [|split]; split; try discriminate; try done.
      * intros (_ & ? & ?). destruct Hi; done.
      * intros [_ E]. apply Hnull in E. discriminate.
    + split; [by right; right|]. split; [|split]; split; try discriminate; try done.
      * intros (_ & ? & ?). destruct Hi; done.
      * intros _. split; [done|]. by apply Hnull.
      * intros [? _]. discriminate.
  - rewrite on_request_other by tauto. intros [= <-]. cbn.
    split; [by right; left|]. split; [|split]; split; try discriminate; try done.
    + intros _. tauto.
    + intros [? _]. tauto.
    + intros [? _]. discriminate.
Qed.

(** X2. For / and /index.html alike: when public/index.html exists the
    answer is its content (the other file is not looked at), otherwise the
    content of index.html when that exists; an empty file is served as it
    is. The handler throws exactly when the file it has chosen cannot be
    read. *)
Theorem index_selection fs url :
  url = "/" ∨ url = "/index.html" →
  let page html := Returned {| statusCode := 200;
                               contentType := "text/html; charset=utf-8";
                               body := html |} in
  (existsSync fs INDEX_A = true →
     on_request fs url = from_option page Thrown (readFileSync fs INDEX_A)) ∧
  (existsSync fs INDEX_A = false → existsSync fs INDEX_B = true →
     on_request fs url = from_option page Thrown (readFileSync fs INDEX_B)) ∧
  (on_request fs url = Thrown ↔
     (existsSync fs INDEX_A = true ∧ readFileSync fs INDEX_A = None) ∨
     (existsSync fs INDEX_A = false ∧ existsSync fs INDEX_B = true ∧
      readFileSync fs INDEX_B = None)) ∧
  on_request fs "/" = on_request fs "/index.html".
Proof.
  intros Hi page. rewrite (on_request_index fs url Hi). unfold readIndex.
  split; [|split; [|split; [|done]]].
  - intros ->. by destruct (readFileSync fs INDEX_A).
  - intros -> ->. by destruct (readFileSync fs INDEX_B).
  - destruct (existsSync fs INDEX_A).
    + destruct (readFileSync fs INDEX_A); split; try done.
      * intros [[_ ?]|[? _]]; done.
      * intros _. by left.
    + destruct (existsSync fs INDEX_B).
      * destruct (readFileSync fs INDEX_B); split; try done.
        -- intros [[? _]|(_ & _ & ?)]; done.
        -- intros _. by right.
      * split; [done|]. intros [[? _]|(_ & ? & _)]; done.
Qed.

End Http.

(** * Further properties of the matchmaking *)

Section Coverage.

Context {num : Type} {NUM : JSNumber num}.

Implicit Types (w : @World num) (c : @Session num)
  (cl : gmap conn (@Session num)) (msg : @json num) (b : Bucket)
  (obj : @OutMsg num) (out : list (conn * @OutMsg num)) (room : @Room num)
  (e : @Event num) (t : @Timer num) (tier : num) (f : @JoinFields num).

(** ** Modes and keys *)

Lemma supported_dec mode : supported mode ∨ ¬ supported mode.
Proof.
  unfold supported.
  destruct (decide (mode = "ONLINE1V1")); [tauto|].
  destruct (decide (mode = "ONLINE2V2")); [tauto|].
  destruct (decide (mode = "ONLINEPVP")); tauto.
Qed.

Lemma maxPlayers_pvp mode :
  needExact mode = 0 → maxPlayers mode ≠ 0 → mode = "ONLINEPVP".
Proof.
  unfold maxPlayers. destruct (String.eqb_spec mode "ONLINEPVP"); [done|].
  by intros ->.
Qed.

Lemma unsupported_tables mode :
  ¬ supported mode → needExact mode = 0 ∧ needMin mode = 2 ∧ maxPlayers mode = 0.
Proof.
  unfold supported, maxPlayers, needExact, needMin. intros H.
  destruct (String.eqb_spec mode "ONLINE1V1"); [tauto|].
  destruct (String.eqb_spec mode "ONLINE2V2"); [tauto|].
  destruct (String.eqb_spec mode "ONLINEPVP"); [tauto|]. done.
Qed.

(** X3. The tables [needMin], [needExact] and [maxPlayers] agree on the
    supported modes and on no other: a mode is supported exactly when
    [maxPlayers] is not 0, and exactly when [needMin] is at most
    [maxPlayers]; [needExact] is not 0 exactly for ONLINE1V1 and ONLINE2V2,
    where the three tables give the same number; ONLINEPVP runs from 2 to
    6. For every other mode [needExact] and [maxPlayers] are 0 while
    [needMin] is 2. *)
Theorem mode_tables mode :
  (supported mode ↔ maxPlayers mode ≠ 0) ∧
  (supported mode ↔ needMin mode ≤ maxPlayers mode) ∧
  (needExact mode ≠ 0 ↔ mode = "ONLINE1V1" ∨ mode = "ONLINE2V2") ∧
  (needExact mode ≠ 0 →
     needMin mode = needExact mode ∧ maxPlayers mode = needExact mode) ∧
  (mode = "ONLINEPVP" →
     needExact mode = 0 ∧ needMin mode = 2 ∧ maxPlayers mode = 6) ∧
  (¬ supported mode →
     needExact mode = 0 ∧ needMin mode = 2 ∧ maxPlayers mode = 0).
Proof.
  assert (Hyes : supported mode → ¬ supported mode →
            needExact mode = 0 ∧ needMin mode = 2 ∧ maxPlayers mode = 0) by tauto.
  destruct (supported_dec mode) as [Hs|Hno].
  - specialize (Hyes Hs).
    destruct Hs as [->|[->| ->]]; unfold supported in *; cbn in *;
      repeat split; try done; try lia; auto; try tauto.
    intros [?|?]; discriminate.
  - clear Hyes. destruct (unsupported_tables mode Hno) as (HE & HM & HX).
    rewrite HE, HM, HX.
    unfold supported in *. repeat split; try done; try lia; try tauto.
Qed.

(** X4. Two keys of supported modes are equal exactly when the modes are
    equal and the tiers print alike: buckets of different supported modes,
    or of tiers that print differently, are different buckets. *)
Theorem keyOf_supported_inj mode1 mode2 tier1 tier2 :
  supported mode1 → supported mode2 →
  (keyOf mode1 tier1 = keyOf mode2 tier2 ↔
   mode1 = mode2 ∧ num_to_string tier1 = num_to_string tier2).
Proof.
  unfold keyOf.
  intros [->|[->| ->]] [->|[->| ->]]; cbn; split;
    try (intros [E _]; discriminate E);
    try (intros E; discriminate E);
    try (intros [_ ->]; reflexivity);
    intros E; injection E as E; by split.
Qed.

(** X5. For a mode other than the three supported ones [maybeStart] does
    nothing, in every state: a join with such a mode registers the fields,
    queues the sender in the bucket of that mode and sends the status, and
    neither makes a room nor arms a timer, however many sockets wait. *)
Theorem unsupported_mode_never_starts mode tier rid now w :
  ¬ supported mode →
  maybeStart mode tier rid now w = (Done, w) ∧
  (∀ ws c msg f,
     clients w !! ws = Some c →
     get_prop "type" msg = Some (JStr "join") →
     join_fields msg = Some f → join_mode f = mode → join_tier f = tier →
     let w' := after_enqueue ws c f w in
     on_message ws (Some msg) rid now w = (Done, w') ∧
     rooms w' = rooms w ∧ timers w' = timers w ∧
     ∃ b, waiting w' !! keyOf mode tier = Some b ∧ ws ∈ queue b ∧
          timer b = (waiting w !! keyOf mode tier) ≫= timer).
Proof.
  intros Hno. destruct (unsupported_tables mode Hno) as (HE & HM & HX).
  assert (Hstart : ∀ w0, maybeStart mode tier rid now w0 = (Done, w0)).
  { intros w0. destruct (waiting w0 !! keyOf mode tier) as [b|] eqn:Hb.
    - rewrite (maybeStart_variable _ _ _ _ _ b Hb HE), HX.
      rewrite decide_True by lia. apply createRoom_absent. by right.
    - by apply maybeStart_absent. }
  split; [apply Hstart|].
  intros ws c msg f Hc Ht Hf <- <- w'.
  rewrite (on_message_join ws c) by done.
  rewrite (on_join_unfold _ _ _ f) by done. fold w'.
  split; [apply Hstart|]. split; [done|]. split; [done|].
  eexists. split; [apply after_enqueue_bucket|]. cbn [queue timer with_queue].
  split.
  - apply elem_of_enqueue. by right.
  - by destruct (waiting w !! _).
Qed.

(** ** Sending, and the queues on cleanup *)

(** X6. [broadcast] appends to the outbox one copy of the message for each
    open socket of the list, in list order, and changes nothing else; [send]
    to a socket that is not open changes nothing; a broadcast to a list is
    the broadcast to its first part followed by the broadcast to the
    rest. *)
Theorem broadcast_reaches_open q obj w :
  let w' := broadcast q obj w in
  outbox w' = outbox w ++ ((λ s, (s, obj)) <$> filter (λ s, is_open w s) q) ∧
  (clients w' = clients w ∧ waiting w' = waiting w ∧ rooms w' = rooms w ∧
   socks w' = socks w ∧ timers w' = timers w ∧ next_timer w' = next_timer w) ∧
  (∀ s, is_open w s = false → send s obj w = w) ∧
  (∀ q', broadcast (q ++ q') obj w = broadcast q' obj w').
Proof.
  intros w'. subst w'. split; [|split; [|split]].
  - rewrite broadcast_emit. reflexivity.
  - rewrite broadcast_emit. done.
  - intros s Hs. unfold send. by rewrite Hs.
  - intros q'. unfold broadcast. apply foldl_app.
Qed.

Lemma leave_queue_skip ws c w :
  c_mode c = None ∨ c_mode c = Some "" ∨ c_tier c = None →
  leave_queue ws c w = w.
Proof.
  unfold leave_queue. intros [->|[->| ->]];
    [done | by destruct (c_tier c) | by destruct (c_mode c)].
Qed.

Lemma leave_queue_spec ws c w m tier :
  c_mode c = Some m → m ≠ "" → c_tier c = Some tier →
  leave_queue ws c w =
    match waiting w !! keyOf m tier with
    | None => w
    | Some b =>
        match filter (λ x, x ≠ ws) (queue b) with
        | [] => drop_bucket (keyOf m tier) b w
        | q' => set_waiting (<[keyOf m tier := with_queue q' b]>) w
        end
    end.
Proof.
  intros Hm Hne Ht. unfold leave_queue. rewrite Hm, Ht, str_truthy_ne by done.
  destruct (waiting w !! _) as [b|]; [|done]. by destruct (filter _ _).
Qed.

(** X7. [cleanup] of a socket whose session has a mode and a tier: the queue
    of the bucket of that mode and tier loses the socket; when nothing is
    left the bucket is deleted and its timer, if any, is cleared; every other
    bucket stays as it is, and no other timer is touched. For a session
    without mode or tier, or with the empty string as mode, the buckets and
    the timers stay as they are. *)
Theorem cleanup_leaves_queue ws c w :
  clients w !! ws = Some c →
  let w' := cleanup ws w in
  (∀ m tier, c_mode c = Some m → m ≠ "" → c_tier c = Some tier →
     let k := keyOf m tier in
     queue_at w' k =
       queue_at w k ≫= (λ q, match filter (λ x, x ≠ ws) q with
                              | [] => None
                              | q' => Some q'
                              end) ∧
     (∀ q', queue_at w' k = Some q' → ws ∉ q') ∧
     (∀ k', k' ≠ k → waiting w' !! k' = waiting w !! k') ∧
     timers w' =
       match waiting w !! k with
       | Some b =>
           match filter (λ x, x ≠ ws) (queue b), timer b with
           | [], Some h => delete h (timers w)
           | _, _ => timers w
           end
       | None => timers w
       end) ∧
  (c_mode c = None ∨ c_mode c = Some "" ∨ c_tier c = None →
     waiting w' = waiting w ∧ timers w' = timers w).
Proof.
  intros Hc w'. subst w'. unfold cleanup. rewrite Hc. cbn zeta.
  destruct (close_room_frame ws c (leave_queue ws c w)) as (_ & Hw & Ht & _).
  unfold queue_at. cbn [waiting timers set_clients]. rewrite Hw, Ht. split.
  - intros m tier Hm Hne Htier. rewrite (leave_queue_spec ws c w m tier) by done.
    set (k := keyOf m tier). destruct (waiting w !! k) as [b|] eqn:Hb; cbn [fmap option_fmap option_map mbind option_bind].
    + destruct (filter (λ x, x ≠ ws) (queue b)) as [|x q'] eqn:Hf.
      * assert (Hd : waiting (drop_bucket k b w) = delete k (waiting w))
          by (unfold drop_bucket; by destruct (timer b)).
        rewrite Hd. split; [by rewrite lookup_delete_eq|].
        split; [by rewrite lookup_delete_eq|].
        split; [by intros k' Hk'; rewrite lookup_delete_ne|].
        unfold drop_bucket. by destruct (timer b).
      * cbn [waiting set_waiting timers]. rewrite lookup_insert_eq. split; [done|].
        split.
        -- intros q0 [= <-]. rewrite <- Hf. rewrite list_elem_of_filter. tauto.
        -- split; [by intros k' Hk'; rewrite lookup_insert_ne|done].
    + rewrite Hb. split; [done|]. split; [done|]. done.
  - intros H. by rewrite leave_queue_skip.
Qed.

(** ** Shape of the buckets, the timers and the rooms *)

(** What [maybeStart] does when it does something: the number of sockets it
    takes is within the bounds of the mode and of the queue, and the window
    it arms is for an ONLINEPVP bucket. *)
Lemma maybeStart_detail mode tier rid now w w' :
  maybeStart mode tier rid now w = (Done, w') →
  w' = w ∨
  (∃ b n, waiting w !! keyOf mode tier = Some b ∧ n ≠ 0 ∧ n ≤ length (queue b) ∧
          needMin mode ≤ n ≤ maxPlayers mode ∧
          createRoomFromQueue mode tier n rid w = (Done, w')) ∨
  (∃ b, waiting w !! keyOf mode tier = Some b ∧ timer b = None ∧
        mode = "ONLINEPVP" ∧ w' = armed mode tier now b w).
Proof.
  intros Hrun. destruct (waiting w !! keyOf mode tier) as [b|] eqn:Hb; cycle 1.
  { rewrite maybeStart_absent in Hrun by done. left. by injection Hrun. }
  destruct (needExact_cases mode) as [[-> HN]|[[-> HN]|(H1 & H2 & HN)]].
  - rewrite (maybeStart_exact _ _ _ _ _ _ Hb) in Hrun by (by rewrite HN).
    rewrite HN in Hrun. destruct (decide _) as [Hle|]; [|left; by injection Hrun].
    right; left. exists b, 2. cbn. repeat split; try done; lia.
  - rewrite (maybeStart_exact _ _ _ _ _ _ Hb) in Hrun by (by rewrite HN).
    rewrite HN in Hrun. destruct (decide _) as [Hle|]; [|left; by injection Hrun].
    right; left. exists b, 4. cbn. repeat split; try done; lia.
  - rewrite (maybeStart_variable _ _ _ _ _ _ Hb HN) in Hrun.
    destruct (decide (maxPlayers mode ≤ _)) as [Hle|Hgt].
    + destruct (decide (maxPlayers mode = 0)) as [E|E].
      * rewrite E, createRoom_absent in Hrun by (by right). left. by injection Hrun.
      * pose proof (maxPlayers_pvp mode HN E) as ->. right; left. exists b, 6.
        cbn in *. repeat split; try done; lia.
    + destruct (decide _) as [[Hmin Ht]|_]; [|left; by injection Hrun].
      injection Hrun as <-. right; right. exists b. repeat split; try done.
      apply maxPlayers_pvp; [done|lia].
Qed.

Lemma on_timer_detail mode tier rid w w' b :
  waiting w !! keyOf mode tier = Some b →
  on_timer mode tier rid w = (Done, w') →
  let w1 := set_waiting (<[keyOf mode tier := with_timer None (startedAt b) b]>) w in
  w' = w1 ∨
  ∃ n, n ≠ 0 ∧ n ≤ length (queue b) ∧ needMin mode ≤ n ≤ maxPlayers mode ∧
       createRoomFromQueue mode tier n rid w1 = (Done, w').
Proof.
  intros Hb Hrun w1. rewrite (on_timer_unfold _ _ _ _ b Hb) in Hrun. cbn zeta in Hrun.
  fold w1 in Hrun. destruct (decide _) as [Hle|]; [|left; by injection Hrun].
  right. eexists. split; [|split; [|split; [|exact Hrun]]].
  - assert (2 ≤ needMin mode) by (unfold needMin; by destruct (String.eqb _ _); lia). lia.
  - lia.
  - lia.
Qed.

(** A queue that [cleanup] leaves in place is the queue as it was, or what
    is left of it without the socket, which is not empty. *)
Lemma leave_queue_kept ws c w k q' :
  queue_at (leave_queue ws c w) k = Some q' →
  ∃ q, queue_at w k = Some q ∧ (q' = q ∨ (q' = filter (λ x, x ≠ ws) q ∧ q' ≠ [])).
Proof.
  unfold leave_queue. destruct (c_mode c) as [m|]; [|by eauto].
  destruct (c_tier c) as [tier|]; [|by eauto]. destruct (str_truthy m); [|by eauto].
  destruct (waiting w !! keyOf m tier) as [b|] eqn:Hb; [|by eauto].
  unfold queue_at. destruct (filter _ _) as [|x q0] eqn:Hf.
  - assert (Hw : waiting (drop_bucket (keyOf m tier) b w) = delete (keyOf m tier) (waiting w))
      by (unfold drop_bucket; by destruct (timer b)).
    rewrite Hw. destruct (decide (keyOf m tier = k)) as [<-|Hne];
      [by rewrite lookup_delete_eq|]. rewrite lookup_delete_ne by done. eauto.
  - simpl. destruct (decide (keyOf m tier = k)) as [<-|Hne].
    + rewrite lookup_insert_eq, Hb. simpl. intros [= <-]. exists (queue b).
      split; [done|]. right. by rewrite Hf.
    + rewrite lookup_insert_ne by done. eauto.
Qed.

Lemma cleanup_kept ws w k q' :
  queue_at (cleanup ws w) k = Some q' →
  ∃ q, queue_at w k = Some q ∧ (q' = q ∨ (q' = filter (λ x, x ≠ ws) q ∧ q' ≠ [])).
Proof.
  unfold cleanup. destruct (clients w !! ws) as [c|]; [|by eauto].
  destruct (close_room_frame ws c (leave_queue ws c w)) as (_ & Hw & _ & _).
  unfold queue_at at 1. cbn [waiting set_clients]. rewrite Hw. apply leave_queue_kept.
Qed.

Lemma cleanup_rooms ws w : rooms (cleanup ws w) ⊆ rooms w.
Proof.
  destruct (clients w !! ws) as [c|] eqn:Hc.
  - by destruct (cleanup_effect ws c w Hc) as (_ & _ & Er & _).
  - unfold cleanup. by rewrite Hc.
Qed.

Lemma wf_shape_same w w' :
  (∀ k, queue_at w' k = queue_at w k) → timers w' ⊆ timers w → rooms w' ⊆ rooms w →
  wf_shape w → wf_shape w'.
Proof.
  intros Hq Ht Hr [S1 S2 S3 S4]. split.
  - intros k q. rewrite Hq. apply S1.
  - intros k q. rewrite Hq. apply S2.
  - intros h t Hh. apply (S3 h). by eapply lookup_weaken.
  - intros rid room Hroom. apply (S4 rid). by eapply lookup_weaken.
Qed.

Lemma wf_shape_cleanup ws w : wf_shape w → wf_shape (cleanup ws w).
Proof.
  intros [S1 S2 S3 S4]. split.
  - intros k q' (q & Hq & [->|[_ Hne]])%cleanup_kept; eauto.
  - intros k q' (q & Hq & [->|[-> _]])%cleanup_kept; [eauto|].
    apply NoDup_filter. eauto.
  - intros h t Hh. apply (S3 h). eapply lookup_weaken; [exact Hh|].
    apply cleanup_timers_shrink.
  - intros rid room Hroom. apply (S4 rid). eapply lookup_weaken; [exact Hroom|].
    apply cleanup_rooms.
Qed.

Lemma wf_shape_enqueue ws c f w : wf_shape w → wf_shape (after_enqueue ws c f w).
Proof.
  intros [S1 S2 S3 S4].
  destruct (after_enqueue_effect ws c f w) as (_ & Er & _ & Eq).
  split.
  - intros k q. rewrite Eq. case_decide; [|apply S1]. intros [= <-] E.
    assert (H0 : ws ∈ enqueue ws (default [] (queue_at w (keyOf (join_mode f) (join_tier f)))))
      by (apply elem_of_enqueue; by right).
    rewrite E in H0. by apply not_elem_of_nil in H0.
  - intros k q. rewrite Eq. case_decide; [|apply S2]. intros [= <-].
    apply NoDup_enqueue. destruct (queue_at w _) eqn:E; simpl; [eauto|constructor].
  - exact S3.
  - intros rid room. rewrite Er. apply S4.
Qed.

Lemma wf_shape_armed tier now b w :
  wf_shape w → waiting w !! keyOf "ONLINEPVP" tier = Some b →
  wf_shape (armed "ONLINEPVP" tier now b w).
Proof.
  intros [S1 S2 S3 S4] Hb.
  pose proof (armed_queues "ONLINEPVP" tier now b w Hb) as Eq. split.
  - intros k q. rewrite Eq. apply S1.
  - intros k q. rewrite Eq. apply S2.
  - intros h t. unfold armed. cbn [timers set_waiting setTimeout snd].
    destruct (decide (next_timer w = h)) as [<-|Hne].
    + rewrite lookup_insert_eq. by intros [= <-].
    + rewrite lookup_insert_ne by done. apply S3.
  - exact S4.
Qed.

Lemma wf_shape_materialized mode tier n rid b ps w w' :
  wf_shape w → waiting w !! keyOf mode tier = Some b →
  n ≤ length (queue b) → needMin mode ≤ n ≤ maxPlayers mode →
  materialized mode tier n rid b ps w w' → wf_shape w'.
Proof.
  intros [S1 S2 S3 S4] Hb Hn Hbounds M.
  pose proof (materialized_queues _ _ _ _ _ _ _ _ M) as Eq.
  destruct M as [Mp _ _ Mr _ Mt _ _].
  assert (Hnd : NoDup (queue b)).
  { apply (S2 (keyOf mode tier)). unfold queue_at. by rewrite Hb. }
  split.
  - intros k q. rewrite Eq. case_decide; [|apply S1].
    destruct (drop n (queue b)); [done|]. by intros [= <-].
  - intros k q. rewrite Eq. case_decide; [|apply S2].
    destruct (drop n (queue b)) eqn:E; [done|]. intros [= <-]. rewrite <- E.
    eapply sublist_NoDup; [exact Hnd|apply sublist_drop].
  - intros h t. rewrite Mt. intros Hh. apply (S3 h).
    destruct (drop n (queue b)); [|done]. destruct (timer b); [|done].
    by apply lookup_delete_Some in Hh as [_ ?].
  - intros rid' room. rewrite Mr. destruct (decide (rid = rid')) as [<-|Hne].
    + rewrite lookup_insert_eq. intros [= <-]. split; cbn [hostWs sockets players r_mode].
      * done.
      * eapply sublist_NoDup; [exact Hnd|apply sublist_take].
      * symmetry. by apply length_mapM in Mp.
      * rewrite length_take_le by done. done.
    + rewrite lookup_insert_ne by done. apply S4.
Qed.

Lemma createRoom_wf_shape mode tier n rid w w' b :
  wf_shape w → waiting w !! keyOf mode tier = Some b → n ≠ 0 →
  n ≤ length (queue b) → needMin mode ≤ n ≤ maxPlayers mode →
  createRoomFromQueue mode tier n rid w = (Done, w') → wf_shape w'.
Proof.
  intros S Hb Hn Hle Hbounds Hrun.
  destruct (createRoom_done _ _ _ _ _ _ _ Hb Hn Hrun) as [ps M].
  by eapply wf_shape_materialized.
Qed.

Lemma maybeStart_wf_shape mode tier rid now w w' :
  wf_shape w → maybeStart mode tier rid now w = (Done, w') → wf_shape w'.
Proof.
  intros S Hrun.
  destruct (maybeStart_detail _ _ _ _ _ _ Hrun)
    as [->|[(b & n & Hb & Hn & Hle & Hbounds & Hmk)|(b & Hb & Ht & -> & ->)]].
  - done.
  - by eapply createRoom_wf_shape.
  - by apply wf_shape_armed.
Qed.

Lemma exec_wf_shape e w w' : wf_shape w → exec e w = Some w' → wf_shape w'.
Proof.
  intros S [_ Hrun]%exec_inv.
  destruct e as [ws id|ws body rid now|ws|ws|h rid]; simpl in Hrun.
  - injection Hrun as <-. unfold on_connection. rewrite send_emit.
    by apply (wf_shape_same w).
  - destruct (on_message_cases _ _ _ _ _ _ Hrun)
      as [[out ->]|(c & msg & f & _ & _ & _ & _ & H)].
    + by apply (wf_shape_same w).
    + eapply maybeStart_wf_shape; [|exact H]. by apply wf_shape_enqueue.
  - injection Hrun as <-. apply wf_shape_cleanup. by apply (wf_shape_same w).
  - injection Hrun as <-. apply wf_shape_cleanup. by apply (wf_shape_same w).
  - destruct (timers w !! h) as [t|] eqn:Hh; [|by injection Hrun as <-].
    destruct (waiting w !! keyOf (t_mode t) (t_tier t)) as [b|] eqn:Hb; cycle 1.
    { unfold on_timer in Hrun. simpl in Hrun. rewrite Hb in Hrun. injection Hrun as <-.
      apply (wf_shape_same w); [done | apply delete_subseteq | done | done]. }
    assert (S1 : wf_shape (set_waiting
        (<[keyOf (t_mode t) (t_tier t) := with_timer None (startedAt b) b]>)
        (set_timers (delete h) w))).
    { apply (wf_shape_same w); [| apply delete_subseteq | done | done].
      by apply (queue_at_retimed w _ (keyOf (t_mode t) (t_tier t)) b
                  (with_timer None (startedAt b) b) Hb). }
    destruct (on_timer_detail _ _ _ (set_timers (delete h) w) _ b Hb Hrun) as [->|(n & Hn & Hle & Hbounds & Hmk)].
    + exact S1.
    + apply (createRoom_wf_shape (t_mode t) (t_tier t) n rid _ w'
               (with_timer None (startedAt b) b) S1);
        [apply lookup_insert_eq | done..].
Qed.

Lemma wf_shape_init : wf_shape (world0 (num := num)).
Proof.
  split; unfold queue_at; cbn [waiting timers rooms world0].
  - intros k q H. by rewrite lookup_empty in H.
  - intros k q H. by rewrite lookup_empty in H.
  - intros h t H. by rewrite lookup_empty in H.
  - intros rid room H. by rewrite lookup_empty in H.
Qed.

Lemma reachable_wf_shape w : reachable w → wf_shape w.
Proof.
  induction 1 as [|w e w' _ IH Hstep]; [apply wf_shape_init|].
  by eapply exec_wf_shape.
Qed.

(** ** Ready states *)

Lemma is_open_Open w s : is_open w s = true ↔ socks w !! s = Some Open.
Proof. unfold is_open. destruct (socks w !! s) as [[]|]; split; done. Qed.

(** [cleanup] closes open sockets and touches no other. *)
Lemma cleanup_socks ws w s :
  socks (cleanup ws w) !! s = socks w !! s ∨
  (socks w !! s = Some Open ∧ socks (cleanup ws w) !! s = Some Closing).
Proof.
  unfold cleanup. destruct (clients w !! ws) as [c|]; [|by left].
  destruct (leave_queue_frame ws c w) as (_ & _ & Ls & _ & _).
  cbn [socks set_clients]. unfold close_room.
  destruct (c_roomId c) as [rid|]; [|left; by rewrite Ls].
  destruct (str_truthy rid); [|left; by rewrite Ls].
  destruct (rooms (leave_queue ws c w) !! rid) as [room|]; [|left; by rewrite Ls].
  destruct (close_loop ws (sockets room) (leave_queue ws c w)) as (_ & _ & _ & _ & _ & Ks & _).
  cbn [socks set_rooms]. rewrite Ks. destruct (decide _) as [[_ Ho]|_].
  - right. apply is_open_Open in Ho. by rewrite <- Ls.
  - left. by rewrite Ls.
Qed.

Lemma createRoom_socks mode tier n rid w w' :
  createRoomFromQueue mode tier n rid w = (Done, w') → socks w' = socks w.
Proof.
  intros Hrun. destruct (waiting w !! keyOf mode tier) as [b|] eqn:Hb; cycle 1.
  { rewrite createRoom_absent in Hrun by (by left). by injection Hrun as <-. }
  destruct (decide (n = 0)) as [->|Hn].
  { rewrite createRoom_absent in Hrun by (by right). by injection Hrun as <-. }
  destruct (createRoom_done _ _ _ _ _ _ _ Hb Hn Hrun) as [ps M]. by destruct M.
Qed.

Lemma maybeStart_socks mode tier rid now w w' :
  maybeStart mode tier rid now w = (Done, w') → socks w' = socks w.
Proof.
  intros Hrun.
  destruct (maybeStart_cases _ _ _ _ _ _ Hrun) as [->|[[n Hn]|(b & Hb & Ht & ->)]];
    [done | by eapply createRoom_socks | done].
Qed.

Lemma on_message_socks ws body rid now w w' :
  on_message ws body rid now w = (Done, w') → socks w' = socks w.
Proof.
  intros Hrun.
  destruct (on_message_cases _ _ _ _ _ _ Hrun) as [[out ->]|(c & msg & f & _ & _ & _ & _ & H)];
    [done|]. by apply maybeStart_socks in H.
Qed.

Lemma on_timer_socks mode tier rid w w' :
  on_timer mode tier rid w = (Done, w') → socks w' = socks w.
Proof.
  unfold on_timer. destruct (waiting w !! _) as [b|]; [|by intros [= <-]].
  cbn zeta. destruct (_ <=? _); [|by intros [= <-]].
  by intros ->%createRoom_socks.
Qed.

(** The ready state of a socket moves forward only: from unknown to open on
    its connection event, from open to closing when the server closes it,
    to closed on its close event. *)
Lemma exec_socks e w w' s :
  exec e w = Some w' →
  socks w' !! s = socks w !! s ∨
  (socks w !! s = Some Open ∧ socks w' !! s = Some Closing) ∨
  (socks w !! s = None ∧ socks w' !! s = Some Open ∧ ∃ id, e = Connect s id) ∨
  (alive w s = true ∧ socks w' !! s = Some Closed ∧ e = Close s) ∨
  (alive w s = true ∧ socks w' !! s = Some Closing ∧ e = SockError s).
Proof.
  intros [Hen Hrun]%exec_inv.
  destruct e as [ws id|ws body rid now|ws|ws|h rid]; simpl in Hrun, Hen.
  - injection Hrun as <-. unfold on_connection. rewrite send_emit.
    cbn [socks emit set_clients set_socks].
    destruct (decide (ws = s)) as [->|Hne].
    + right; right; left. apply bool_decide_eq_true in Hen.
      rewrite lookup_insert_eq. eauto.
    + left. by rewrite lookup_insert_ne.
  - left. by rewrite (on_message_socks _ _ _ _ _ _ Hrun).
  - injection Hrun as <-.
    destruct (cleanup_socks ws (set_socks (<[ws := Closed]>) w) s) as [E|[E1 E2]];
      cbn [socks set_socks] in *.
    + destruct (decide (ws = s)) as [->|Hne].
      * right; right; right; left. rewrite lookup_insert_eq in E. done.
      * left. by rewrite lookup_insert_ne in E.
    + destruct (decide (ws = s)) as [->|Hne]; [by rewrite lookup_insert_eq in E1|].
      rewrite lookup_insert_ne in E1 by done. right; left. done.
  - injection Hrun as <-.
    destruct (cleanup_socks ws (set_socks (<[ws := Closing]>) w) s) as [E|[E1 E2]];
      cbn [socks set_socks] in *.
    + destruct (decide (ws = s)) as [->|Hne].
      * right; right; right; right. rewrite lookup_insert_eq in E. done.
      * left. by rewrite lookup_insert_ne in E.
    + destruct (decide (ws = s)) as [->|Hne]; [by rewrite lookup_insert_eq in E1|].
      rewrite lookup_insert_ne in E1 by done. right; left. done.
  - left. destruct (timers w !! h) as [t|]; [|by injection Hrun as <-].
    by rewrite (on_timer_socks _ _ _ _ _ Hrun).
Qed.

(** ** Sessions *)

Lemma cleanup_clients ws w s c' :
  clients (cleanup ws w) !! s = Some c' → clients w !! s = Some c' ∧ s ≠ ws.
Proof.
  destruct (clients w !! ws) as [c|] eqn:Hc.
  - destruct (cleanup_effect ws c w Hc) as (-> & _).
    intros [? ?]%lookup_delete_Some. done.
  - unfold cleanup. rewrite Hc. intros H. split; [done|]. intros ->. congruence.
Qed.

Lemma createRoom_clients mode tier n rid w w' s :
  createRoomFromQueue mode tier n rid w = (Done, w') →
  clients w' !! s = clients w !! s ∨
  clients w' !! s = with_room rid <$> clients w !! s.
Proof.
  intros Hrun. destruct (waiting w !! keyOf mode tier) as [b|] eqn:Hb; cycle 1.
  { rewrite createRoom_absent in Hrun by (by left). left. by injection Hrun as <-. }
  destruct (decide (n = 0)) as [->|Hn].
  { rewrite createRoom_absent in Hrun by (by right). left. by injection Hrun as <-. }
  destruct (createRoom_done _ _ _ _ _ _ _ Hb Hn Hrun) as [ps M].
  destruct M as [_ Mc _ _ _ _ _ _]. rewrite Mc. case_bool_decide; auto.
Qed.

Lemma maybeStart_clients mode tier rid now w w' s :
  maybeStart mode tier rid now w = (Done, w') →
  clients w' !! s = clients w !! s ∨
  clients w' !! s = with_room rid <$> clients w !! s.
Proof.
  intros Hrun.
  destruct (maybeStart_cases _ _ _ _ _ _ Hrun) as [->|[[n Hn]|(b & Hb & Ht & ->)]];
    [by left | by eapply createRoom_clients | by left].
Qed.

Lemma on_timer_clients mode tier rid w w' s :
  on_timer mode tier rid w = (Done, w') →
  clients w' !! s = clients w !! s ∨
  clients w' !! s = with_room rid <$> clients w !! s.
Proof.
  unfold on_timer. destruct (waiting w !! _) as [b|]; [|intros [= <-]; by left].
  cbn zeta. destruct (_ <=? _); [|intros [= <-]; by left].
  intros H. by apply (createRoom_clients _ _ _ _ _ _ s) in H.
Qed.

(** What a step makes of a session. *)
Lemma exec_session_after e w w' s c' :
  exec e w = Some w' → clients w' !! s = Some c' →
  session_after e s (clients w !! s) c'.
Proof.
  intros [Hen Hrun]%exec_inv Hc'. unfold session_after.
  assert (Hroom : ∀ w0 rid,
    (clients w' !! s = clients w0 !! s ∨
     clients w' !! s = with_room rid <$> clients w0 !! s) →
    ∃ c0, clients w0 !! s = Some c0 ∧ (c' = c0 ∨ c' = with_room rid c0)).
  { intros w0 rid [E|E]; rewrite Hc' in E.
    - exists c'. by split; [|left].
    - symmetry in E. apply fmap_Some in E as (c0 & ? & ->). exists c0. by split; [|right]. }
  destruct e as [ws id|ws body rid now|ws|ws|h rid]; simpl in Hrun, Hen.
  - injection Hrun as <-. unfold on_connection in Hc'. rewrite send_emit in Hc'.
    cbn [clients emit set_clients set_socks] in Hc'.
    destruct (decide (ws = s)) as [->|Hne].
    + rewrite lookup_insert_eq in Hc'. left. exists id. by injection Hc' as <-.
    + rewrite lookup_insert_ne in Hc' by done. right. exists c'. auto.
  - right.
    destruct (on_message_cases _ _ _ _ _ _ Hrun)
      as [[out ->]|(c & msg & f & -> & Hc & _ & Hf & H)].
    { exists c'. auto. }
    destruct (Hroom _ rid (maybeStart_clients _ _ _ _ _ _ s H)) as (c0 & Hc0 & Hcase).
    destruct (after_enqueue_effect ws c f w) as (Ec & _).
    rewrite Ec in Hc0. destruct (decide (ws = s)) as [->|Hne].
    + rewrite lookup_insert_eq in Hc0. injection Hc0 as <-. exists c. split; [done|].
      right; right. exists msg, f, rid, now. done.
    + rewrite lookup_insert_ne in Hc0 by done. exists c0. split; [done|].
      destruct Hcase; eauto.
  - injection Hrun as <-. apply cleanup_clients in Hc' as [Hc' _].
    right. exists c'. auto.
  - injection Hrun as <-. apply cleanup_clients in Hc' as [Hc' _].
    right. exists c'. auto.
  - right. destruct (timers w !! h) as [t|]; [|injection Hrun as <-; exists c'; auto].
    destruct (Hroom _ rid (on_timer_clients _ _ _ _ _ s Hrun)) as (c0 & Hc0 & Hcase).
    exists c0. split; [done|]. destruct Hcase; eauto.
Qed.

(** In a reachable state the connection event of a socket finds no session
    of that socket. *)
Lemma session_after_kept e w w' s c c' :
  wf_general w → exec e w = Some w' →
  clients w !! s = Some c → clients w' !! s = Some c' →
  c' = c ∨ (∃ rid, c' = with_room rid c) ∨
  ∃ msg f rid now, e = Message s (Some msg) rid now ∧ join_fields msg = Some f ∧
    (c' = joined f c ∨ c' = with_room rid (joined f c)).
Proof.
  intros G Hstep Hc Hc'.
  destruct (exec_session_after e w w' s c' Hstep Hc') as [(id & -> & _)|(c0 & Hc0 & H)].
  - apply exec_inv in Hstep as [Hen _]. simpl in Hen. apply bool_decide_eq_true in Hen.
    destruct (sessions_known w G s) as [x Hx]; [eauto|congruence].
  - rewrite Hc in Hc0. by injection Hc0 as <-.
Qed.

Lemma sessions_alive_step e w w' :
  sessions_alive w → exec e w = Some w' → sessions_alive w'.
Proof.
  intros A Hstep s [c' Hc'].
  destruct (exec_session_after e w w' s c' Hstep Hc') as [(id & -> & _)|(c0 & Hc0 & _)].
  - destruct (exec_socks _ w w' s Hstep) as [E|[[_ E]|[(_ & E & _)|[(_ & _ & [=])|(_ & _ & [=])]]]].
    + apply exec_inv in Hstep as [Hen Hrun]. simpl in Hrun. injection Hrun as <-.
      unfold alive, on_connection. rewrite send_emit. cbn [socks emit set_clients set_socks].
      by rewrite lookup_insert_eq.
    + unfold alive. by rewrite E.
    + unfold alive. by rewrite E.
  - assert (Ha : alive w s = true) by (apply A; eauto).
    destruct (exec_socks _ w w' s Hstep) as [E|[[_ E]|[(E & _)|[(_ & _ & ->)|(_ & E & _)]]]].
    + unfold alive in *. by rewrite E.
    + unfold alive. by rewrite E.
    + unfold alive in Ha. by rewrite E in Ha.
    + apply exec_inv in Hstep as [_ Hrun]. simpl in Hrun. injection Hrun as <-.
      by apply cleanup_clients in Hc' as [_ ?].
    + unfold alive. by rewrite E.
Qed.

Lemma reachable_sessions_alive w : reachable w → sessions_alive w.
Proof.
  induction 1 as [|w e w' _ IH Hstep].
  - intros s [c H]. cbn [clients world0] in H. by rewrite lookup_empty in H.
  - by eapply sessions_alive_step.
Qed.



(** ** Sessions over a run *)

Lemma exec_known e w w' s : exec e w = Some w' → known w s → known w' s.
Proof.
  intros Hstep [x Hx]. unfold known.
  destruct (exec_socks e w w' s Hstep)
    as [E|[[_ E]|[(_ & E & _)|[(_ & E & _)|(_ & E & _)]]]]; rewrite E; eauto.
Qed.

(** A session, once removed, does not come back: a connection event brings
    a new socket. *)
Lemma exec_no_session e w w' s :
  exec e w = Some w' → known w s → clients w !! s = None → clients w' !! s = None.
Proof.
  intros Hstep [x Hx] Hc. destruct (clients w' !! s) as [c'|] eqn:Hc'; [|done].
  destruct (exec_session_after e w w' s c' Hstep Hc') as [(id & -> & _)|(c0 & Hc0 & _)].
  - apply exec_inv in Hstep as [Hen _]. simpl in Hen. apply bool_decide_eq_true in Hen.
    congruence.
  - congruence.
Qed.

Lemma run_no_session es w w' s :
  run es w = Some w' → known w s → clients w !! s = None → clients w' !! s = None.
Proof.
  revert w. induction es as [|e es IH]; intros w; simpl.
  - by intros [= <-].
  - destruct (exec e w) as [w1|] eqn:E; [|done]. intros Hrun Hk Hc.
    apply (IH w1 Hrun); [by eapply exec_known | by eapply exec_no_session].
Qed.

(** X8. Along a run, as long as a socket keeps its session the id of the
    session stays what it was, and a room reference, once set, stays set. *)
Theorem session_identity es w w' s c c' :
  reachable w → run es w = Some w' →
  clients w !! s = Some c → clients w' !! s = Some c' →
  c_id c' = c_id c ∧ (is_Some (c_roomId c) → is_Some (c_roomId c')).
Proof.
  intros Hw. revert c. induction es as [|e es IH] in w, Hw |- *; intros c; simpl.
  - intros [= <-] Hc Hc'. rewrite Hc in Hc'. by injection Hc' as <-.
  - destruct (exec e w) as [w1|] eqn:E; [|done]. intros Hrun Hc Hc'.
    pose proof (reachable_wf_general w Hw) as G.
    destruct (clients w1 !! s) as [c1|] eqn:Hc1; cycle 1.
    { assert (known w1 s) by (eapply exec_known; [exact E|]; apply G; eauto).
      pose proof (run_no_session es w1 w' s Hrun ltac:(done) Hc1). congruence. }
    destruct (IH w1 (reach_step _ _ _ Hw E) c1 Hrun Hc1 Hc') as [Hid Hroom].
    assert (Hstep : c_id c1 = c_id c ∧ (is_Some (c_roomId c) → is_Some (c_roomId c1))).
    { destruct (session_after_kept e w w1 s c c1 G E Hc Hc1)
        as [->|[[rid ->]|(msg & f & rid & now & _ & _ & [->| ->])]]; simpl; eauto. }
    destruct Hstep as [Hid1 Hroom1]. split; [congruence|]. eauto.
Qed.

(** X9. In a reachable state a socket that has not connected, or whose close
    event has been handled, has no session; the close or error event of a
    socket removes its session, and no later step brings it back. *)
Theorem no_session_after_close w s :
  reachable w →
  (socks w !! s = None ∨ socks w !! s = Some Closed → clients w !! s = None) ∧
  (∀ w', exec (Close s) w = Some w' ∨ exec (SockError s) w = Some w' →
     clients w' !! s = None ∧
     ∀ es w'', run es w' = Some w'' → clients w'' !! s = None).
Proof.
  intros Hw. split.
  - intros Hs. destruct (clients w !! s) as [c|] eqn:Hc; [|done].
    pose proof (reachable_sessions_alive w Hw s ltac:(eauto)) as Ha.
    unfold alive in Ha. by destruct Hs as [E|E]; rewrite E in Ha.
  - intros w' Hstep.
    assert (Hnone : clients w' !! s = None).
    { destruct (clients w' !! s) as [c'|] eqn:Hc'; [|done].
      destruct Hstep as [[_ Hrun]%exec_inv|[_ Hrun]%exec_inv]; simpl in Hrun;
        injection Hrun as <-; by apply cleanup_clients in Hc' as [_ ?]. }
    split; [done|]. intros es w'' Hrun.
    apply (run_no_session es w' w'' s Hrun); [|done].
    destruct Hstep as [Hstep|Hstep].
    + destruct (exec_socks _ w w' s Hstep)
        as [E|[[_ E]|[(_ & _ & ? & [=])|[(_ & E & _)|(_ & _ & [=])]]]];
        unfold known; rewrite E; eauto.
      apply exec_inv in Hstep as [Hen _]. simpl in Hen. unfold alive in Hen.
      destruct (socks w !! s); [eauto|done].
    + destruct (exec_socks _ w w' s Hstep)
        as [E|[[_ E]|[(_ & _ & ? & [=])|[(_ & _ & [=])|(_ & E & _)]]]];
        unfold known; rewrite E; eauto.
      apply exec_inv in Hstep as [Hen _]. simpl in Hen. unfold alive in Hen.
      destruct (socks w !! s); [eauto|done].
Qed.

(** ** User names *)

Lemma length_slice0 n s : String.length (slice0 n s) ≤ n.
Proof.
  unfold slice0. revert s. induction n as [|n IH]; intros s.
  - destruct s; simpl; lia.
  - destruct s as [|a s]; simpl; [lia|]. specialize (IH s). lia.
Qed.

Lemma join_username_short msg f :
  join_fields msg = Some f → String.length (join_username f) ≤ 16.
Proof.
  intros (u & _ & _ & _ & _ & ->)%join_fields_Some. apply length_slice0.
Qed.

(** ** What a step sends *)

Lemma sends_to_open_same w1 w out :
  socks w1 = socks w → sends_to_open w1 out → sends_to_open w out.
Proof.
  intros Hs H. eapply Forall_impl; [exact H|]. intros x. simpl.
  by rewrite (is_open_same w1 w).
Qed.

Lemma sends_to_open_app w out1 out2 :
  sends_to_open w out1 → sends_to_open w out2 → sends_to_open w (out1 ++ out2).
Proof. unfold sends_to_open. rewrite Forall_app. done. Qed.

Lemma deliveries_to_open w q obj :
  is_welcome obj = false → sends_to_open w (deliveries w q obj).
Proof.
  intros Hobj. unfold sends_to_open, deliveries. apply Forall_fmap, Forall_forall.
  intros s [Hs _]%list_elem_of_filter. simpl. split; [|done].
  by destruct (is_open w s).
Qed.

Lemma on_relay_out ws c type msg w :
  ∃ out, on_relay ws c type msg w = emit out w ∧ sends_to_open w out.
Proof.
  assert (Hnil : ∃ out, w = emit out w ∧ sends_to_open w out)
    by (exists []; split; [by rewrite emit_nil|constructor]).
  unfold on_relay.
  destruct (c_roomId c) as [rid|]; [|done].
  destruct (str_truthy rid); [|done].
  destruct (rooms w !! rid) as [room|]; [|done].
  destruct (String.eqb type "input").
  - case_bool_decide; [|done].
    destruct (hostWs room) as [h|]; simpl; [|done]. rewrite send_emit.
    eexists. split; [done|]. destruct (is_open w h) eqn:E; repeat constructor; done.
  - case_bool_decide; [|done]. rewrite relay_loop.
    eexists. split; [done|]. by apply deliveries_to_open.
Qed.

Lemma createRoom_outbox mode tier n rid w w' :
  createRoomFromQueue mode tier n rid w = (Done, w') →
  ∃ out, outbox w' = outbox w ++ out ∧ sends_to_open w out.
Proof.
  intros Hrun.
  assert (Hnil : w' = w → ∃ out, outbox w' = outbox w ++ out ∧ sends_to_open w out)
    by (intros ->; exists []; split; [by rewrite app_nil_r|constructor]).
  destruct (waiting w !! keyOf mode tier) as [b|] eqn:Hb; cycle 1.
  { rewrite createRoom_absent in Hrun by (by left). apply Hnil. by injection Hrun. }
  destruct (decide (n = 0)) as [->|Hn].
  { rewrite createRoom_absent in Hrun by (by right). apply Hnil. by injection Hrun. }
  destruct (createRoom_done _ _ _ _ _ _ _ Hb Hn Hrun) as [ps M].
  destruct M as [_ _ _ _ _ _ _ Mo]. eexists. split; [exact Mo|].
  repeat apply sends_to_open_app.
  - destruct (drop n (queue b)); [constructor|]. by apply deliveries_to_open.
  - by apply deliveries_to_open.
  - destruct (head (take n (queue b))) as [h|]; [|constructor].
    destruct (is_open w h) eqn:E; repeat constructor; done.
Qed.

Lemma maybeStart_outbox mode tier rid now w w' :
  maybeStart mode tier rid now w = (Done, w') →
  ∃ out, outbox w' = outbox w ++ out ∧ sends_to_open w out.
Proof.
  intros Hrun.
  destruct (maybeStart_cases _ _ _ _ _ _ Hrun) as [->|[[n Hn]|(b & Hb & Ht & ->)]].
  - exists []. split; [by rewrite app_nil_r|constructor].
  - by eapply createRoom_outbox.
  - exists []. split; [by rewrite app_nil_r|constructor].
Qed.

Lemma on_message_outbox ws body rid now w w' :
  on_message ws body rid now w = (Done, w') →
  ∃ out, outbox w' = outbox w ++ out ∧ sends_to_open w out.
Proof.
  unfold on_message. destruct body as [msg|]; cycle 1.
  { intros [= <-]. exists []. split; [by rewrite app_nil_r|constructor]. }
  destruct (clients w !! ws) as [c|] eqn:Hc; cycle 1.
  { intros [= <-]. exists []. split; [by rewrite app_nil_r|constructor]. }
  intros Hrun.
  assert (G : (if is_type "join" (get_prop "type" msg) then on_join ws c msg rid now w
               else if is_type "input" (get_prop "type" msg) then (Done, on_relay ws c "input" msg w)
               else if is_type "init" (get_prop "type" msg) then (Done, on_relay ws c "init" msg w)
               else if is_type "snapshot" (get_prop "type" msg)
                    then (Done, on_relay ws c "snapshot" msg w)
               else (Done, w)) = (Done, w'))
    by (by destruct msg).
  clear Hrun. destruct (is_type "join" _) eqn:Ej.
  - destruct (join_fields msg) as [f|] eqn:Ef; cycle 1.
    { pose proof (on_join_throws ws c msg rid now w Ef) as Hth. by rewrite G in Hth. }
    rewrite (on_join_unfold _ _ _ f) in G by done.
    destruct (maybeStart_outbox _ _ _ _ _ _ G) as (out & Ho & Hout).
    eexists. split.
    + rewrite Ho. unfold after_enqueue. cbn [outbox emit]. rewrite <- app_assoc. reflexivity.
    + apply sends_to_open_app; [by apply deliveries_to_open|].
      by apply (sends_to_open_same (after_enqueue ws c f w)).
  - assert (Hrelay : ∀ type, (Done, on_relay ws c type msg w) = (Done, w') →
              ∃ out, outbox w' = outbox w ++ out ∧ sends_to_open w out).
    { intros type [= <-]. destruct (on_relay_out ws c type msg w) as (out & -> & Hout).
      by exists out. }
    destruct (is_type "input" _); [by eapply Hrelay|].
    destruct (is_type "init" _); [by eapply Hrelay|].
    destruct (is_type "snapshot" _); [by eapply Hrelay|].
    injection G as <-. exists []. split; [by rewrite app_nil_r|constructor].
Qed.

Lemma cleanup_outbox ws w :
  ∃ out, outbox (cleanup ws w) = outbox w ++ out ∧
    ∀ x, x ∈ out → ∃ s, x = (s, disconnect_notice) ∧ s ≠ ws ∧ is_open w s = true.
Proof.
  assert (Hnil : ∃ out, outbox w = outbox w ++ out ∧
    ∀ x, x ∈ out → ∃ s, x = (s, disconnect_notice) ∧ s ≠ ws ∧ is_open w s = true).
  { exists []. split; [by rewrite app_nil_r|]. by intros x ?%not_elem_of_nil. }
  unfold cleanup. destruct (clients w !! ws) as [c|]; [|done].
  destruct (leave_queue_frame ws c w) as (_ & Lr & Ls & Lo & _).
  cbn [outbox set_clients]. unfold close_room.
  destruct (c_roomId c) as [rid|]; [|by rewrite Lo].
  destruct (str_truthy rid); [|by rewrite Lo].
  destruct (rooms (leave_queue ws c w) !! rid) as [room|]; [|by rewrite Lo].
  destruct (close_loop ws (sockets room) (leave_queue ws c w))
    as (_ & _ & _ & _ & _ & _ & out & Ko & Kout).
  cbn [outbox set_rooms]. exists out. split; [by rewrite Ko, Lo|].
  intros x (s & -> & _ & Hne & Ho)%Kout. exists s. split; [done|]. split; [done|].
  by rewrite <- (is_open_same (leave_queue ws c w) w).
Qed.

Lemma cleanup_to_open ws st w :
  ∃ out, outbox (cleanup ws (set_socks (<[ws := st]>) w)) = outbox w ++ out ∧
    sends_to_open w out.
Proof.
  destruct (cleanup_outbox ws (set_socks (<[ws := st]>) w)) as (out & Ho & Hout).
  exists out. split; [exact Ho|]. apply Forall_forall.
  intros x (s & -> & Hne & Hopen)%Hout. split; [|done]. simpl.
  unfold is_open in *. cbn [socks set_socks] in Hopen.
  by rewrite lookup_insert_ne in Hopen.
Qed.

Lemma on_timer_outbox mode tier rid w w' :
  on_timer mode tier rid w = (Done, w') →
  ∃ out, outbox w' = outbox w ++ out ∧ sends_to_open w out.
Proof.
  unfold on_timer. destruct (waiting w !! _) as [b|];
    [|intros [= <-]; exists []; split; [by rewrite app_nil_r|constructor]].
  cbn zeta. destruct (_ <=? _);
    [|intros [= <-]; exists []; split; [by rewrite app_nil_r|constructor]].
  intros (out & Ho & Hout)%createRoom_outbox. by exists out.
Qed.

(** What a step sends. *)
Lemma exec_outbox e w w' :
  exec e w = Some w' →
  ∃ out, outbox w' = outbox w ++ out ∧
    match e with
    | Connect ws id => out = [(ws, Welcome id)]
    | _ => sends_to_open w out
    end.
Proof.
  intros [Hen Hrun]%exec_inv.
  destruct e as [ws id|ws body rid now|ws|ws|h rid]; simpl in Hrun, Hen.
  - injection Hrun as <-. unfold on_connection. rewrite send_emit.
    eexists. split; [reflexivity|]. unfold is_open. cbn [socks set_clients set_socks].
    by rewrite lookup_insert_eq.
  - by eapply on_message_outbox.
  - injection Hrun as <-. apply cleanup_to_open.
  - injection Hrun as <-. apply cleanup_to_open.
  - destruct (timers w !! h) as [t|];
      [|injection Hrun as <-; exists []; split; [by rewrite app_nil_r|constructor]].
    destruct (on_timer_outbox _ _ _ _ _ Hrun) as (out & Ho & Hout). by exists out.
Qed.

Lemma filter_none {A} (P : A → Prop) `{∀ x, Decision (P x)} (l : list A) :
  (∀ x, x ∈ l → ¬ P x) → filter P l = [].
Proof.
  induction l as [|a l IH]; intros Hl; [done|].
  rewrite filter_cons_False by (apply Hl, elem_of_cons; auto).
  apply IH. intros x Hx. apply Hl, elem_of_cons. auto.
Qed.

Lemma received_app w w' out s :
  outbox w' = outbox w ++ out →
  received w' s = received w s ++ (snd <$> filter (λ x, x.1 = s) out).
Proof. intros H. unfold received. by rewrite H, filter_app, fmap_app. Qed.

Lemma exec_outbox_other e w w' :
  (∀ ws id, e ≠ Connect ws id) → exec e w = Some w' →
  ∃ out, outbox w' = outbox w ++ out ∧ sends_to_open w out.
Proof.
  intros He Hstep. destruct (exec_outbox e w w' Hstep) as (out & Ho & Hout).
  exists out. split; [done|]. destruct e; [by destruct (He ws id)|done..].
Qed.

Lemma welcomed_step e w w' s :
  exec e w = Some w' → welcomed w s → welcomed w' s.
Proof.
  intros Hstep Hw. unfold welcomed in *.
  assert (Hcases : (∃ ws id, e = Connect ws id) ∨ ∀ ws id, e ≠ Connect ws id)
    by (destruct e; eauto).
  destruct Hcases as [(ws & id & ->)|He].
  - apply exec_inv in Hstep as [Hen Hrun]. simpl in Hen, Hrun.
    apply bool_decide_eq_true in Hen. injection Hrun as <-.
    unfold on_connection, received. rewrite send_emit. unfold is_open.
    cbn [socks clients outbox emit set_clients set_socks]. rewrite lookup_insert_eq.
    rewrite filter_app, fmap_app. fold (received w s).
    destruct (decide (ws = s)) as [->|Hne].
    + rewrite !lookup_insert_eq. rewrite Hen in Hw. rewrite Hw.
      rewrite filter_cons_True by done. exists id, []. split; [done|].
      split; [constructor|]. by intros c [= <-].
    + rewrite !lookup_insert_ne by done. rewrite filter_cons_False by done.
      cbn [filter list_filter fmap list_fmap]. by rewrite app_nil_r.
  - destruct (exec_outbox_other e w w' He Hstep) as (out & Ho & Hout).
    rewrite (received_app w w' out s Ho).
    assert (Hnew : Forall (λ m, is_welcome m = false) (snd <$> filter (λ x, x.1 = s) out)).
    { apply Forall_fmap, Forall_forall. intros x [_ Hx]%list_elem_of_filter.
      by apply (proj1 (Forall_forall _ _) Hout x Hx). }
    destruct (socks w !! s) as [st|] eqn:Hs.
    + destruct (exec_known e w w' s Hstep) as [st' ->]; [by eexists|].
      destruct Hw as (id & rest & -> & Hrest & Hid). exists id, (rest ++ (snd <$> filter (λ x, x.1 = s) out)).
      split; [done|]. split; [by apply Forall_app|].
      intros c' Hc'.
      destruct (exec_session_after e w w' s c' Hstep Hc') as [(id' & -> & _)|(c0 & Hc0 & Hcase)];
        [by destruct (He s id')|].
      rewrite <- (Hid c0 Hc0).
      destruct Hcase as [->|[[rid ->]|(msg & f & rid & now & _ & _ & [->| ->])]]; done.
    + assert (Hnone : filter (λ x, x.1 = s) out = []).
      { apply filter_none. intros x Hx E.
        destruct (proj1 (Forall_forall _ _) Hout x Hx) as [Hopen _].
        apply is_open_Open in Hopen. congruence. }
      rewrite Hnone, Hw. cbn [fmap list_fmap app].
      destruct (exec_socks e w w' s Hstep)
        as [E|[[E _]|[(_ & _ & id & ->)|[(E & _)|(E & _)]]]].
      * by rewrite E, Hs.
      * congruence.
      * by destruct (He s id).
      * unfold alive in E. by rewrite Hs in E.
      * unfold alive in E. by rewrite Hs in E.
Qed.

Lemma reachable_welcomed w s : reachable w → welcomed w s.
Proof.
  induction 1 as [|w e w' _ IH Hstep].
  - unfold welcomed. cbn [socks world0]. by rewrite lookup_empty.
  - by eapply welcomed_step.
Qed.

(** ** Rosters *)

Lemma player_of_fields c :
  p_id (player_of c) = c_id c ∧ p_tankName (player_of c) = c_tankName c ∧
  p_username (player_of c) = c_username c.
Proof. unfold player_of. simpl. by destruct (c_username c). Qed.

Lemma players_of_Forall2 cl S ps :
  players_of cl S = Some ps →
  Forall2 (λ s p, ∃ c, cl !! s = Some c ∧ p = player_of c) S ps.
Proof.
  intros H%mapM_Some_1. eapply Forall2_impl; [exact H|].
  intros s p (c & Hc & ->)%fmap_Some. eauto.
Qed.

(** A room found after [createRoomFromQueue] was there before, or has the
    roster of the sessions of its members. *)
Lemma createRoom_rooms mode tier n rid w w' rid' room :
  createRoomFromQueue mode tier n rid w = (Done, w') →
  rooms w' !! rid' = Some room →
  rooms w !! rid' = Some room ∨
  players_of (clients w) (sockets room) = Some (players room).
Proof.
  intros Hrun. destruct (waiting w !! keyOf mode tier) as [b|] eqn:Hb; cycle 1.
  { rewrite createRoom_absent in Hrun by (by left). injection Hrun as <-. auto. }
  destruct (decide (n = 0)) as [->|Hn].
  { rewrite createRoom_absent in Hrun by (by right). injection Hrun as <-. auto. }
  destruct (createRoom_done _ _ _ _ _ _ _ Hb Hn Hrun) as [ps M].
  destruct M as [Mp _ _ Mr _ _ _ _]. rewrite Mr.
  destruct (decide (rid = rid')) as [<-|Hne].
  - rewrite lookup_insert_eq. intros [= <-]. by right.
  - rewrite lookup_insert_ne by done. auto.
Qed.

Lemma maybeStart_rooms mode tier rid now w w' rid' room :
  maybeStart mode tier rid now w = (Done, w') →
  rooms w' !! rid' = Some room →
  rooms w !! rid' = Some room ∨
  players_of (clients w) (sockets room) = Some (players room).
Proof.
  intros Hrun.
  destruct (maybeStart_cases _ _ _ _ _ _ Hrun) as [->|[[n Hn]|(b & Hb & Ht & ->)]];
    [auto | exact (createRoom_rooms _ _ _ _ _ _ _ _ Hn) | auto].
Qed.

Lemma on_timer_rooms mode tier rid w w' rid' room :
  on_timer mode tier rid w = (Done, w') →
  rooms w' !! rid' = Some room →
  rooms w !! rid' = Some room ∨
  players_of (clients w) (sockets room) = Some (players room).
Proof.
  unfold on_timer. destruct (waiting w !! _) as [b|]; [|intros [= <-]; auto].
  cbn zeta. destruct (_ <=? _); [|intros [= <-]; auto].
  intros H. exact (createRoom_rooms _ _ _ _ _ _ rid' room H).
Qed.

(** ** User names *)

Lemma players_of_short cl S ps :
  (∀ s c, cl !! s = Some c → String.length (c_username c) ≤ 16) →
  players_of cl S = Some ps →
  ∀ p, p ∈ ps → String.length (p_username p) ≤ 16.
Proof.
  intros Hcl H%players_of_Forall2 p Hp.
  apply list_elem_of_lookup in Hp as [i Hi].
  destruct (Forall2_lookup_r _ _ _ _ _ H Hi) as (s & _ & c & Hc & ->).
  destruct (player_of_fields c) as (_ & _ & ->). eauto.
Qed.

Lemma usernames_short_step e w w' :
  usernames_short w → exec e w = Some w' → usernames_short w'.
Proof.
  intros [U1 U2] Hstep.
  assert (U1' : ∀ s c, clients w' !! s = Some c → String.length (c_username c) ≤ 16).
  { intros s c' Hc'.
    destruct (exec_session_after e w w' s c' Hstep Hc')
      as [(id & _ & ->)|(c0 & Hc0 & [->|[[rid ->]|(msg & f & rid & now & _ & Hf & [->| ->])]])];
      simpl; eauto using join_username_short. lia. }
  split; [exact U1'|]. intros rid' room p Hroom Hp.
  assert (Hold : rooms w !! rid' = Some room → String.length (p_username p) ≤ 16)
    by (intros H; by apply (U2 rid' room)).
  apply exec_inv in Hstep as [Hen Hrun].
  destruct e as [ws id|ws body rid now|ws|ws|h rid]; simpl in Hrun.
  - injection Hrun as <-. apply Hold. unfold on_connection in Hroom.
    by rewrite send_emit in Hroom.
  - destruct (on_message_cases _ _ _ _ _ _ Hrun)
      as [[out ->]|(c & msg & f & -> & Hc & _ & Hf & H)]; [by apply Hold|].
    destruct (maybeStart_rooms _ _ _ _ _ _ rid' room H Hroom) as [Hr|Hps]; [by apply Hold|].
    eapply players_of_short; [|exact Hps|exact Hp].
    intros s c0. destruct (after_enqueue_effect ws c f w) as (-> & _).
    destruct (decide (ws = s)) as [->|Hne].
    + rewrite lookup_insert_eq. intros [= <-]. simpl. by eapply join_username_short.
    + rewrite lookup_insert_ne by done. apply U1.
  - injection Hrun as <-. apply Hold. eapply lookup_weaken; [exact Hroom|].
    apply (cleanup_rooms ws (set_socks _ w)).
  - injection Hrun as <-. apply Hold. eapply lookup_weaken; [exact Hroom|].
    apply (cleanup_rooms ws (set_socks _ w)).
  - destruct (timers w !! h) as [t|]; [|injection Hrun as <-; by apply Hold].
    destruct (on_timer_rooms _ _ _ _ _ rid' room Hrun Hroom) as [Hr|Hps]; [by apply Hold|].
    eapply players_of_short; [|exact Hps|exact Hp]. exact U1.
Qed.

Lemma reachable_usernames_short w : reachable w → usernames_short w.
Proof.
  induction 1 as [|w e w' _ IH Hstep].
  - split.
    + intros s c H. cbn [clients world0] in H. by rewrite lookup_empty in H.
    + intros rid room p H. cbn [rooms world0] in H. by rewrite lookup_empty in H.
  - by eapply usernames_short_step.
Qed.

(** ** Steps that return *)

Lemma all_registered_take w k b n :
  all_registered w → waiting w !! k = Some b →
  Forall (registered (clients w)) (take n (queue b)).
Proof.
  intros H Hb. apply Forall_forall. intros s Hs. apply H.
  exists k, (queue b). unfold queue_at. rewrite Hb. split; [done|].
  by apply (subseteq_take n).
Qed.

Lemma maybeStart_total mode tier rid now w :
  all_registered w → ∃ w', maybeStart mode tier rid now w = (Done, w').
Proof.
  intros H. destruct (waiting w !! keyOf mode tier) as [b|] eqn:Hb; cycle 1.
  { exists w. by apply maybeStart_absent. }
  destruct (decide (needExact mode = 0)) as [HN|HN].
  - rewrite (maybeStart_variable _ _ _ _ _ _ Hb HN).
    destruct (decide _); [|destruct (decide _); eauto].
    eapply createRoom_total; [exact Hb|]. by eapply all_registered_take.
  - rewrite (maybeStart_exact _ _ _ _ _ _ Hb HN).
    destruct (decide _); [|eauto].
    eapply createRoom_total; [exact Hb|]. by eapply all_registered_take.
Qed.

Lemma all_registered_enqueue ws c f w :
  all_registered w → clients w !! ws = Some c →
  all_registered (after_enqueue ws c f w).
Proof.
  intros H Hc. destruct (after_enqueue_effect ws c f w) as (Ec & _ & _ & Eq).
  intros s (k & q & Hq & Hs). unfold registered. rewrite Ec.
  rewrite Eq in Hq. case_decide as E.
  - injection Hq as <-. apply elem_of_enqueue in Hs as [Hs| ->];
      [|by rewrite lookup_insert_eq].
    apply registered_insert, H.
    destruct (queue_at w _) as [q0|] eqn:E0; simpl in Hs;
      [by eexists _, q0|by apply not_elem_of_nil in Hs].
  - apply registered_insert, H. by exists k, q.
Qed.

Lemma on_timer_total mode tier rid w :
  all_registered w → ∃ w', on_timer mode tier rid w = (Done, w').
Proof.
  intros H. destruct (waiting w !! keyOf mode tier) as [b|] eqn:Hb; cycle 1.
  { exists w. unfold on_timer. by rewrite Hb. }
  rewrite (on_timer_unfold _ _ _ _ b Hb). cbn zeta.
  destruct (decide _); [|eauto].
  eapply createRoom_total; [apply lookup_insert_eq|].
  cbn [queue with_timer]. by eapply (all_registered_take w).
Qed.

Lemma on_message_total ws body rid now w :
  all_registered w → convertible (Message ws body rid now) →
  ∃ w', on_message ws body rid now w = (Done, w').
Proof.
  intros Hreg Hconv. unfold on_message. destruct body as [msg|]; [|eauto].
  destruct (clients w !! ws) as [c|] eqn:Hc; [|eauto].
  destruct Hconv as [Hnull Hjoin].
  assert (G : ∃ w', (if is_type "join" (get_prop "type" msg) then on_join ws c msg rid now w
             else if is_type "input" (get_prop "type" msg) then (Done, on_relay ws c "input" msg w)
             else if is_type "init" (get_prop "type" msg) then (Done, on_relay ws c "init" msg w)
             else if is_type "snapshot" (get_prop "type" msg)
                  then (Done, on_relay ws c "snapshot" msg w)
             else (Done, w)) = (Done, w')).
  { destruct (is_type "join" _).
    - destruct (Hjoin eq_refl) as [f Hf].
      rewrite (on_join_unfold _ _ _ f) by done.
      by apply maybeStart_total, all_registered_enqueue.
    - destruct (is_type "input" _); [eauto|].
      destruct (is_type "init" _); [eauto|].
      destruct (is_type "snapshot" _); eauto. }
  by destruct msg.
Qed.

Lemma exec_total e w :
  all_registered w → convertible e → enabled e w = true →
  ∃ w', exec e w = Some w'.
Proof.
  intros Hreg Hconv Hen. unfold exec. rewrite Hen.
  destruct e as [ws id|ws body rid now|ws|ws|h rid]; cbn [handle]; eauto.
  - destruct (on_message_total ws body rid now w Hreg Hconv) as [w' ->]. eauto.
  - destruct (timers w !! h) as [t|]; [|eauto].
    destruct (on_timer_total (t_mode t) (t_tier t) rid (set_timers (delete h) w))
      as [w' ->]; [|eauto].
    intros s Hs. by apply Hreg.
Qed.

(** X10. In a state in which every queued socket has its session, and so in
    every state reached without close and error events, no callback throws
    on an event the runtime can deliver whose message, if any, is not [null]
    and, for a join, has fields that [Number] and [String] convert. *)
Theorem handled_without_throw e w :
  all_registered w ∨ connected_run w →
  convertible e → enabled e w = true →
  ∃ w', exec e w = Some w'.
Proof.
  intros Hw Hconv Hen. apply exec_total; [|done..].
  destruct Hw as [?|?]; [done|]. by apply connected_run_registered.
Qed.

(** ** Messages that change nothing *)

Lemma is_type_other name (type : option (@json num)) :
  (∀ ty, type = Some (JStr ty) → ty ≠ name) → is_type name type = false.
Proof.
  intros H. unfold is_type. destruct type as [[]|]; try done.
  apply String.eqb_neq. by apply H.
Qed.

(** X11. The message handler returns without any effect on a text that is
    not JSON, on a message of a socket without session, on a value other
    than [null] whose type is none of join, input, init and snapshot (a
    number, a string, an array, an object without type), and on an input,
    init or snapshot of a sender that has no room reference. *)
Theorem ignored_messages ws body rid now w :
  body = None ∨ clients w !! ws = None ∨
  (∃ msg, body = Some msg ∧ msg ≠ JNull ∧
     ∀ ty, get_prop "type" msg = Some (JStr ty) →
       ty ≠ "join" ∧ ty ≠ "input" ∧ ty ≠ "init" ∧ ty ≠ "snapshot") ∨
  (∃ msg c ty, body = Some msg ∧ clients w !! ws = Some c ∧
     get_prop "type" msg = Some (JStr ty) ∧
     (ty = "input" ∨ ty = "init" ∨ ty = "snapshot") ∧
     (c_roomId c = None ∨ c_roomId c = Some "")) →
  on_message ws body rid now w = (Done, w).
Proof.
  intros [->|[Hc|[(msg & -> & Hnull & Hty)|(msg & c & ty & -> & Hc & Hty & Hrel & Hroom)]]].
  - done.
  - unfold on_message. destruct body; [|done]. by rewrite Hc.
  - unfold on_message. destruct (clients w !! ws) as [c|]; [|done].
    rewrite !is_type_other by (intros ty Hty0; by destruct (Hty ty Hty0) as (? & ? & ? & ?)).
    by destruct msg.
  - rewrite (on_message_relay ws c msg ty) by done. f_equal.
    unfold on_relay. by destruct Hroom as [-> | ->].
Qed.

(** ** The registries in reachable states *)

(** X12. In every reachable state no bucket has an empty queue and no queue
    lists a socket twice. *)
Theorem buckets_nonempty_distinct w k b :
  reachable w → waiting w !! k = Some b →
  queue b ≠ [] ∧ NoDup (queue b).
Proof.
  intros Hw Hb. apply reachable_wf_shape in Hw as [S1 S2 _ _].
  assert (Hq : queue_at w k = Some (queue b)) by (unfold queue_at; by rewrite Hb).
  split; [by apply (S1 k) | by apply (S2 k)].
Qed.

(** X13. In every reachable state every pending timer is a window of 6500 ms
    armed for an ONLINEPVP bucket; that bucket exists, has the timer as its
    [timer] and is not empty. *)
Theorem pending_timers_pvp w h t :
  reachable w → timers w !! h = Some t →
  t_mode t = "ONLINEPVP" ∧ t_delay t = 6500%Z ∧
  ∃ b, waiting w !! keyOf "ONLINEPVP" (t_tier t) = Some b ∧
       timer b = Some h ∧ queue b ≠ [].
Proof.
  intros Hw Hh. pose proof (reachable_wf_shape w Hw) as [S1 _ S3 _].
  pose proof (reachable_timers_ok w Hw) as [T1 _ _].
  destruct (S3 h t Hh) as [Hmode Hdelay]. split; [done|]. split; [done|].
  destruct (T1 h t Hh) as (b & Hb & Hbt). unfold key_of_timer in Hb.
  rewrite Hmode in Hb. exists b. split; [done|]. split; [done|].
  apply (S1 (keyOf "ONLINEPVP" (t_tier t))). unfold queue_at. by rewrite Hb.
Qed.

Lemma bounds_supported mode n :
  needMin mode ≤ n ≤ maxPlayers mode →
  (mode = "ONLINE1V1" ∧ n = 2) ∨ (mode = "ONLINE2V2" ∧ n = 4) ∨
  (mode = "ONLINEPVP" ∧ 2 ≤ n ≤ 6).
Proof.
  unfold needMin, maxPlayers, needExact.
  destruct (String.eqb_spec mode "ONLINEPVP") as [->|H1];
    [cbn; intros; right; right; by split|].
  destruct (String.eqb_spec mode "ONLINE1V1") as [->|H2];
    [cbn; intros; left; split; [done|lia]|].
  destruct (String.eqb_spec mode "ONLINE2V2") as [->|H3];
    [cbn; intros; right; left; split; [done|lia]|]. lia.
Qed.

(** X14. In every reachable state every room has a host, who is the first
    of its members; its members are distinct; its roster has one player per
    member; and its size fits its mode: 2 for ONLINE1V1, 4 for ONLINE2V2,
    2 to 6 for ONLINEPVP (no room has another mode). *)
Theorem rooms_well_formed w rid room :
  reachable w → rooms w !! rid = Some room →
  (∃ h, hostWs room = Some h ∧ head (sockets room) = Some h) ∧
  NoDup (sockets room) ∧
  length (players room) = length (sockets room) ∧
  ((r_mode room = "ONLINE1V1" ∧ length (sockets room) = 2) ∨
   (r_mode room = "ONLINE2V2" ∧ length (sockets room) = 4) ∨
   (r_mode room = "ONLINEPVP" ∧ 2 ≤ length (sockets room) ≤ 6)).
Proof.
  intros Hw Hroom. apply reachable_wf_shape in Hw as [_ _ _ S4].
  destruct (S4 rid room Hroom) as [R1 R2 R3 R4].
  pose proof (bounds_supported _ _ R4) as Hsize.
  split; [|done]. rewrite R1. destruct (sockets room) as [|h S]; [|by exists h].
  simpl in Hsize. lia.
Qed.

(** X15. In every reachable state an input, init or snapshot message changes
    nothing but the outbox, and what it sends stays in the room the sender's
    session refers to: every recipient is an open member of that room other
    than the sender; an input goes to the host of the room, with the
    sender's id; an init or snapshot is sent by the host of the room. *)
Theorem relay_stays_in_room ws c msg ty rid now w :
  reachable w → clients w !! ws = Some c →
  get_prop "type" msg = Some (JStr ty) →
  ty = "input" ∨ ty = "init" ∨ ty = "snapshot" →
  ∃ out, on_message ws (Some msg) rid now w = (Done, emit out w) ∧
    ∀ s m, (s, m) ∈ out →
      s ≠ ws ∧ is_open w s = true ∧
      ∃ r room, c_roomId c = Some r ∧ rooms w !! r = Some room ∧ s ∈ sockets room ∧
        (if decide (ty = "input")
         then hostWs room = Some s ∧ m = InputFrom (c_id c) (payload_of msg)
         else hostWs room = Some ws ∧ m = Relayed ty (payload_of msg)).
Proof.
  intros Hw Hc Hty Hrel. rewrite (on_message_relay ws c msg ty) by done.
  assert (Hnil : ∃ out, (Done, w) = (Done, emit out w) ∧
            ∀ s m, (s, m) ∈ out →
      s ≠ ws ∧ is_open w s = true ∧
      ∃ r room, c_roomId c = Some r ∧ rooms w !! r = Some room ∧ s ∈ sockets room ∧
        (if decide (ty = "input")
         then hostWs room = Some s ∧ m = InputFrom (c_id c) (payload_of msg)
         else hostWs room = Some ws ∧ m = Relayed ty (payload_of msg))).
  { exists []. split; [by rewrite emit_nil|]. by intros s m ?%not_elem_of_nil. }
  unfold on_relay. destruct (c_roomId c) as [r|] eqn:Hr; [|done].
  destruct (str_truthy r); [|done].
  destruct (rooms w !! r) as [room|] eqn:Hroom; [|done].
  destruct (rooms_ok w (reachable_wf_shape w Hw) r room Hroom) as [R1 _ _ _].
  destruct (decide (ty = "input")) as [->|Hne].
  - rewrite String.eqb_refl. case_bool_decide as Hh; [|done].
    destruct (hostWs room) as [h|] eqn:Hhost; simpl; [|done]. rewrite send_emit.
    eexists. split; [done|]. intros s m Hin.
    destruct (is_open w h) eqn:Ho; [|by apply not_elem_of_nil in Hin].
    apply list_elem_of_singleton in Hin as [= -> ->].
    split; [congruence|]. split; [done|]. exists r, room.
    repeat split; try done. by apply head_Some_elem_of.
  - rewrite (proj2 (String.eqb_neq _ _) Hne). case_bool_decide as Hh; [|done].
    rewrite relay_loop. eexists. split; [done|]. intros s m Hin.
    unfold deliveries in Hin. apply list_elem_of_fmap in Hin as (s' & [= -> ->] & Hs').
    apply list_elem_of_filter in Hs' as [Ho Hs'].
    apply list_elem_of_filter in Hs' as [Hne' Hs'].
    split; [done|]. split; [by destruct (is_open w s')|]. exists r, room. done.
Qed.

(** X16. The room [createRoomFromQueue] makes has the first sockets of the
    queue as members, the head of the queue as host, and as roster, in
    member order, the id, tank name and user name of the session of each
    member; every open member is sent the match notice with the room id, the
    id of the host's session and that roster. *)
Theorem room_roster mode tier n rid w w' b :
  waiting w !! keyOf mode tier = Some b → n ≠ 0 →
  createRoomFromQueue mode tier n rid w = (Done, w') →
  ∃ room,
    rooms w' !! rid = Some room ∧ sockets room = take n (queue b) ∧
    hostWs room = head (queue b) ∧
    Forall2 (λ s p, ∃ c, clients w !! s = Some c ∧ p_id p = c_id c ∧
                         p_tankName p = c_tankName c ∧ p_username p = c_username c)
            (sockets room) (players room) ∧
    ∀ h, hostWs room = Some h →
      ∃ hc, clients w !! h = Some hc ∧
        ∀ s, s ∈ sockets room → is_open w s = true →
          (s, RoomInfo (Some rid) (Some (c_id hc)) (players room) "Match found!")
            ∈ outbox w'.
Proof.
  intros Hb Hn Hrun. destruct (createRoom_done _ _ _ _ _ _ _ Hb Hn Hrun) as [ps M].
  destruct M as [Mp _ _ Mr _ _ _ Mo]. eexists. split; [by rewrite Mr, lookup_insert_eq|].
  cbn [sockets hostWs players]. split; [done|]. split; [by apply head_take|].
  split.
  - eapply Forall2_impl; [exact (players_of_Forall2 _ _ _ Mp)|].
    intros s p (c & Hc & ->). exists c. split; [done|]. apply player_of_fields.
  - intros h Hh.
    assert (Hreg : registered (clients w) h).
    { eapply (proj1 (Forall_forall _ _)); [apply players_of_registered; eauto|].
      by apply head_Some_elem_of. }
    destruct Hreg as [hc Hhc]. exists hc. split; [done|]. intros s Hs Ho.
    rewrite Mo, Hh. cbn [mbind option_bind]. rewrite Hhc. cbn [fmap option_fmap option_map].
    rewrite !elem_of_app. right; right; left. unfold deliveries, found_msg.
    apply list_elem_of_fmap. exists s. split; [done|].
    apply list_elem_of_filter. by rewrite Ho.
Qed.

(** ** Starts are not left due *)

(** ** Keys *)

Lemma has_bar_app s1 s2 : has_bar (s1 +:+ s2) = has_bar s1 || has_bar s2.
Proof.
  induction s1 as [|a s1 IH]; [done|]. simpl. by rewrite IH, orb_assoc.
Qed.

(** A key is read back in one way when neither the mode nor the string of
    the tier holds the separator. *)
Lemma key_parts (m m' s s' : string) :
  has_bar m = false → has_bar s = false →
  m +:+ "|" +:+ s = m' +:+ "|" +:+ s' → m = m' ∧ s = s'.
Proof.
  revert m'. induction m as [|a m IH]; intros m' Hm Hs E.
  - destruct m' as [|a' m'].
    + change (String "|" s = String "|" s') in E. by injection E as ->.
    + change (String "|" s = String a' (m' +:+ "|" +:+ s')) in E.
      injection E as <- E. rewrite E, has_bar_app in Hs.
      change (has_bar ("|" +:+ s')) with true in Hs. by rewrite orb_true_r in Hs.
  - change (has_bar (String a m)) with (Ascii.eqb a "|" || has_bar m) in Hm.
    apply orb_false_iff in Hm as [Ha Hm]. destruct m' as [|a' m'].
    + change (String a (m +:+ "|" +:+ s) = String "|" s') in E.
      injection E as -> _. done.
    + change (String a (m +:+ "|" +:+ s) = String a' (m' +:+ "|" +:+ s')) in E.
      injection E as <- E. by destruct (IH m' Hm Hs E) as [-> ->].
Qed.

Lemma supported_no_bar mode : supported mode → has_bar mode = false.
Proof. by intros [->|[->| ->]]. Qed.

Lemma supported_start_size mode : supported mode → 2 ≤ start_size mode.
Proof. intros [->|[->| ->]]; vm_compute; lia. Qed.

Section NoBar.

(** The string of a number does not hold the separator of the keys. *)
Hypothesis no_bar : ∀ x : num, has_bar (num_to_string x) = false.

Lemma keyOf_mode mode tier mode' tier' :
  supported mode → keyOf mode tier = keyOf mode' tier' → mode' = mode.
Proof.
  intros Hm E. unfold keyOf in E.
  by destruct (key_parts _ _ _ _ (supported_no_bar mode Hm) (no_bar tier) E).
Qed.

(** ** Buckets from one state to the next *)

Lemma eager_shrink w w' :
  (∀ k b', waiting w' !! k = Some b' →
     ∃ b, waiting w !! k = Some b ∧ length (queue b') ≤ length (queue b) ∧
          timer b' = timer b) →
  eager w → eager w'.
Proof.
  intros H E mode tier b' Hm Hb'. destruct (H _ _ Hb') as (b & Hb & Hlen & Ht).
  destruct (E mode tier b Hm Hb) as [E1 E2]. split; [lia|].
  intros Hpvp Hle. rewrite Ht. apply E2; [done|lia].
Qed.

Lemma leave_queue_buckets ws c w k b' :
  waiting (leave_queue ws c w) !! k = Some b' →
  ∃ b, waiting w !! k = Some b ∧ length (queue b') ≤ length (queue b) ∧
       timer b' = timer b.
Proof.
  unfold leave_queue. destruct (c_mode c) as [m|]; [|by eauto].
  destruct (c_tier c) as [tier|]; [|by eauto]. destruct (str_truthy m); [|by eauto].
  destruct (waiting w !! keyOf m tier) as [b|] eqn:Hb; [|by eauto].
  destruct (filter _ _) as [|x q0] eqn:Hf.
  - assert (Hw : waiting (drop_bucket (keyOf m tier) b w) = delete (keyOf m tier) (waiting w))
      by (unfold drop_bucket; by destruct (timer b)).
    rewrite Hw. intros [_ ?]%lookup_delete_Some. eauto.
  - cbn [waiting set_waiting]. destruct (decide (keyOf m tier = k)) as [<-|Hne].
    + rewrite lookup_insert_eq. intros [= <-]. exists b. split; [done|].
      cbn [queue timer with_queue]. split; [|done]. rewrite <- Hf. apply length_filter.
    + rewrite lookup_insert_ne by done. eauto.
Qed.

Lemma eager_cleanup ws w : eager w → eager (cleanup ws w).
Proof.
  apply eager_shrink. intros k b'. unfold cleanup.
  destruct (clients w !! ws) as [c|]; [|by eauto].
  destruct (close_room_frame ws c (leave_queue ws c w)) as (_ & Hw & _ & _).
  cbn [waiting set_clients]. rewrite Hw. apply leave_queue_buckets.
Qed.

(** A materialization that takes the whole queue removes the bucket, and no
    materialization touches another bucket. *)
Lemma createRoom_waiting mode tier n rid w w' b :
  waiting w !! keyOf mode tier = Some b → n ≠ 0 →
  createRoomFromQueue mode tier n rid w = (Done, w') →
  (length (queue b) ≤ n → waiting w' = delete (keyOf mode tier) (waiting w)) ∧
  (∀ k, k ≠ keyOf mode tier → waiting w' !! k = waiting w !! k).
Proof.
  intros Hb Hn Hrun. destruct (createRoom_done _ _ _ _ _ _ _ Hb Hn Hrun) as [ps M].
  destruct M as [_ _ Mw _ _ _ _ _]. rewrite Mw. split.
  - intros Hle. by rewrite drop_ge.
  - intros k Hk. destruct (drop n (queue b));
      [by rewrite lookup_delete_ne | by rewrite lookup_insert_ne].
Qed.

Lemma eager_join ws c f rid now w w' :
  eager w →
  maybeStart (join_mode f) (join_tier f) rid now (after_enqueue ws c f w) = (Done, w') →
  eager w'.
Proof.
  intros E Hrun mode tier b Hm Hb.
  pose proof (after_enqueue_bucket ws c f w) as Hb1.
  set (w1 := after_enqueue ws c f w) in *.
  destruct (decide (keyOf mode tier = keyOf (join_mode f) (join_tier f))) as [Hk|Hk]; cycle 1.
  { (* a bucket under another key is as it was *)
    apply (E mode tier b Hm). rewrite <- Hb.
    transitivity (waiting w1 !! keyOf mode tier).
    - unfold w1, after_enqueue. cbn [waiting emit set_waiting set_clients].
      by rewrite lookup_insert_ne.
    - symmetry.
      destruct (maybeStart_cases _ _ _ _ _ _ Hrun) as [->|[[n Hn]|(b' & Hb' & Ht & ->)]].
      + done.
      + destruct (decide (n = 0)) as [->|Hn0].
        { rewrite createRoom_absent in Hn by (by right). by injection Hn as <-. }
        by apply (createRoom_waiting _ _ _ _ _ _ _ Hb1 Hn0 Hn).
      + unfold armed. cbn [waiting set_waiting]. by rewrite lookup_insert_ne. }
  assert (Hmode : join_mode f = mode) by (by apply (keyOf_mode mode tier _ (join_tier f))).
  rewrite Hmode in Hrun, Hb1, Hk. rewrite Hk in Hb.
  set (k := keyOf mode (join_tier f)) in *.
  set (b0 := default empty_bucket (waiting w !! k)) in *.
  set (q := enqueue ws (queue b0)) in *.
  (* the bucket before the join *)
  assert (Hpre : below_start mode b0).
  { unfold b0. destruct (waiting w !! k) as [b0'|] eqn:Hb0; simpl.
    - by apply (E mode (join_tier f)).
    - split; [pose proof (supported_start_size mode Hm); simpl; lia|]. simpl. lia. }
  destruct Hpre as [Hlen Hwin].
  assert (Hq : length q ≤ S (length (queue b0))).
  { unfold q, enqueue. case_bool_decide; [lia|]. rewrite length_app. simpl. lia. }
  unfold start_size in Hlen.
  destruct (decide (needExact mode = 0)) as [HN|HN].
  - rewrite HN in Hlen.
    assert (mode = "ONLINEPVP") as -> by (apply maxPlayers_pvp; [done|lia]).
    rewrite (maybeStart_variable _ _ _ _ _ _ Hb1 eq_refl) in Hrun.
    change (maxPlayers "ONLINEPVP") with 6 in *. change (needMin "ONLINEPVP") with 2 in *.
    cbn [queue timer with_queue] in Hrun.
    destruct (decide (6 ≤ length q)) as [Hfull|Hless].
    + destruct (createRoom_waiting _ _ 6 _ _ _ _ Hb1 ltac:(done) Hrun) as [Hdel _].
      rewrite Hdel in Hb by (cbn [queue with_queue]; lia).
      by rewrite lookup_delete_eq in Hb.
    + destruct (decide _) as [[Hmin Ht]|Hno]; injection Hrun as <-.
      * unfold armed in Hb. cbn [waiting set_waiting] in Hb.
        rewrite lookup_insert_eq in Hb. injection Hb as <-.
        unfold below_start. change (start_size "ONLINEPVP") with 6.
        cbn [queue timer with_timer with_queue]. split; [lia|].
        intros _ _. by eexists.
      * rewrite Hb1 in Hb. injection Hb as <-.
        unfold below_start. change (start_size "ONLINEPVP") with 6.
        cbn [queue timer with_queue]. split; [lia|]. intros _ Hle.
        destruct (timer b0) as [h|] eqn:Ht; [by eexists|]. destruct Hno. done.
  - rewrite (maybeStart_exact _ _ _ _ _ _ Hb1 HN) in Hrun.
    cbn [queue with_queue] in Hrun.
    assert (Hstart : start_size mode = needExact mode)
      by (unfold start_size; by destruct (needExact mode)).
    destruct (needExact mode) as [|N] eqn:EN; [done|].
    destruct (decide (S N ≤ length q)) as [Hfull|Hless].
    + destruct (createRoom_waiting _ _ (S N) _ _ _ _ Hb1 ltac:(done) Hrun) as [Hdel _].
      rewrite Hdel in Hb by (cbn [queue with_queue]; lia).
      by rewrite lookup_delete_eq in Hb.
    + injection Hrun as <-. rewrite Hb1 in Hb. injection Hb as <-.
      unfold below_start. cbn [queue timer with_queue]. split; [rewrite Hstart; lia|].
      intros ->. done.
Qed.

Lemma eager_fire h rid w w' t :
  eager w → timers w !! h = Some t → t_mode t = "ONLINEPVP" →
  on_timer (t_mode t) (t_tier t) rid (set_timers (delete h) w) = (Done, w') →
  eager w'.
Proof.
  intros E Hh Hpvp Hrun. rewrite Hpvp in Hrun.
  set (kt := keyOf "ONLINEPVP" (t_tier t)) in *.
  destruct (waiting w !! kt) as [bt|] eqn:Hbt; cycle 1.
  { unfold on_timer in Hrun. cbn [waiting set_timers] in Hrun. fold kt in Hrun.
    rewrite Hbt in Hrun. injection Hrun as <-. exact E. }
  rewrite (on_timer_unfold _ _ _ (set_timers (delete h) w) bt Hbt) in Hrun.
  cbn zeta in Hrun. fold kt in Hrun.
  change (maxPlayers "ONLINEPVP") with 6 in *. change (needMin "ONLINEPVP") with 2 in *.
  destruct (E "ONLINEPVP" (t_tier t) bt ltac:(right; right; done) Hbt) as [Hlen _].
  change (start_size "ONLINEPVP") with 6 in Hlen.
  rewrite Nat.min_r in Hrun by lia.
  set (w1 := set_waiting (<[kt := with_timer None (startedAt bt) bt]>)
               (set_timers (delete h) w)) in *.
  assert (Hb1 : waiting w1 !! kt = Some (with_timer None (startedAt bt) bt))
    by apply lookup_insert_eq.
  intros mode tier b Hm Hb.
  destruct (decide (2 ≤ length (queue bt))) as [Hle|Hlt].
  - assert (Hn : length (queue bt) ≠ 0) by lia.
    destruct (createRoom_waiting _ _ _ _ _ _ _ Hb1 Hn Hrun) as [Hdel _].
    rewrite Hdel in Hb by done.
    apply lookup_delete_Some in Hb as [Hne Hb]. unfold w1 in Hb.
    cbn [waiting set_waiting set_timers] in Hb. rewrite lookup_insert_ne in Hb by done.
    by apply (E mode tier).
  - injection Hrun as <-. unfold w1 in Hb. cbn [waiting set_waiting set_timers] in Hb.
    destruct (decide (kt = keyOf mode tier)) as [Hk|Hk].
    + rewrite <- Hk, lookup_insert_eq in Hb. injection Hb as <-.
      assert (mode = "ONLINEPVP") as ->
        by (apply (keyOf_mode "ONLINEPVP" (t_tier t) mode tier);
              [right; right; done | exact Hk]).
      unfold below_start. cbn [queue timer with_timer]. split; [done|]. intros _ ?. lia.
    + rewrite lookup_insert_ne in Hb by done. by apply (E mode tier).
Qed.

Lemma eager_step e w w' :
  wf_shape w → eager w → exec e w = Some w' → eager w'.
Proof.
  intros S E [_ Hrun]%exec_inv.
  destruct e as [ws id|ws body rid now|ws|ws|h rid]; simpl in Hrun.
  - injection Hrun as <-. unfold on_connection. by rewrite send_emit.
  - destruct (on_message_cases _ _ _ _ _ _ Hrun)
      as [[out ->]|(c & msg & f & _ & _ & _ & _ & H)]; [done|].
    by eapply eager_join.
  - injection Hrun as <-. by apply eager_cleanup.
  - injection Hrun as <-. by apply eager_cleanup.
  - destruct (timers w !! h) as [t|] eqn:Hh; [|by injection Hrun as <-].
    eapply eager_fire; [exact E | exact Hh | | exact Hrun].
    by destruct (timer_pvp w S h t Hh).
Qed.

Lemma reachable_eager w : reachable w → eager w.
Proof.
  induction 1 as [|w e w' Hw IH Hstep].
  - intros mode tier b _ H. cbn [waiting world0] in H. by rewrite lookup_empty in H.
  - eapply eager_step; [|exact IH|exact Hstep]. by apply reachable_wf_shape.
Qed.

End NoBar.

(** X17. In every reachable state the user name of every session and of
    every player of every roster has at most 16 characters. *)
Theorem usernames_bounded w :
  reachable w →
  (∀ s c, clients w !! s = Some c → String.length (c_username c) ≤ 16) ∧
  (∀ rid room p, rooms w !! rid = Some room → p ∈ players room →
     String.length (p_username p) ≤ 16).
Proof.
  intros Hw. destruct (reachable_usernames_short w Hw) as [U1 U2].
  split; [exact U1 | exact U2].
Qed.

(** X18. In every reachable state a socket that has not connected has been
    sent nothing, and what a connected socket has been sent starts with its
    welcome and holds no other welcome; the id of the welcome is the id of
    the session of the socket, as long as it has one. *)
Theorem welcome_first w s :
  reachable w →
  (socks w !! s = None → received w s = []) ∧
  (is_Some (socks w !! s) →
     ∃ id rest, received w s = Welcome id :: rest ∧
       Forall (λ m, is_welcome m = false) rest ∧
       ∀ c, clients w !! s = Some c → c_id c = id).
Proof.
  intros Hw. pose proof (reachable_welcomed w s Hw) as H. unfold welcomed in H.
  destruct (socks w !! s) as [st|].
  - split; [done|]. intros _. exact H.
  - split; [by intros _|]. by intros [? ?].
Qed.

(** X19. When the strings of the numbers do not hold the separator "|", in
    every reachable state no bucket of a supported mode is left with a start
    due: an ONLINE1V1 bucket holds one socket, an ONLINE2V2 bucket one to
    three, an ONLINEPVP bucket one to five, and an ONLINEPVP bucket of two or
    more has its window running (its timer is pending). *)
Theorem eager_matching w mode tier b :
  (∀ x : num, has_bar (num_to_string x) = false) →
  reachable w → waiting w !! keyOf mode tier = Some b →
  (mode = "ONLINE1V1" → length (queue b) = 1) ∧
  (mode = "ONLINE2V2" → 1 ≤ length (queue b) ≤ 3) ∧
  (mode = "ONLINEPVP" →
     1 ≤ length (queue b) ≤ 5 ∧
     (2 ≤ length (queue b) → ∃ h, timer b = Some h ∧ is_Some (timers w !! h))).
Proof.
  intros Hbar Hw Hb.
  assert (Hpos : 1 ≤ length (queue b)).
  { assert (Hne : queue b ≠ []).
    { apply (queue_nonempty w (reachable_wf_shape w Hw) (keyOf mode tier)).
      unfold queue_at. by rewrite Hb. }
    destruct (queue b); [done|simpl; lia]. }
  pose proof (reachable_eager Hbar w Hw mode tier b) as E.
  split; [|split].
  - intros ->. destruct E as [E _]; [by left|done|].
    change (start_size "ONLINE1V1") with 2 in E. lia.
  - intros ->. destruct E as [E _]; [right; by left|done|].
    change (start_size "ONLINE2V2") with 4 in E. lia.
  - intros ->. destruct E as [E1 E2]; [right; by right|done|].
    change (start_size "ONLINEPVP") with 6 in E1. split; [lia|].
    intros Hle. destruct (E2 eq_refl Hle) as [h Hh]. exists h. split; [done|].
    destruct (bucket_timer_pending w (reachable_timers_ok w Hw) _ b h Hb Hh) as (t & Ht & _).
    eauto.
Qed.

(** ** Joins *)

Lemma js_or_primitive (a : option (@json num)) (d : @json num) :
  (∀ v, a = Some v → primitive v) → primitive d → primitive (js_or a d).
Proof.
  intros Ha Hd. unfold js_or. destruct a as [v|]; [|done].
  destruct (js_truthy v); [by apply Ha|done].
Qed.

Lemma js_or_default (a : option (@json num)) (d : @json num) :
  (∀ v, a = Some v → js_truthy v = false) → js_or a d = d.
Proof.
  intros Ha. unfold js_or. destruct a as [v|]; [|done]. by rewrite (Ha v).
Qed.

Lemma primitive_converts (v : @json num) :
  primitive v → is_Some (js_to_string v) ∧ is_Some (js_to_number v).
Proof. destruct v as [|[]| | | |]; simpl; try done; split; eauto. Qed.

(** X20. The conversions of a join return when each of the properties tier,
    tankName, mode and username is absent or is [null], a boolean, a number
    or a string. A tier that is absent or falsy ([js_truthy] false) is read as 1, a
    tank name that is absent or falsy as "Tank", a user name that is absent
    or falsy as the empty string; a user name given as a non-empty string is
    trimmed and cut to its first 16 characters. *)
Theorem join_fields_read msg :
  ((∀ name v, name ∈ ["tier"; "tankName"; "mode"; "username"] →
      get_prop name msg = Some v → primitive v) →
   is_Some (join_fields msg)) ∧
  (∀ f, join_fields msg = Some f →
     ((∀ v, get_prop "tier" msg = Some v → js_truthy v = false) →
        join_tier f = num_of_nat 1) ∧
     ((∀ v, get_prop "tankName" msg = Some v → js_truthy v = false) →
        join_tankName f = "Tank") ∧
     ((∀ v, get_prop "username" msg = Some v → js_truthy v = false) →
        join_username f = "") ∧
     (∀ s, get_prop "username" msg = Some (JStr s) → s ≠ "" →
        join_username f = slice0 16 (trim s))).
Proof.
  split.
  - intros Hprim.
    assert (Hin : ∀ name d, name ∈ ["tier"; "tankName"; "mode"; "username"] →
              primitive d → primitive (js_or (get_prop name msg) d)).
    { intros name d Hname Hd. apply js_or_primitive; [|done].
      intros v Hv. by apply (Hprim name). }
    unfold join_fields.
    destruct (primitive_converts (js_or (get_prop "tier" msg) (JNum (num_of_nat 1))))
      as [_ [x1 ->]]; [apply Hin; [set_solver|done]|].
    destruct (primitive_converts (js_or (get_prop "tankName" msg) (JStr "Tank")))
      as [[x2 ->] _]; [apply Hin; [set_solver|done]|].
    destruct (primitive_converts (js_or (get_prop "mode" msg) (JStr "ONLINEPVP")))
      as [[x3 ->] _]; [apply Hin; [set_solver|done]|].
    destruct (primitive_converts (js_or (get_prop "username" msg) (JStr "")))
      as [[x4 ->] _]; [apply Hin; [set_solver|done]|].
    simpl. eauto.
  - intros f (u & H1 & H2 & _ & H4 & Hu)%join_fields_Some.
    split; [|split; [|split]].
    + intros Hf. rewrite js_or_default in H1 by done. by injection H1.
    + intros Hf. rewrite js_or_default in H2 by done. by injection H2.
    + intros Hf. rewrite js_or_default in H4 by done. injection H4 as <-. by rewrite Hu.
    + intros s Hs Hne. rewrite Hs in H4. unfold js_or in H4. simpl in H4.
      rewrite str_truthy_ne in H4 by done. injection H4 as <-. exact Hu.
Qed.

(** X21. A join that returns first sends the status to every open socket of
    the queue as it is after the sender is added, the sender included, in
    queue order: the length of that queue over the need of the mode, which
    reads 2, 4 and 2-6 for the three supported modes. *)
Theorem join_status ws c msg f rid now w w' :
  clients w !! ws = Some c →
  get_prop "type" msg = Some (JStr "join") →
  join_fields msg = Some f →
  on_message ws (Some msg) rid now w = (Done, w') →
  let mode := join_mode f in
  let q := enqueue ws (default [] (queue_at w (keyOf mode (join_tier f)))) in
  ws ∈ q ∧
  (∃ rest, outbox w' = outbox w
     ++ ((λ s, (s, searching (pretty (length q) +:+ "/" +:+ need_text mode)))
           <$> filter (λ s, is_open w s) q)
     ++ rest) ∧
  need_text "ONLINE1V1" = "2" ∧ need_text "ONLINE2V2" = "4" ∧
  need_text "ONLINEPVP" = "2-6".
Proof.
  intros Hc Hty Hf Hrun mode q.
  split; [apply elem_of_enqueue; by right|]. split; [|by vm_compute].
  rewrite (on_message_join ws c) in Hrun by done.
  rewrite (on_join_unfold _ _ _ f) in Hrun by done.
  destruct (maybeStart_outbox _ _ _ _ _ _ Hrun) as (out & Ho & _).
  exists out. rewrite Ho. unfold after_enqueue. cbn [outbox emit].
  rewrite <- app_assoc. f_equal. f_equal.
  unfold deliveries, status_text, q, queue_at. fold mode.
  by destruct (waiting w !! keyOf mode (join_tier f)).
Qed.

(** ** Runs that leave no queue entry behind *)

Lemma queued_by_session_same w w' :
  clients w' = clients w → (∀ k, queue_at w' k = queue_at w k) →
  queued_by_session w → queued_by_session w'.
Proof. intros Hc Hq K s k q. rewrite Hq, Hc. apply K. Qed.

Lemma queued_by_session_registered w : queued_by_session w → all_registered w.
Proof.
  intros K s (k & q & Hq & Hs). destruct (K s k q Hq Hs) as (c & _ & _ & Hc & _).
  by exists c.
Qed.

Lemma queued_by_session_enqueue ws c f w :
  queued_by_session w → clients w !! ws = Some c → join_mode f ≠ "" →
  (∀ k q, queue_at w k = Some q → ws ∈ q → k = keyOf (join_mode f) (join_tier f)) →
  queued_by_session (after_enqueue ws c f w).
Proof.
  intros K Hc Hmode Honly s k q Hq Hs.
  destruct (after_enqueue_effect ws c f w) as (Ec & _ & _ & Eq).
  rewrite Ec. rewrite Eq in Hq.
  assert (Hws : k = keyOf (join_mode f) (join_tier f) →
    ∃ c0 m tier, <[ws := joined f c]> (clients w) !! ws = Some c0 ∧
      c_mode c0 = Some m ∧ m ≠ "" ∧ c_tier c0 = Some tier ∧ k = keyOf m tier).
  { intros ->. rewrite lookup_insert_eq. eexists _, _, _. repeat split; done. }
  assert (Hold : ∀ q0, queue_at w k = Some q0 → s ∈ q0 →
    ∃ c0 m tier, <[ws := joined f c]> (clients w) !! s = Some c0 ∧
      c_mode c0 = Some m ∧ m ≠ "" ∧ c_tier c0 = Some tier ∧ k = keyOf m tier).
  { intros q0 Hq0 Hs0. destruct (decide (ws = s)) as [<-|Hne].
    - apply Hws. by apply (Honly k q0).
    - rewrite lookup_insert_ne by done. by apply (K s k q0). }
  case_decide as E.
  - injection Hq as <-. apply elem_of_enqueue in Hs as [Hs| ->]; [|by apply Hws].
    destruct (queue_at w (keyOf (join_mode f) (join_tier f))) as [q0|] eqn:E0;
      simpl in Hs; [|by apply not_elem_of_nil in Hs].
    apply (Hold q0); [by rewrite <- E|done].
  - by apply (Hold q).
Qed.

Lemma queued_by_session_materialized mode tier n rid b ps w w' :
  queued_by_session w → waiting w !! keyOf mode tier = Some b →
  materialized mode tier n rid b ps w w' → queued_by_session w'.
Proof.
  intros K Hb M s k q Hq Hs.
  pose proof (materialized_queues _ _ _ _ _ _ _ _ M) as Eq.
  destruct M as [_ Mc _ _ _ _ _ _].
  assert (Hold : ∃ q0, queue_at w k = Some q0 ∧ s ∈ q0).
  { rewrite Eq in Hq. case_decide as E; [|by exists q].
    exists (queue b). unfold queue_at. rewrite <- E, Hb. split; [done|].
    destruct (drop n (queue b)) eqn:Ed; [done|]. injection Hq as <-.
    rewrite <- Ed in Hs. by apply (subseteq_drop n). }
  destruct Hold as (q0 & Hq0 & Hs0).
  destruct (K s k q0 Hq0 Hs0) as (c & m & tier0 & Hc & Hm & Hne & Ht & Hk).
  rewrite Mc, Hc. case_bool_decide; simpl; eexists _, m, tier0; repeat split; done.
Qed.

Lemma createRoom_queued_by_session mode tier n rid w w' :
  queued_by_session w → createRoomFromQueue mode tier n rid w = (Done, w') →
  queued_by_session w'.
Proof.
  intros K Hrun. destruct (waiting w !! keyOf mode tier) as [b|] eqn:Hb; cycle 1.
  { rewrite createRoom_absent in Hrun by (by left). by injection Hrun as <-. }
  destruct (decide (n = 0)) as [->|Hn].
  { rewrite createRoom_absent in Hrun by (by right). by injection Hrun as <-. }
  destruct (createRoom_done _ _ _ _ _ _ _ Hb Hn Hrun) as [ps M].
  by eapply queued_by_session_materialized.
Qed.

Lemma maybeStart_queued_by_session mode tier rid now w w' :
  queued_by_session w → maybeStart mode tier rid now w = (Done, w') →
  queued_by_session w'.
Proof.
  intros K Hrun.
  destruct (maybeStart_cases _ _ _ _ _ _ Hrun) as [->|[[n Hn]|(b & Hb & Ht & ->)]].
  - done.
  - by eapply createRoom_queued_by_session.
  - apply (queued_by_session_same w); [done| |done]. by apply armed_queues.
Qed.

(** [cleanup] takes the socket out of the bucket of its session. *)
Lemma leave_queue_removes ws c w m tier q' :
  c_mode c = Some m → m ≠ "" → c_tier c = Some tier →
  queue_at (leave_queue ws c w) (keyOf m tier) = Some q' → ws ∉ q'.
Proof.
  intros Hm Hne Ht. rewrite (leave_queue_spec ws c w m tier) by done.
  unfold queue_at. destruct (waiting w !! keyOf m tier) as [b|] eqn:Hb.
  - destruct (filter (λ x, x ≠ ws) (queue b)) as [|x q0] eqn:Hf.
    + assert (Hd : waiting (drop_bucket (keyOf m tier) b w) = delete (keyOf m tier) (waiting w))
        by (unfold drop_bucket; by destruct (timer b)).
      by rewrite Hd, lookup_delete_eq.
    + cbn [waiting set_waiting]. rewrite lookup_insert_eq. intros [= <-].
      rewrite <- Hf, list_elem_of_filter. tauto.
  - by rewrite Hb.
Qed.

Lemma queued_by_session_cleanup ws w :
  queued_by_session w → queued_by_session (cleanup ws w).
Proof.
  intros K. destruct (clients w !! ws) as [c|] eqn:Hc; cycle 1.
  { unfold cleanup. by rewrite Hc. }
  destruct (cleanup_effect ws c w Hc) as (Ec & Eq & _).
  intros s k q' Hq' Hs. destruct (Eq k q' Hq') as (q & Hq & Hsub).
  assert (Hs0 : s ∈ q) by (by apply (filter_or_same_sub ws q q')).
  destruct (K s k q Hq Hs0) as (c0 & m & tier & Hc0 & Hm & Hne & Ht & Hk).
  exists c0, m, tier. split; [|done]. rewrite Ec. apply lookup_delete_Some.
  split; [|done]. intros <-. assert (c0 = c) as -> by congruence.
  revert Hq' Hs. unfold cleanup. rewrite Hc. cbn zeta.
  destruct (close_room_frame ws c (leave_queue ws c w)) as (_ & Hw & _ & _).
  unfold queue_at at 1. cbn [waiting set_clients]. rewrite Hw, Hk.
  intros Hq'. by apply (leave_queue_removes ws c w m tier q').
Qed.

Lemma queued_by_session_step e w w' :
  wf_general w → queued_by_session w → tidy e w → exec e w = Some w' →
  queued_by_session w'.
Proof.
  intros G K Ht [Hen Hrun]%exec_inv.
  destruct e as [ws id|ws body rid now|ws|ws|h rid]; simpl in Hrun, Hen, Ht.
  - injection Hrun as <-. unfold on_connection. rewrite send_emit.
    apply bool_decide_eq_true in Hen.
    intros s k q Hq Hs. cbn [clients emit set_clients set_socks].
    destruct (K s k q Hq Hs) as (c & m & tier & Hc & H).
    exists c, m, tier. split; [|done]. rewrite lookup_insert_ne; [done|]. intros <-.
    destruct (queued_known w G ws) as [x Hx]; [by exists k, q|congruence].
  - destruct (on_message_cases _ _ _ _ _ _ Hrun)
      as [[out ->]|(c & msg & f & -> & Hc & Hj & Hf & H)]; [done|].
    destruct (Ht Hj f Hf) as [Hmode Honly].
    eapply maybeStart_queued_by_session; [|exact H].
    by apply queued_by_session_enqueue.
  - injection Hrun as <-. apply queued_by_session_cleanup.
    by apply (queued_by_session_same w).
  - injection Hrun as <-. apply queued_by_session_cleanup.
    by apply (queued_by_session_same w).
  - destruct (timers w !! h) as [t|] eqn:Hh; [|by injection Hrun as <-].
    destruct (waiting w !! keyOf (t_mode t) (t_tier t)) as [b|] eqn:Hb; cycle 1.
    { unfold on_timer in Hrun. simpl in Hrun. rewrite Hb in Hrun. injection Hrun as <-.
      by apply (queued_by_session_same w). }
    rewrite (on_timer_unfold _ _ _ (set_timers (delete h) w) b Hb) in Hrun.
    cbn zeta in Hrun.
    assert (K1 : queued_by_session (set_waiting
        (<[keyOf (t_mode t) (t_tier t) := with_timer None (startedAt b) b]>)
        (set_timers (delete h) w))).
    { apply (queued_by_session_same w); [done| |done].
      by apply (queue_at_retimed w _ (keyOf (t_mode t) (t_tier t)) b
                  (with_timer None (startedAt b) b) Hb). }
    destruct (decide _); [by eapply createRoom_queued_by_session|]. by injection Hrun as <-.
Qed.

Lemma tidy_run_reachable w : tidy_run w → reachable w.
Proof. induction 1; [constructor|by eapply reach_step]. Qed.

Lemma tidy_run_queued w : tidy_run w → queued_by_session w.
Proof.
  induction 1 as [|w e w' Hw IH Ht Hstep].
  - intros s k q H. unfold queue_at in H. cbn [waiting world0] in H.
    by rewrite lookup_empty in H.
  - eapply queued_by_session_step; eauto.
    by apply reachable_wf_general, tidy_run_reachable.
Qed.

(** X22. In a run in which no socket joins while it is queued in another
    bucket and no join has the empty string as mode, every queued socket has
    its session, also after close and error events, and no callback throws
    on an event the runtime can deliver whose message, if any, is not [null]
    and, for a join, has fields that convert. *)
Theorem tidy_runs_keep_sessions w :
  tidy_run w →
  (∀ s, queued w s → registered (clients w) s) ∧
  (∀ e, convertible e → enabled e w = true → ∃ w', exec e w = Some w').
Proof.
  intros Hw. pose proof (queued_by_session_registered w (tidy_run_queued w Hw)) as Hreg.
  split; [exact Hreg|]. intros e Hconv Hen. by apply exec_total.
Qed.

(** ** The life of rooms and sockets *)

(** X23. [createRoomFromQueue] throws exactly when the bucket exists, the
    number to take is not 0 and one of the sockets it takes has no session
    (line 108 reads [cc.id] of [undefined]); in every other case it
    returns. *)
Theorem materialization_throws_iff mode tier n rid w :
  (createRoomFromQueue mode tier n rid w).1 = Threw ↔
  ∃ b s, waiting w !! keyOf mode tier = Some b ∧ n ≠ 0 ∧
         s ∈ take n (queue b) ∧ clients w !! s = None.
Proof.
  split.
  - intros Hthrow.
    destruct (waiting w !! keyOf mode tier) as [b|] eqn:Hb; cycle 1.
    { by rewrite createRoom_absent in Hthrow by (by left). }
    destruct (decide (n = 0)) as [->|Hn].
    { by rewrite createRoom_absent in Hthrow by (by right). }
    destruct (decide (Forall (registered (clients w)) (take n (queue b)))) as [Hreg|Hno].
    { destruct (createRoom_total mode tier n rid w b Hb Hreg) as [w' Hw'].
      by rewrite Hw' in Hthrow. }
    apply not_Forall_Exists in Hno; [|apply _].
    apply Exists_exists in Hno as (s & Hs & Hnone). exists b, s.
    split; [done|]. split; [done|]. split; [done|]. unfold registered in Hnone.
    destruct (clients w !! s) as [x|] eqn:E; [|done]. destruct Hnone. by exists x.
  - intros (b & s & Hb & Hn & Hs & Hnone).
    destruct (createRoom_unfold mode tier n rid w b Hb Hn)
      as (w1 & _ & _ & _ & _ & _ & _ & _ & ->).
    destruct (players_of (clients w) (take n (queue b))) as [ps|] eqn:Hps; [|done].
    assert (Hreg : Forall (registered (clients w)) (take n (queue b)))
      by (apply players_of_registered; eauto).
    destruct (proj1 (Forall_forall _ _) Hreg s Hs) as [x Hx]. congruence.
Qed.

(** The rooms after [cleanup]. *)
Lemma cleanup_rooms_exact ws w :
  rooms (cleanup ws w) = rooms w ∨
  ∃ c rid, clients w !! ws = Some c ∧ c_roomId c = Some rid ∧
           rooms (cleanup ws w) = delete rid (rooms w).
Proof.
  unfold cleanup. destruct (clients w !! ws) as [c|] eqn:Hc; [|by left].
  destruct (leave_queue_frame ws c w) as (_ & Lr & _ & _ & _).
  cbn [rooms set_clients]. unfold close_room.
  destruct (c_roomId c) as [rid|] eqn:Hr; [|left; by rewrite Lr].
  destruct (str_truthy rid); [|left; by rewrite Lr].
  destruct (rooms (leave_queue ws c w) !! rid) as [room|]; [|left; by rewrite Lr].
  destruct (close_loop ws (sockets room) (leave_queue ws c w)) as (_ & _ & Kr & _).
  right. exists c, rid. split; [done|]. split; [done|].
  cbn [rooms set_rooms]. by rewrite Kr, Lr.
Qed.

Lemma createRoom_rooms_exact mode tier n rid w w' :
  createRoomFromQueue mode tier n rid w = (Done, w') →
  rooms w' = rooms w ∨ ∃ room, rooms w' = <[rid := room]> (rooms w).
Proof.
  intros Hrun. destruct (waiting w !! keyOf mode tier) as [b|] eqn:Hb; cycle 1.
  { rewrite createRoom_absent in Hrun by (by left). injection Hrun as <-. auto. }
  destruct (decide (n = 0)) as [->|Hn].
  { rewrite createRoom_absent in Hrun by (by right). injection Hrun as <-. auto. }
  destruct (createRoom_done _ _ _ _ _ _ _ Hb Hn Hrun) as [ps M].
  destruct M as [_ _ _ Mr _ _ _ _]. right. eauto.
Qed.

(** X24. A step leaves a room as it is, or deletes it, or replaces it when
    [uid()] has returned the id of the room again: no step adds or removes a
    member of a room or changes its host. A room is deleted only on the close
    or error event of a socket whose session refers to it. *)
Theorem rooms_never_change e w w' rid room :
  exec e w = Some w' → rooms w !! rid = Some room →
  (rooms w' !! rid = Some room ∨ rooms w' !! rid = None ∨ room_id_of e = Some rid) ∧
  (rooms w' !! rid = None →
     ∃ ws c, (e = Close ws ∨ e = SockError ws) ∧
             clients w !! ws = Some c ∧ c_roomId c = Some rid).
Proof.
  intros [_ Hrun]%exec_inv Hroom.
  assert (Hsame : rooms w' = rooms w →
    (rooms w' !! rid = Some room ∨ rooms w' !! rid = None ∨ room_id_of e = Some rid) ∧
    (rooms w' !! rid = None →
       ∃ ws c, (e = Close ws ∨ e = SockError ws) ∧
               clients w !! ws = Some c ∧ c_roomId c = Some rid)).
  { intros ->. split; [by left|]. intros H. congruence. }
  assert (Hnew : ∀ rid0, room_id_of e = Some rid0 →
    rooms w' = rooms w ∨ (∃ room0, rooms w' = <[rid0 := room0]> (rooms w)) →
    (rooms w' !! rid = Some room ∨ rooms w' !! rid = None ∨ room_id_of e = Some rid) ∧
    (rooms w' !! rid = None →
       ∃ ws c, (e = Close ws ∨ e = SockError ws) ∧
               clients w !! ws = Some c ∧ c_roomId c = Some rid)).
  { intros rid0 He [E|[room0 E]]; [by apply Hsame|]. rewrite E.
    destruct (decide (rid0 = rid)) as [->|Hne].
    - rewrite lookup_insert_eq. split; [right; by right|done].
    - rewrite lookup_insert_ne by done. split; [by left|]. intros H. congruence. }
  assert (Hdel : ∀ ws w0, (e = Close ws ∨ e = SockError ws) →
    rooms w0 = rooms w → clients w0 = clients w → w' = cleanup ws w0 →
    (rooms w' !! rid = Some room ∨ rooms w' !! rid = None ∨ room_id_of e = Some rid) ∧
    (rooms w' !! rid = None →
       ∃ ws c, (e = Close ws ∨ e = SockError ws) ∧
               clients w !! ws = Some c ∧ c_roomId c = Some rid)).
  { intros ws w0 He Hr Hc ->.
    destruct (cleanup_rooms_exact ws w0) as [E|(c & rid0 & Hc0 & Hrid0 & E)].
    - rewrite E, Hr. split; [by left|]. intros H. congruence.
    - rewrite E, Hr. destruct (decide (rid0 = rid)) as [->|Hne].
      + rewrite lookup_delete_eq. split; [right; by left|]. intros _.
        exists ws, c. by rewrite <- Hc.
      + rewrite lookup_delete_ne by done. split; [by left|]. intros H. congruence. }
  destruct e as [ws id|ws body rid0 now|ws|ws|h rid0]; simpl in Hrun.
  - injection Hrun as <-. apply Hsame. unfold on_connection. by rewrite send_emit.
  - destruct (on_message_cases _ _ _ _ _ _ Hrun)
      as [[out ->]|(c & msg & f & _ & _ & _ & _ & H)]; [by apply Hsame|].
    apply (Hnew rid0); [done|].
    destruct (maybeStart_cases _ _ _ _ _ _ H) as [->|[[n Hn]|(b & Hb & Ht & ->)]].
    + by left.
    + by apply createRoom_rooms_exact in Hn.
    + by left.
  - injection Hrun as <-. apply (Hdel ws (set_socks (<[ws := Closed]>) w)); auto.
  - injection Hrun as <-. apply (Hdel ws (set_socks (<[ws := Closing]>) w)); auto.
  - destruct (timers w !! h) as [t|]; [|injection Hrun as <-; by apply Hsame].
    apply (Hnew rid0); [done|]. unfold on_timer in Hrun.
    destruct (waiting _ !! _) as [b|]; [|injection Hrun as <-; by left].
    cbn zeta in Hrun. destruct (_ <=? _); [|injection Hrun as <-; by left].
    by apply createRoom_rooms_exact in Hrun.
Qed.

(** The sockets [cleanup] closes. *)
Lemma cleanup_closes ws w s :
  socks (cleanup ws w) !! s ≠ socks w !! s →
  socks w !! s = Some Open ∧ socks (cleanup ws w) !! s = Some Closing ∧
  ∃ c rid room, clients w !! ws = Some c ∧ c_roomId c = Some rid ∧
                rooms w !! rid = Some room ∧ s ∈ sockets room.
Proof.
  unfold cleanup. destruct (clients w !! ws) as [c|] eqn:Hc; [|done].
  destruct (leave_queue_frame ws c w) as (_ & Lr & Ls & _ & _).
  cbn [socks set_clients]. unfold close_room.
  destruct (c_roomId c) as [rid|] eqn:Hr; [|by rewrite Ls].
  destruct (str_truthy rid); [|by rewrite Ls].
  destruct (rooms (leave_queue ws c w) !! rid) as [room|] eqn:Hroom; [|by rewrite Ls].
  destruct (close_loop ws (sockets room) (leave_queue ws c w)) as (_ & _ & _ & _ & _ & Ks & _).
  cbn [socks set_rooms]. rewrite Ks. destruct (decide _) as [[Hs Ho]|_]; [|by rewrite Ls].
  intros _. unfold is_open in Ho. rewrite Ls in Ho.
  destruct (socks w !! s) as [[]|] eqn:E; try done.
  split; [done|]. split; [done|]. exists c, rid, room. by rewrite <- Lr.
Qed.

(** X25. An open socket stops being open in a step only on its own close or
    error event, or because the server closes it when, on the close or error
    event of another socket, it dissolves the room that socket's session
    refers to, of which it is a member: the server closes no socket for
    another reason. *)
Theorem server_closes_room_members_only e w w' s :
  exec e w = Some w' → socks w !! s = Some Open → socks w' !! s ≠ Some Open →
  e = Close s ∨ e = SockError s ∨
  (socks w' !! s = Some Closing ∧
   ∃ ws c rid room, (e = Close ws ∨ e = SockError ws) ∧ clients w !! ws = Some c ∧
     c_roomId c = Some rid ∧ rooms w !! rid = Some room ∧ s ∈ sockets room).
Proof.
  intros [Hen Hrun]%exec_inv Hopen Hnot.
  assert (Hcl : ∀ ws st, w' = cleanup ws (set_socks (<[ws := st]>) w) →
            e = Close ws ∨ e = SockError ws →
    e = Close s ∨ e = SockError s ∨
    (socks w' !! s = Some Closing ∧
     ∃ ws c rid room, (e = Close ws ∨ e = SockError ws) ∧ clients w !! ws = Some c ∧
       c_roomId c = Some rid ∧ rooms w !! rid = Some room ∧ s ∈ sockets room)).
  { intros ws st -> He. destruct (decide (ws = s)) as [->|Hne]; [tauto|].
    right; right.
    destruct (cleanup_closes ws (set_socks (<[ws := st]>) w) s)
      as (_ & Hc & c & rid & room & H).
    - cbn [socks set_socks]. rewrite lookup_insert_ne by done. congruence.
    - split; [done|]. exists ws, c, rid, room. done. }
  destruct e as [ws id|ws body rid now|ws|ws|h rid]; simpl in Hrun, Hen.
  - injection Hrun as <-. destruct Hnot. unfold on_connection. rewrite send_emit.
    cbn [socks emit set_clients set_socks]. apply bool_decide_eq_true in Hen.
    rewrite lookup_insert_ne; [done|]. intros ->. congruence.
  - destruct Hnot. by rewrite (on_message_socks _ _ _ _ _ _ Hrun).
  - injection Hrun as <-. apply (Hcl ws Closed); auto.
  - injection Hrun as <-. apply (Hcl ws Closing); auto.
  - destruct Hnot. destruct (timers w !! h) as [t|]; [|by injection Hrun as <-].
    by rewrite (on_timer_socks _ _ _ _ _ Hrun).
Qed.

End Coverage.

(** * The theorems at concrete inputs *)

Section Witnesses.

#[local] Existing Instance znum_ops.

Lemma exact_mode_fifo_match_witness :
  ∃ w', on_message 1 (Some (join_msg "ONLINE1V1")) "r1" 0 ex_one_waiting = (Done, w') ∧
    ∃ ps, rooms w' =
      <["r1" := {| hostWs := Some 0; sockets := [0; 1]; players := ps;
                   r_mode := "ONLINE1V1"; r_tier := ZInt 1 |}]> (rooms ex_one_waiting).
Proof.
  destruct (exact_mode_fifo_match 1 (fresh_session "b") (join_msg "ONLINE1V1")
              (ex_fields "ONLINE1V1") "r1" 0 ex_one_waiting) as (_ & _ & w' & Hw' & H).
  - vm_compute. reflexivity.
  - reflexivity.
  - reflexivity.
  - left. reflexivity.
  - left. apply (run_connected [Connect 0 "a"; Connect 1 "b";
                                Message 0 (Some (join_msg "ONLINE1V1")) "r0" 0] world0).
    + constructor.
    + repeat constructor.
    + vm_compute. reflexivity.
  - exists w'. split; [exact Hw'|]. exact (proj1 H).
Defined.

Lemma free_for_all_start_witness :
  ∃ w' ps, on_timer "ONLINEPVP" (ZInt 1) "r2" ex_window = (Done, w') ∧
    rooms w' =
      <["r2" := {| hostWs := Some 0; sockets := [0; 1]; players := ps;
                   r_mode := "ONLINEPVP"; r_tier := ZInt 1 |}]> (rooms ex_window).
Proof.
  destruct (free_for_all_start (ZInt 1) "r2" 0 ex_window) as [H _].
  destruct (H {| queue := [0; 1]; timer := Some 0; startedAt := 5 |})
    as (_ & _ & _ & Hfire & _).
  - vm_compute. reflexivity.
  - destruct Hfire as (w' & ps & Hw' & Hr & _).
    + simpl. lia.
    + repeat constructor; eexists; vm_compute; reflexivity.
    + exists w', ps. split; [exact Hw' | exact Hr].
Defined.

Lemma relay_routing_witness :
  on_message 1 (Some (ex_input (JStr "left"))) "r" 0 ex_room =
    (Done, emit [(0, InputFrom "b" (JStr "left"))] ex_room).
Proof.
  destruct (relay_routing 1 (ex_session "b" "ONLINE1V1" (Some "r1")) "r1"
              (ex_input (JStr "left")) "input" "r" 0 ex_room) as [_ H].
  - vm_compute. reflexivity.
  - reflexivity.
  - discriminate.
  - reflexivity.
  - left. reflexivity.
  - rewrite H. reflexivity.
Defined.

(** A falsy payload reaches the host as an empty object. *)
Lemma input_payload_not_verbatim : ¬ input_forwarded_verbatim.
Proof.
  intros H.
  specialize (H 1 (ex_session "b" "ONLINE1V1" (Some "r1")) "r1" ex_room_r1
                (ex_input (JBool false)) (JBool false) "r" 0%Z ex_room).
  assert (G : outbox (on_message 1 (Some (ex_input (JBool false))) "r" 0 ex_room).2
            = outbox (send_opt (hostWs ex_room_r1)
                        (InputFrom "b" (JBool false)) ex_room)).
  { rewrite H; [reflexivity | by vm_compute | reflexivity | discriminate
               | by vm_compute | discriminate | reflexivity | reflexivity]. }
  vm_compute in G. discriminate G.
Qed.

Lemma cleanup_dissolves_room_witness :
  rooms (cleanup 1 ex_room) = delete "r1" (rooms ex_room) ∧
  (0, disconnect_notice) ∈ outbox (cleanup 1 ex_room).
Proof.
  destruct (cleanup_dissolves_room 1 ex_room) as [H _].
  destruct (H (ex_session "b" "ONLINE1V1" (Some "r1")) "r1" ex_room_r1)
    as (Hr & _ & _ & Hn & _).
  - vm_compute. reflexivity.
  - reflexivity.
  - discriminate.
  - vm_compute. reflexivity.
  - split; [exact Hr|]. apply Hn.
    + apply elem_of_cons. left. reflexivity.
    + discriminate.
    + vm_compute. reflexivity.
Defined.

Lemma rejoin_same_bucket_witness :
  ∃ w', on_message 0 (Some (join_msg "ONLINE1V1")) "r5" 9 ex_one_waiting = (Done, w') ∧
    queue <$> waiting w' !! "ONLINE1V1|1" = Some [0].
Proof.
  destruct (rejoin_same_bucket 0 (ex_session "a" "ONLINE1V1" None)
              (join_msg "ONLINE1V1") (ex_fields "ONLINE1V1") "r5" 9 ex_one_waiting
              {| queue := [0]; timer := None; startedAt := 0 |})
    as (_ & w' & Hw' & Hq & _).
  - vm_compute. reflexivity.
  - reflexivity.
  - reflexivity.
  - vm_compute. reflexivity.
  - apply elem_of_cons. left. reflexivity.
  - reflexivity.
  - exists w'. split; [exact Hw' | exact Hq].
Defined.

Lemma join_mode_coercion_witness :
  on_message 0 (Some (JObj [("type", JStr "join"); ("mode", JNull)])) "r" 0 ex_connected =
  on_message 0 (Some (JObj [("mode", JStr "ONLINEPVP"); ("type", JStr "join")])) "r" 0
    ex_connected.
Proof.
  destruct (join_mode_coercion 0 (fresh_session "a")
              (JObj [("type", JStr "join"); ("mode", JNull)])
              (ex_fields "ONLINEPVP") "r" 0 ex_connected) as (H & _).
  - vm_compute. reflexivity.
  - reflexivity.
  - reflexivity.
  - apply H. intros v Hv. by injection Hv as <-.
Defined.

(** C7 as the specification words it fails: the mode "FOO" is stored as
    "FOO", not as "ONLINEPVP". *)
Lemma unrecognized_mode_kept : ¬ unrecognized_mode_is_pvp.
Proof.
  intros H.
  specialize (H 0 (fresh_session "a") (join_msg "FOO") (JStr "FOO") "r" 0%Z ex_connected).
  assert (G : c_mode <$> clients (on_message 0 (Some (join_msg "FOO")) "r" 0 ex_connected).2 !! 0
            = c_mode <$> clients (on_message 0
                (Some (with_mode_field "ONLINEPVP" (join_msg "FOO"))) "r" 0 ex_connected).2 !! 0).
  { rewrite H; [reflexivity | by vm_compute | reflexivity | reflexivity
               | discriminate | discriminate | discriminate]. }
  vm_compute in G. discriminate G.
Qed.

Lemma hostStart_after_roomInfo_witness :
  ∃ status ps hostId,
    outbox (createRoomFromQueue "ONLINEPVP" (ZInt 1) 2 "r9" ex_window).2 =
      outbox ex_window ++ status
      ++ deliveries ex_window [0; 1] (found_msg "r9" hostId ps)
      ++ [(0, HostStart)].
Proof.
  destruct (hostStart_after_roomInfo "ONLINEPVP" (ZInt 1) 2 "r9" ex_window
              (createRoomFromQueue "ONLINEPVP" (ZInt 1) 2 "r9" ex_window).2
              {| queue := [0; 1]; timer := Some 0; startedAt := 5 |})
    as (status & ps & hostId & _ & _ & Ho).
  - vm_compute. reflexivity.
  - discriminate.
  - vm_compute. reflexivity.
  - exists status, ps, hostId. exact Ho.
Defined.

Lemma ex_run_reachable es : is_Some (run es world0) → reachable (ex_run es).
Proof.
  intros [w H]. unfold ex_run. rewrite H. simpl.
  eapply run_reachable; [constructor | exact H].
Qed.

Lemma one_timer_per_bucket_witness :
  timers_ok ex_window ∧ is_Some (timers ex_window !! 0).
Proof.
  destruct one_timer_per_bucket as [H _]. split.
  - apply H. apply ex_run_reachable. eexists. vm_compute. reflexivity.
  - eexists. vm_compute. reflexivity.
Defined.

(** C5 as the specification words it fails: after a join sent while matched,
    socket 0 is in the queue of ONLINE1V1|1 and in room "r1". *)
Lemma queued_while_matched : ¬ (∀ w, reachable w → session_invariant w).
Proof.
  intros H. destruct (H ex_rejoined) as [_ H2].
  { apply ex_run_reachable. eexists. vm_compute. reflexivity. }
  apply (H2 0). split.
  - exists "ONLINE1V1|1", [0]. split; [by vm_compute | apply elem_of_cons; by left].
  - exists "r1", ex_room_r1. split; [by vm_compute | apply elem_of_cons; by left].
Qed.

Lemma ex_room_well_behaved : well_behaved ex_room.
Proof.
  apply (wb_step ex_one_waiting (Message 1 (Some (join_msg "ONLINE1V1")) "r1" 0));
    [|split; [discriminate|]|by vm_compute].
  - apply (wb_step ex_connected (Message 0 (Some (join_msg "ONLINE1V1")) "r0" 0));
      [|split; [discriminate|]|by vm_compute].
    + apply (wb_step (ex_run [Connect 0 "a"]) (Connect 1 "b")); [|done|by vm_compute].
      apply (wb_step world0 (Connect 0 "a")); [constructor|done|by vm_compute].
    + intros _ c Hc. split.
      * vm_compute in Hc. by injection Hc as <-.
      * intros f k q _ Hq. unfold queue_at in Hq.
        replace (waiting ex_connected) with (∅ : gmap string Bucket) in Hq by by vm_compute.
        by rewrite lookup_empty in Hq.
  - intros _ c Hc. split.
    + vm_compute in Hc. by injection Hc as <-.
    + intros f k q Hf Hq Hin. unfold queue_at in Hq.
      replace (waiting ex_one_waiting)
        with ({["ONLINE1V1|1" := {| queue := [0]; timer := None; startedAt := 0 |}]}
                : gmap string Bucket) in Hq by by vm_compute.
      destruct (decide (k = "ONLINE1V1|1")) as [->|Hne].
      * vm_compute in Hf. by injection Hf as <-.
      * by rewrite lookup_singleton_ne in Hq.
Qed.

Lemma sessions_and_rooms_witness :
  (∃ c, clients ex_room !! 1 = Some c ∧ c_roomId c = Some "r1") ∧
  ¬ (queued ex_room 1 ∧ in_room ex_room 1).
Proof.
  destruct sessions_and_rooms as [_ H].
  destruct (H ex_room ex_room_well_behaved) as [Href Hdisj]. split.
  - apply (Href "r1" ex_room_r1 1); [by vm_compute|].
    apply elem_of_cons. right. apply elem_of_cons. by left.
  - apply Hdisj.
Defined.

(** C6 fails on the code. A message whose body is the JSON text [null] makes
    the message callback throw, and so does a join whose tankName is an
    object with a "toString" property; and a join that completes a bucket
    holding a socket whose session is gone makes [createRoomFromQueue]
    throw. *)
Theorem message_handler_throws :
  (reachable ex_connected ∧
   enabled (Message 0 (Some JNull) "r" 0) ex_connected = true ∧
   handle (Message 0 (Some JNull) "r" 0) ex_connected = (Threw, ex_connected) ∧
   (handle (Message 0 (Some (JObj [("type", JStr "join");
                                   ("tankName", JObj [("toString", JNull)])])) "r" 0)
      ex_connected).1 = Threw) ∧
  (reachable ex_stale ∧
   clients ex_stale !! 0 = None ∧
   queue_at ex_stale "ONLINE1V1|1" = Some [0] ∧
   enabled (Message 1 (Some (join_msg "ONLINE1V1")) "r" 0) ex_stale = true ∧
   (handle (Message 1 (Some (join_msg "ONLINE1V1")) "r" 0) ex_stale).1 = Threw).
Proof.
  split.
  - split; [|by vm_compute]. apply ex_run_reachable. eexists. by vm_compute.
  - split; [|by vm_compute]. apply ex_run_reachable. eexists. by vm_compute.
Qed.

(** C1 fails on the code. Socket 0 has left, and [cleanup] has taken it out
    of the bucket of its last mode only: the ONLINE1V1 queue still holds it.
    The join of socket 1 brings that queue to 2 sockets, the size of the
    mode; [createRoomFromQueue] takes both out of the queue and throws at
    line 108, before it stores a room: there is no room, the bucket is gone
    and the process ends. *)
Theorem exact_bucket_full_without_room :
  reachable ex_stale ∧
  clients ex_stale !! 0 = None ∧
  queue_at ex_stale "ONLINE1V1|1" = Some [0] ∧
  length (enqueue 1 [0]) = needExact "ONLINE1V1" ∧
  enabled (Message 1 (Some (join_msg "ONLINE1V1")) "r" 0) ex_stale = true ∧
  (handle (Message 1 (Some (join_msg "ONLINE1V1")) "r" 0) ex_stale).1 = Threw ∧
  rooms (handle (Message 1 (Some (join_msg "ONLINE1V1")) "r" 0) ex_stale).2 = ∅ ∧
  queue_at (handle (Message 1 (Some (join_msg "ONLINE1V1")) "r" 0) ex_stale).2
    "ONLINE1V1|1" = None ∧
  exec (Message 1 (Some (join_msg "ONLINE1V1")) "r" 0) ex_stale = None.
Proof.
  split; [|by vm_compute]. apply ex_run_reachable. eexists. by vm_compute.
Qed.

(** C2 fails on the code. Socket 0 has left and is still in the ONLINEPVP
    queue; the join of socket 1 brings the queue to 2 and arms the window.
    When the window fires, 2 sockets are taken and [createRoomFromQueue]
    throws at line 108: no room is made and the process ends. *)
Theorem window_fires_without_room :
  reachable ex_stale_window ∧
  clients ex_stale_window !! 0 = None ∧
  waiting ex_stale_window !! "ONLINEPVP|1" =
    Some {| queue := [0; 1]; timer := Some 0; startedAt := 0 |} ∧
  timers ex_stale_window !! 0 =
    Some {| t_mode := "ONLINEPVP"; t_tier := ZInt 1; t_delay := 6500 |} ∧
  enabled (Fire 0 "r") ex_stale_window = true ∧
  (handle (Fire 0 "r") ex_stale_window).1 = Threw ∧
  rooms (handle (Fire 0 "r") ex_stale_window).2 = ∅ ∧
  exec (Fire 0 "r") ex_stale_window = None.
Proof.
  split; [|by vm_compute]. apply ex_run_reachable. eexists. by vm_compute.
Qed.

(** Socket 1 is a member of "r1", which socket 0 hosts, and its session
    refers to "r3", which it hosts itself: its input is taken for the input
    of a host and is ignored. *)
Lemma member_input_not_routed : ¬ input_routed_by_membership.
Proof.
  intros H.
  destruct (H 1 (ex_session "b" "ONLINE1V1" (Some "r3")) "r1" ex_room_r1 0
              (ex_input (JStr "left")) "r" 0%Z ex_rehosted) as [p Hp].
  - apply ex_run_reachable. eexists. by vm_compute.
  - by vm_compute.
  - by vm_compute.
  - apply elem_of_cons. right. apply elem_of_cons. by left.
  - reflexivity.
  - discriminate.
  - by vm_compute.
  - reflexivity.
  - vm_compute in Hp. apply list_elem_of_In in Hp. simpl in Hp.
    intuition discriminate.
Qed.

(** C3 as the specification words it fails, twice: the payload of an input
    is not forwarded as it was sent, and the input of a member that is not
    the host of its room does not reach that host when the member's session
    refers to another room. *)
Theorem relay_not_as_claimed :
  ¬ input_forwarded_verbatim ∧ ¬ input_routed_by_membership.
Proof. split; [exact input_payload_not_verbatim | exact member_input_not_routed]. Qed.

(** C4 as the specification words it fails: socket 0 is a member of "r1" and
    of "r3" and its session refers to "r3"; when it closes, "r1" stays. *)
Theorem member_close_keeps_room : ¬ member_close_ends_room.
Proof.
  intros H.
  destruct (H 0 "r1" ex_room_r1 ex_matched_twice) as [Hr _].
  - apply ex_run_reachable. eexists. by vm_compute.
  - by vm_compute.
  - apply elem_of_cons. by left.
  - by vm_compute.
  - vm_compute in Hr. discriminate Hr.
Qed.

(** A socket matched a second time is a member of two rooms, and its session
    points to the second: sockets 0 and 1 are in "r1", 0 joins again and is
    matched with 2 in "r3"; when 0 closes, "r3" is dissolved and "r1" stays. *)
Example matched_twice :
  let w := ex_run [Connect 0 "a"; Connect 1 "b"; Connect 2 "c";
                   Message 0 (Some (join_msg "ONLINE1V1")) "r0" 0;
                   Message 1 (Some (join_msg "ONLINE1V1")) "r1" 0;
                   Message 0 (Some (join_msg "ONLINE1V1")) "r2" 0;
                   Message 2 (Some (join_msg "ONLINE1V1")) "r3" 0] in
  (sockets <$> rooms w !! "r1" = Some [0; 1] ∧
   sockets <$> rooms w !! "r3" = Some [0; 2] ∧
   c_roomId <$> clients w !! 0 = Some (Some "r3")) ∧
  (exec (Close 0) w ≫= λ w', Some (sockets <$> rooms w' !! "r1", rooms w' !! "r3"))
    = Some (Some [0; 1], None).
Proof. by vm_compute. Qed.

(** Six joins fill an ONLINEPVP bucket: the room of six is made at once,
    the bucket goes and its timer is cleared. *)
Example six_join_pvp :
  let w := ex_run ([Connect 0 "a"; Connect 1 "b"; Connect 2 "c"; Connect 3 "d";
                    Connect 4 "e"; Connect 5 "f"]
                   ++ ((λ s, Message s (Some (join_msg "ONLINEPVP")) "r" 0%Z) <$> seq 0 6)) in
  sockets <$> rooms w !! "r" = Some [0; 1; 2; 3; 4; 5] ∧
  queue_at w "ONLINEPVP|1" = None ∧
  timers w = ∅.
Proof. by vm_compute. Qed.

(** Two joins with the mode "FOO": both wait in the bucket "FOO|1", no timer
    is armed and no room is made. *)
Example two_join_unknown_mode :
  let w := ex_run [Connect 0 "a"; Connect 1 "b";
                   Message 0 (Some (join_msg "FOO")) "r0" 0;
                   Message 1 (Some (join_msg "FOO")) "r1" 0] in
  queue_at w "FOO|1" = Some [0; 1] ∧ timers w = ∅ ∧ rooms w = ∅ ∧
  queue_at w "ONLINEPVP|1" = None.
Proof. by vm_compute. Qed.

(** The scenario of the specification: three sockets join ONLINE1V1 tier 1,
    the first two are matched with the first as host, the third waits; a
    fourth join completes a second room with the third and the fourth. *)
Example three_then_four_join :
  let joins := [Connect 0 "a"; Connect 1 "b"; Connect 2 "c"; Connect 3 "d";
                Message 0 (Some (join_msg "ONLINE1V1")) "r0" 0;
                Message 1 (Some (join_msg "ONLINE1V1")) "r1" 0;
                Message 2 (Some (join_msg "ONLINE1V1")) "r2" 0] in
  let w3 := ex_run joins in
  let w4 := ex_run (joins ++ [Message 3 (Some (join_msg "ONLINE1V1")) "r3" 0]) in
  (sockets <$> rooms w3 !! "r1" = Some [0; 1] ∧
   hostWs <$> rooms w3 !! "r1" = Some (Some 0) ∧
   queue_at w3 "ONLINE1V1|1" = Some [2]) ∧
  (sockets <$> rooms w4 !! "r3" = Some [2; 3] ∧
   hostWs <$> rooms w4 !! "r3" = Some (Some 2) ∧
   queue_at w4 "ONLINE1V1|1" = None).
Proof. by vm_compute. Qed.

End Witnesses.

(** * The further properties at concrete inputs *)

Section CoverageWitnesses.

#[local] Existing Instance znum_ops.

Lemma index_selection_witness :
  on_request ex_fs "/index.html" =
    Returned {| statusCode := 200; contentType := "text/html; charset=utf-8";
                body := "<p>public</p>" |}.
Proof.
  destruct (index_selection ex_fs "/index.html") as [H _].
  - right. reflexivity.
  - rewrite H; reflexivity.
Defined.

Lemma keyOf_supported_inj_witness :
  keyOf "ONLINE1V1" (ZInt 1) ≠ keyOf "ONLINE2V2" (ZInt 1).
Proof.
  intros E.
  apply (keyOf_supported_inj "ONLINE1V1" "ONLINE2V2" (ZInt 1) (ZInt 1)) in E as [E _].
  - discriminate E.
  - left. reflexivity.
  - right. left. reflexivity.
Defined.

Lemma unsupported_mode_never_starts_witness :
  maybeStart "FOO" (ZInt 1) "r2" 0 ex_foo = (Done, ex_foo).
Proof.
  destruct (unsupported_mode_never_starts "FOO" (ZInt 1) "r2" 0%Z ex_foo) as [H _].
  - intros [H|[H|H]]; discriminate H.
  - exact H.
Defined.

Lemma cleanup_leaves_queue_witness :
  queue_at (cleanup 0 ex_one_waiting) "ONLINE1V1|1" = None.
Proof.
  destruct (cleanup_leaves_queue 0 (ex_session "a" "ONLINE1V1" None) ex_one_waiting)
    as [H _].
  - vm_compute. reflexivity.
  - destruct (H "ONLINE1V1" (ZInt 1)) as [Hq _].
    + reflexivity.
    + discriminate.
    + reflexivity.
    + exact Hq.
Defined.

Lemma ex_reachable_window : reachable ex_window.
Proof. apply ex_run_reachable. eexists. by vm_compute. Qed.

Lemma ex_reachable_room : reachable ex_room.
Proof. apply ex_run_reachable. eexists. by vm_compute. Qed.

Lemma buckets_nonempty_distinct_witness :
  queue ex_pvp_bucket ≠ [] ∧ NoDup (queue ex_pvp_bucket).
Proof.
  apply (buckets_nonempty_distinct ex_window "ONLINEPVP|1" ex_pvp_bucket).
  - exact ex_reachable_window.
  - vm_compute. reflexivity.
Defined.

Lemma pending_timers_pvp_witness :
  ∃ b, waiting ex_window !! keyOf "ONLINEPVP" (ZInt 1) = Some b ∧
       timer b = Some 0 ∧ queue b ≠ [].
Proof.
  destruct (pending_timers_pvp ex_window 0
              {| t_mode := "ONLINEPVP"; t_tier := ZInt 1; t_delay := 6500 |})
    as (_ & _ & H).
  - exact ex_reachable_window.
  - vm_compute. reflexivity.
  - exact H.
Defined.

Lemma rooms_well_formed_witness :
  (∃ h, hostWs ex_room_r1 = Some h ∧ head (sockets ex_room_r1) = Some h) ∧
  NoDup (sockets ex_room_r1).
Proof.
  destruct (rooms_well_formed ex_room "r1" ex_room_r1) as (H1 & H2 & _).
  - exact ex_reachable_room.
  - vm_compute. reflexivity.
  - split; [exact H1 | exact H2].
Defined.

Lemma znum_no_bar_go (x : N) (s : string) :
  has_bar s = false → has_bar (pretty_N_go x s) = false.
Proof.
  revert s. induction (N.lt_wf_0 x) as [x _ IH]; intros s Hs.
  destruct (decide (x = 0)%N) as [->|Hx]; [by rewrite pretty_N_go_0|].
  rewrite pretty_N_go_step by lia. apply IH; [apply N.div_lt; lia|].
  simpl. rewrite Hs, orb_false_r. unfold pretty_N_char. by repeat case_match.
Qed.

Lemma znum_no_bar (x : znum) : has_bar (num_to_string x) = false.
Proof.
  destruct x as [[|p|p]|]; try done.
  - simpl. unfold pretty, pretty_Z, pretty, pretty_positive, pretty, pretty_N.
    case_decide; [done|]. by apply znum_no_bar_go.
  - simpl. unfold pretty, pretty_Z. rewrite has_bar_app.
    unfold pretty, pretty_positive, pretty, pretty_N.
    case_decide; [done|]. simpl. by apply znum_no_bar_go.
Qed.

Lemma eager_matching_witness :
  1 ≤ length (queue ex_pvp_bucket) ≤ 5 ∧
  (2 ≤ length (queue ex_pvp_bucket) →
     ∃ h, timer ex_pvp_bucket = Some h ∧ is_Some (timers ex_window !! h)).
Proof.
  destruct (eager_matching ex_window "ONLINEPVP" (ZInt 1) ex_pvp_bucket) as (_ & _ & H).
  - exact znum_no_bar.
  - exact ex_reachable_window.
  - vm_compute. reflexivity.
  - apply H. reflexivity.
Defined.

Lemma relay_stays_in_room_witness :
  ∃ out, on_message 1 (Some (ex_input (JStr "left"))) "r" 0 ex_room
           = (Done, emit out ex_room) ∧
    ∀ s m, (s, m) ∈ out → s ≠ 1 ∧ is_open ex_room s = true.
Proof.
  destruct (relay_stays_in_room 1 (ex_session "b" "ONLINE1V1" (Some "r1"))
              (ex_input (JStr "left")) "input" "r" 0%Z ex_room) as (out & Hrun & Hout).
  - exact ex_reachable_room.
  - vm_compute. reflexivity.
  - reflexivity.
  - left. reflexivity.
  - exists out. split; [exact Hrun|]. intros s m Hin.
    destruct (Hout s m Hin) as (H1 & H2 & _). split; [exact H1 | exact H2].
Defined.

Lemma room_roster_witness :
  ∃ room, rooms (createRoomFromQueue "ONLINEPVP" (ZInt 1) 2 "r9" ex_window).2 !! "r9"
            = Some room ∧
    sockets room = [0; 1] ∧ hostWs room = Some 0 ∧
    Forall2 (λ s p, ∃ c, clients ex_window !! s = Some c ∧ p_id p = c_id c ∧
                         p_tankName p = c_tankName c ∧ p_username p = c_username c)
            (sockets room) (players room).
Proof.
  destruct (room_roster "ONLINEPVP" (ZInt 1) 2 "r9" ex_window
              (createRoomFromQueue "ONLINEPVP" (ZInt 1) 2 "r9" ex_window).2
              ex_pvp_bucket) as (room & Hr & Hs & Hh & Hp & _).
  - vm_compute. reflexivity.
  - discriminate.
  - vm_compute. reflexivity.
  - exists room. split; [exact Hr|]. split; [exact Hs|]. split; [exact Hh | exact Hp].
Defined.

Lemma session_identity_witness :
  c_id (ex_session "a" "ONLINE1V1" (Some "r1")) = c_id (@fresh_session znum "a").
Proof.
  destruct (session_identity
              [Message 0 (Some (join_msg "ONLINE1V1")) "r0" 0%Z;
               Message 1 (Some (join_msg "ONLINE1V1")) "r1" 0%Z]
              ex_connected ex_room 0 (fresh_session "a")
              (ex_session "a" "ONLINE1V1" (Some "r1"))) as [H _].
  - apply ex_run_reachable. eexists. vm_compute. reflexivity.
  - vm_compute. reflexivity.
  - vm_compute. reflexivity.
  - vm_compute. reflexivity.
  - exact H.
Defined.

Lemma no_session_after_close_witness :
  ∃ w', exec (Close 1) ex_room = Some w' ∧ clients w' !! 1 = None.
Proof.
  destruct (no_session_after_close ex_room 1 ex_reachable_room) as [_ H].
  destruct (exec (Close 1) ex_room) as [w'|] eqn:E.
  - exists w'. split; [reflexivity|]. apply (H w'). left. reflexivity.
  - vm_compute in E. discriminate E.
Defined.

Lemma usernames_bounded_witness :
  ∃ c, clients ex_named !! 0 = Some c ∧ c_username c = "a very long user" ∧
       String.length (c_username c) ≤ 16.
Proof.
  destruct (usernames_bounded ex_named) as [H _].
  - apply ex_run_reachable. eexists. vm_compute. reflexivity.
  - eexists. split; [vm_compute; reflexivity|]. split; [reflexivity|].
    apply (H 0). vm_compute. reflexivity.
Defined.

Lemma welcome_first_witness :
  ∃ rest, received ex_room 1 = Welcome "b" :: rest ∧
          Forall (λ m, is_welcome m = false) rest.
Proof.
  destruct (welcome_first ex_room 1 ex_reachable_room) as [_ H].
  destruct H as (id & rest & Hr & Hrest & _).
  - eexists. vm_compute. reflexivity.
  - exists rest. split; [|exact Hrest].
    assert (E : head (received ex_room 1) = Some (Welcome "b")) by (vm_compute; reflexivity).
    rewrite Hr in E. injection E as ->. exact Hr.
Defined.

Lemma handled_without_throw_witness :
  ∃ w', exec (Message 1 (Some (join_msg "ONLINE1V1")) "r1" 0) ex_one_waiting = Some w'.
Proof.
  apply handled_without_throw.
  - right. apply (run_connected [Connect 0 "a"; Connect 1 "b";
                                 Message 0 (Some (join_msg "ONLINE1V1")) "r0" 0%Z] world0).
    + constructor.
    + repeat constructor.
    + vm_compute. reflexivity.
  - split; [discriminate|]. intros _. eexists. vm_compute. reflexivity.
  - vm_compute. reflexivity.
Defined.

Lemma ignored_messages_witness :
  on_message 0 (Some (JArr [JNum (ZInt 3)])) "r" 0 ex_connected = (Done, ex_connected).
Proof.
  apply ignored_messages. right. right. left.
  exists (JArr [JNum (ZInt 3)]). split; [reflexivity|]. split; [discriminate|].
  intros ty Hty. discriminate Hty.
Defined.

Lemma ex_left_tidy : tidy_run ex_left.
Proof.
  apply (tr_step ex_one_waiting (Close 0)); [|done|by vm_compute].
  apply (tr_step ex_connected (Message 0 (Some (join_msg "ONLINE1V1")) "r0" 0));
    [| |by vm_compute].
  - apply (tr_step (ex_run [Connect 0 "a"]) (Connect 1 "b")); [|done|by vm_compute].
    apply (tr_step world0 (Connect 0 "a")); [constructor|done|by vm_compute].
  - intros _ f Hf. vm_compute in Hf. injection Hf as <-. split; [discriminate|].
    intros k q Hq. unfold queue_at in Hq.
    replace (waiting ex_connected) with (∅ : gmap string Bucket) in Hq by by vm_compute.
    by rewrite lookup_empty in Hq.
Qed.

Lemma tidy_runs_keep_sessions_witness :
  ∃ w', exec (Message 1 (Some (join_msg "ONLINE1V1")) "r1" 0) ex_left = Some w'.
Proof.
  destruct (tidy_runs_keep_sessions ex_left ex_left_tidy) as [_ H].
  apply H.
  - split; [discriminate|]. intros _. eexists. vm_compute. reflexivity.
  - vm_compute. reflexivity.
Defined.

Lemma join_status_witness :
  ∃ rest, outbox (on_message 1 (Some (join_msg "ONLINE1V1")) "r1" 0 ex_one_waiting).2
    = outbox ex_one_waiting
      ++ [(0, searching "2/2"); (1, searching "2/2")] ++ rest.
Proof.
  destruct (join_status 1 (fresh_session "b") (join_msg "ONLINE1V1")
              (ex_fields "ONLINE1V1") "r1" 0%Z ex_one_waiting
              (on_message 1 (Some (join_msg "ONLINE1V1")) "r1" 0 ex_one_waiting).2)
    as (_ & (rest & Hrest) & _).
  - vm_compute. reflexivity.
  - reflexivity.
  - reflexivity.
  - vm_compute. reflexivity.
  - exists rest. exact Hrest.
Defined.

Lemma rooms_never_change_witness :
  ∃ ws c, (@Close znum 1 = Close ws ∨ @Close znum 1 = SockError ws) ∧
          clients ex_room !! ws = Some c ∧ c_roomId c = Some "r1".
Proof.
  destruct (rooms_never_change (Close 1) ex_room
              (cleanup 1 (set_socks (<[1 := Closed]>) ex_room)) "r1" ex_room_r1)
    as [_ H].
  - vm_compute. reflexivity.
  - vm_compute. reflexivity.
  - apply H. vm_compute. reflexivity.
Defined.

Lemma server_closes_room_members_only_witness :
  socks (cleanup 1 (set_socks (<[1 := Closed]>) ex_room)) !! 0 = Some Closing.
Proof.
  destruct (server_closes_room_members_only (Close 1) ex_room
              (cleanup 1 (set_socks (<[1 := Closed]>) ex_room)) 0)
    as [H|[H|[H _]]].
  - vm_compute. reflexivity.
  - vm_compute. reflexivity.
  - vm_compute. discriminate.
  - discriminate H.
  - discriminate H.
  - exact H.
Defined.

End CoverageWitnesses.
